(** * abs-bigfinish: crawler, extractor and search overlay

    A shallow embedding of [scraper.py], [web-api.py] and
    [outdated_scraper-api.py], and the properties of the crawl-and-extract
    pipeline proved about it.

    Python [str] values are sequences of code points; this development
    covers the code points below 256 and represents a text as a
    [list ascii].  SQLite tables are finite maps keyed by URL, the in-process
    [all_links] dict is an insertion-ordered association list, exceptions
    are an explicit [result] type. *)

From Stdlib Require Import ZArith Ascii String List Bool Lia Permutation Sorted.
From stdpp Require Import gmap strings list fin_maps.

Import ListNotations.
Local Open Scope nat_scope.

Abbreviation text := (list ascii).

(** A Python string literal. *)
Definition txt (s : string) : text := list_ascii_of_string s.

(** ** Exceptions *)

Inductive exn :=
| TypeError | AttributeError | IndexError | ValueError | ReError.

Inductive result (A : Type) :=
| Ok (a : A)
| Raise (e : exn).
Arguments Ok {A} a.
Arguments Raise {A} e.

Definition bind {A B} (r : result A) (k : A -> result B) : result B :=
  match r with
  | Ok a => k a
  | Raise e => Raise e
  end.

Notation "'do' x <- r ; k" := (bind r (fun x => k))
  (at level 10, x name, r at level 100, k at level 200).

(** ** Python string operations *)

Module PyStr.

Definition code (c : ascii) : nat := nat_of_ascii c.

Definition between (lo hi n : nat) : bool := (lo <=? n) && (n <=? hi).

(** [str.isspace] on one character, also the class [\s] of [re]. *)
Definition isspace (c : ascii) : bool :=
  let n := code c in
  between 9 13 n || between 28 32 n || (n =? 133) || (n =? 160).

(** The class [\d]. *)
Definition isdigit (c : ascii) : bool := between 48 57 (code c).

(** The class [[a-zA-Z]]. *)
Definition isalpha (c : ascii) : bool :=
  let n := code c in between 65 90 n || between 97 122 n.

Definition lower_char (c : ascii) : ascii :=
  let n := code c in
  if between 65 90 n || (between 192 222 n && negb (n =? 215))
  then ascii_of_nat (n + 32) else c.

Definition lower (s : text) : text := map lower_char s.

Fixpoint lstrip (s : text) : text :=
  match s with
  | c :: s' => if isspace c then lstrip s' else s
  | [] => []
  end.

Definition rstrip (s : text) : text := rev (lstrip (rev s)).

Definition strip (s : text) : text := rstrip (lstrip s).

Fixpoint startswith (s p : text) : bool :=
  match p, s with
  | [], _ => true
  | a :: p', b :: s' => Ascii.eqb a b && startswith s' p'
  | _ :: _, [] => false
  end.

(** [sub in s]. *)
Fixpoint contains (sub s : text) : bool :=
  startswith s sub ||
  match s with
  | [] => false
  | _ :: s' => contains sub s'
  end.

(** [s.split(sep)] for a non-empty [sep]: [skip] characters of a
    separator just recognised remain to be dropped, [cur] is the piece
    being read, in reverse. *)
Fixpoint split_go (sep s : text) (skip : nat) (cur : text) : list text :=
  match s with
  | [] => [rev cur]
  | c :: s' =>
      match skip with
      | S k => split_go sep s' k cur
      | O =>
          if startswith s sep
          then rev cur :: split_go sep s' (length sep - 1) []
          else split_go sep s' 0 (c :: cur)
      end
  end.

Definition split (sep s : text) : list text := split_go sep s 0 [].

(** [sep.join(l)]. *)
Fixpoint join (sep : text) (l : list text) : text :=
  match l with
  | [] => []
  | [x] => x
  | x :: l' => x ++ sep ++ join sep l'
  end.

(** [s.replace(old, new)] for a non-empty [old]. *)
Definition replace (old new s : text) : text := join new (split old s).

(** Truthiness of an optional string: [None] and [''] are false. *)
Definition truthy (o : option text) : bool :=
  match o with
  | Some (_ :: _) => true
  | _ => false
  end.

(** [f"{x}"] of a value that is a string or [None]. *)
Definition format (o : option text) : text :=
  match o with
  | Some s => s
  | None => txt "None"
  end.

(** [l[i]]. *)
Definition index {A} (l : list A) (i : nat) : result A :=
  match nth_error l i with
  | Some x => Ok x
  | None => Raise IndexError
  end.

Definition digit_val (c : ascii) : Z := Z.of_nat (code c - 48).

(** Digits with single underscores between them, as [int] reads them;
    [acc] is the value read so far, [prev_digit] tells whether the last
    character was a digit. *)
Fixpoint int_digits (s : text) (acc : Z) (prev_digit : bool) : option Z :=
  match s with
  | [] => if prev_digit then Some acc else None
  | c :: s' =>
      if isdigit c then int_digits s' (10 * acc + digit_val c)%Z true
      else if Ascii.eqb c "_" && prev_digit
           then match s' with
                | d :: _ => if isdigit d then int_digits s' acc false else None
                | [] => None
                end
           else None
  end.

(** White space as [int] skips it around the number: tab to carriage
    return and the space, and NEL and NBSP, which [int] turns into spaces
    in a text that is not ASCII.  The separators U+001C to U+001F, which
    [str.strip] removes, are not among them. *)
Definition int_space (c : ascii) : bool :=
  let n := code c in
  between 9 13 n || (n =? 32) || (n =? 133) || (n =? 160).

Fixpoint int_lstrip (s : text) : text :=
  match s with
  | c :: s' => if int_space c then int_lstrip s' else s
  | [] => []
  end.

Definition int_strip (s : text) : text := rev (int_lstrip (rev (int_lstrip s))).

(** [sys.int_info.default_max_str_digits]: [int] raises [ValueError] on a
    text with more digits. *)
Definition max_str_digits : Z := 4300.

(** [int(s)] in base 10; [None] stands for [ValueError]. *)
Definition int (s : text) : option Z :=
  match int_strip s with
  | c :: r =>
      let number := if Ascii.eqb c "+" || Ascii.eqb c "-" then r else c :: r in
      if (max_str_digits <? Z.of_nat (length (List.filter isdigit number)))%Z
      then None
      else if Ascii.eqb c "+" then int_digits r 0 false
      else if Ascii.eqb c "-" then option_map Z.opp (int_digits r 0 false)
      else int_digits (c :: r) 0 false
  | [] => None
  end.

(** The value of an optional integer known to be present. *)
Definition to_Z (o : option Z) : Z :=
  match o with
  | Some z => z
  | None => 0
  end.

End PyStr.

(** ** The fragment of [re] used with fixed patterns

    Every fixed pattern of the program is a sequence of anchors, literal
    characters, group parentheses and greedy repetitions of one character
    class.  [exec] is the backtracking matcher on such sequences: a
    repetition first takes as many characters as it can and gives them back
    one at a time while the rest of the pattern fails. *)

Module Re.

Inductive item :=
| Bol                                           (* ^ *)
| Eol                                           (* $ *)
| Lit (c : ascii)
| Rep (cls : ascii -> bool) (lo : nat) (hi : option nat)
| Mark.                                         (* ( or ) *)

Fixpoint run_len (cls : ascii -> bool) (s : text) : nat :=
  match s with
  | c :: s' => if cls c then S (run_len cls s') else 0
  | [] => 0
  end.

Definition greedy (cls : ascii -> bool) (hi : option nat) (s : text) : nat :=
  match hi with
  | Some h => Nat.min h (run_len cls s)
  | None => run_len cls s
  end.

Fixpoint backtrack {R} (k : nat -> option R) (lo n : nat) : option R :=
  if n <? lo then None
  else match k n with
       | Some r => Some r
       | None =>
           match n with
           | O => None
           | S n' => backtrack k lo n'
           end
       end.

Definition newline : ascii := ascii_of_nat 10.

(** [exec p s pos marks]: match [p] against [s], the suffix of the subject
    that starts at offset [pos]; the result is the end offset and the
    offsets of the parentheses passed, in order. *)
Fixpoint exec (p : list item) (s : text) (pos : nat) (marks : list nat)
  : option (nat * list nat) :=
  match p with
  | [] => Some (pos, rev marks)
  | Bol :: p' => if pos =? 0 then exec p' s pos marks else None
  | Eol :: p' =>
      match s with
      | [] => exec p' s pos marks
      | [c] => if Ascii.eqb c newline then exec p' s pos marks else None
      | _ => None
      end
  | Lit c :: p' =>
      match s with
      | c' :: s' => if Ascii.eqb c c' then exec p' s' (S pos) marks else None
      | [] => None
      end
  | Mark :: p' => exec p' s pos (pos :: marks)
  | Rep cls lo hi :: p' =>
      backtrack (fun n => exec p' (skipn n s) (pos + n) marks) lo (greedy cls hi s)
  end.

(** [re.match(p, s)]. *)
Definition rmatch (p : list item) (s : text) : option (nat * list nat) :=
  exec p s 0 [].

(** [re.search(p, s)]: the first offset at which [p] matches. *)
Fixpoint search_from (p : list item) (s : text) (pos : nat)
  : option (nat * list nat) :=
  match exec p s pos [] with
  | Some r => Some r
  | None =>
      match s with
      | [] => None
      | _ :: s' => search_from p s' (S pos)
      end
  end.

Definition search (p : list item) (s : text) : option (nat * list nat) :=
  search_from p s 0.

(** The text between offsets [a] and [b] of the subject. *)
Definition slice (s : text) (a b : nat) : text := firstn (b - a) (skipn a s).

(** [m.group(i)] for [i >= 1], from the offsets of the parentheses. *)
Definition group (s : text) (marks : list nat) (i : nat) : text :=
  slice s (nth (2 * (i - 1)) marks 0) (nth (2 * (i - 1) + 1) marks 0).

Definition notnl (c : ascii) : bool := negb (Ascii.eqb c newline).
Definition nonspace (c : ascii) : bool := negb (PyStr.isspace c).

End Re.

(** A compiled pattern built from run-time text, as [re.search] and
    [re.sub] use it with [re.IGNORECASE]. *)
Record Regex := {
  re_search : text -> bool;          (* is there a match in the subject *)
  re_sub : text -> text -> text      (* replacement, subject *)
}.

(** Equality test on texts, [==] on [str]. *)
Fixpoint text_eqb (a b : text) : bool :=
  match a, b with
  | [], [] => true
  | x :: a', y :: b' => Ascii.eqb x y && text_eqb a' b'
  | _, _ => false
  end.

(** ** [class DateParser] *)

Module DateParser.

Definition MONTHS : list (text * Z) :=
  [ (txt "january", 1); (txt "february", 2); (txt "march", 3); (txt "april", 4);
    (txt "may", 5); (txt "june", 6); (txt "july", 7); (txt "august", 8);
    (txt "september", 9); (txt "october", 10); (txt "november", 11);
    (txt "december", 12) ]%Z.

(** [MONTHS.get(k)]: [None] when [k not in MONTHS]. *)
Fixpoint lookup (k : text) (d : list (text * Z)) : option Z :=
  match d with
  | [] => None
  | (k', v) :: d' => if text_eqb k k' then Some v else lookup k d'
  end.

(** The pattern [([a-zA-Z]+)\s+(\d{4})]. *)
Definition pattern : list Re.item :=
  [ Re.Mark; Re.Rep PyStr.isalpha 1 None; Re.Mark;
    Re.Rep PyStr.isspace 1 None;
    Re.Mark; Re.Rep PyStr.isdigit 4 (Some 4); Re.Mark ].

Definition digit_char (n : Z) : ascii := ascii_of_nat (48 + Z.to_nat n).

(** Four decimal digits of a number below 10000. *)
Definition pad4 (n : Z) : text :=
  [ digit_char (n / 1000); digit_char (n / 100 mod 10);
    digit_char (n / 10 mod 10); digit_char (n mod 10) ]%Z.

Definition pad2 (n : Z) : text :=
  [ digit_char (n / 10 mod 10); digit_char (n mod 10) ]%Z.

Fixpoint drop_zeros (s : text) : text :=
  match s with
  | c :: ((_ :: _) as s') => if Ascii.eqb c "0" then drop_zeros s' else s
  | _ => s
  end.

(** [%Y] of [strftime] for a year of [datetime] (1 to 9999).  Whether a
    year below 1000 is padded to four digits is decided by the platform's
    C library: [pad_year] is that choice. *)
Definition strftime_Y (pad_year : bool) (y : Z) : text :=
  if pad_year then pad4 y else drop_zeros (pad4 y).

(** [datetime(y, m, 1).strftime('%Y-%m-%d')]; [None] stands for the
    [ValueError] of a year outside 1..9999 (the month comes from
    [MONTHS]). *)
Definition first_of_month (pad_year : bool) (y m : Z) : option text :=
  if ((1 <=? y) && (y <=? 9999) && (1 <=? m) && (m <=? 12))%Z
  then Some (strftime_Y pad_year y ++ txt "-" ++ pad2 m ++ txt "-01")
  else None.

(** Lines 162 to 164: the text the pattern is searched in. *)
Definition cleaned (date_text : text) : text :=
  let date_text := PyStr.strip (PyStr.lower date_text) in
  if PyStr.startswith date_text (txt "released ")
  then PyStr.strip (skipn 9 date_text) else date_text.

Definition parse_release_date (pad_year : bool) (date_text : option text)
  : option text :=
  if negb (PyStr.truthy date_text) then None
  else
    let date_text := cleaned (PyStr.format date_text) in
    match Re.search pattern date_text with
    | None => None
    | Some (_, marks) =>
        let month_str := PyStr.lower (Re.group date_text marks 1) in
        let year_str := Re.group date_text marks 2 in
        match lookup month_str MONTHS with
        | None => None
        | Some month_num =>
            match PyStr.int year_str with
            | None => None
            | Some y => first_of_month pad_year y month_num
            end
        end
    end.

End DateParser.

(** ** [class Database] *)

Module Database.

(** A row of table [urls]. *)
Record UrlRecord := {
  visited : bool;
  visited_at : option Z;
  discovered_at : Z
}.

(** The dict [data] of [parse_data], also the columns of a row of table
    [content] that [save_content] writes. *)
Record Data := {
  url : text;
  title : option text;
  series : option text;
  release_date : option text;
  about : option text;
  background : option text;
  production : option text;
  duration : option text;
  isbn : option text;
  written_by : option text;
  narrated_by : option text;
  cover_url : option text;
  series_tag : option text
}.

Record Row := { row_data : Data; created_at : Z }.

Record t := {
  urls : gmap text UrlRecord;
  content : gmap text Row
}.

(** The tables after [create_tables] on a new file. *)
Definition empty : t := {| urls := ∅; content := ∅ |}.

(** [INSERT OR IGNORE INTO urls (url, discovered_at) VALUES (?, CURRENT_TIMESTAMP)];
    [visited] takes its default [FALSE], [visited_at] is [NULL]. *)
Definition add_url (u : text) (now : Z) (d : t) : t :=
  match urls d !! u with
  | Some _ => d
  | None =>
      {| urls := <[u := {| visited := false; visited_at := None;
                           discovered_at := now |}]> (urls d);
         content := content d |}
  end.

(** [INSERT OR REPLACE INTO urls (url, visited, visited_at) VALUES (?, TRUE, CURRENT_TIMESTAMP)]:
    a row with the same key is deleted and the new row inserted;
    [discovered_at] is not listed and takes its default
    [CURRENT_TIMESTAMP]. *)
Definition mark_url_visited (u : text) (now : Z) (d : t) : t :=
  {| urls := <[u := {| visited := true; visited_at := Some now;
                       discovered_at := now |}]> (urls d);
     content := content d |}.

(** [SELECT url, visited FROM urls] as a dict. *)
Definition get_all_urls (d : t) : list (text * bool) :=
  map_to_list (visited <$> urls d).

(** [INSERT OR REPLACE INTO content (...) VALUES (...)]. *)
Definition save_content (data : Data) (now : Z) (d : t) : t :=
  {| urls := urls d;
     content := <[url data := {| row_data := data; created_at := now |}]> (content d) |}.

(** [SELECT * FROM content WHERE url = ?] as a dict of the columns: the
    thirteen that [save_content] writes and [created_at].  [None] when
    there is no row. *)
Definition return_data_for_url (u : text) (d : t) : option Row :=
  content d !! u.

End Database.

Import Database.

Definition set_title v (d : Data) : Data :=
  {| url := url d; title := v; series := series d; release_date := release_date d;
     about := about d; background := background d; production := production d;
     duration := duration d; isbn := isbn d; written_by := written_by d;
     narrated_by := narrated_by d; cover_url := cover_url d; series_tag := series_tag d |}.
Definition set_series v (d : Data) : Data :=
  {| url := url d; title := title d; series := v; release_date := release_date d;
     about := about d; background := background d; production := production d;
     duration := duration d; isbn := isbn d; written_by := written_by d;
     narrated_by := narrated_by d; cover_url := cover_url d; series_tag := series_tag d |}.
Definition set_release_date v (d : Data) : Data :=
  {| url := url d; title := title d; series := series d; release_date := v;
     about := about d; background := background d; production := production d;
     duration := duration d; isbn := isbn d; written_by := written_by d;
     narrated_by := narrated_by d; cover_url := cover_url d; series_tag := series_tag d |}.
Definition set_about v (d : Data) : Data :=
  {| url := url d; title := title d; series := series d; release_date := release_date d;
     about := v; background := background d; production := production d;
     duration := duration d; isbn := isbn d; written_by := written_by d;
     narrated_by := narrated_by d; cover_url := cover_url d; series_tag := series_tag d |}.
Definition set_background v (d : Data) : Data :=
  {| url := url d; title := title d; series := series d; release_date := release_date d;
     about := about d; background := v; production := production d;
     duration := duration d; isbn := isbn d; written_by := written_by d;
     narrated_by := narrated_by d; cover_url := cover_url d; series_tag := series_tag d |}.
Definition set_production v (d : Data) : Data :=
  {| url := url d; title := title d; series := series d; release_date := release_date d;
     about := about d; background := background d; production := v;
     duration := duration d; isbn := isbn d; written_by := written_by d;
     narrated_by := narrated_by d; cover_url := cover_url d; series_tag := series_tag d |}.
Definition set_duration v (d : Data) : Data :=
  {| url := url d; title := title d; series := series d; release_date := release_date d;
     about := about d; background := background d; production := production d;
     duration := v; isbn := isbn d; written_by := written_by d;
     narrated_by := narrated_by d; cover_url := cover_url d; series_tag := series_tag d |}.
Definition set_isbn v (d : Data) : Data :=
  {| url := url d; title := title d; series := series d; release_date := release_date d;
     about := about d; background := background d; production := production d;
     duration := duration d; isbn := v; written_by := written_by d;
     narrated_by := narrated_by d; cover_url := cover_url d; series_tag := series_tag d |}.
Definition set_written_by v (d : Data) : Data :=
  {| url := url d; title := title d; series := series d; release_date := release_date d;
     about := about d; background := background d; production := production d;
     duration := duration d; isbn := isbn d; written_by := v;
     narrated_by := narrated_by d; cover_url := cover_url d; series_tag := series_tag d |}.
Definition set_narrated_by v (d : Data) : Data :=
  {| url := url d; title := title d; series := series d; release_date := release_date d;
     about := about d; background := background d; production := production d;
     duration := duration d; isbn := isbn d; written_by := written_by d;
     narrated_by := v; cover_url := cover_url d; series_tag := series_tag d |}.
Definition set_cover_url v (d : Data) : Data :=
  {| url := url d; title := title d; series := series d; release_date := release_date d;
     about := about d; background := background d; production := production d;
     duration := duration d; isbn := isbn d; written_by := written_by d;
     narrated_by := narrated_by d; cover_url := v; series_tag := series_tag d |}.
Definition set_series_tag v (d : Data) : Data :=
  {| url := url d; title := title d; series := series d; release_date := release_date d;
     about := about d; background := background d; production := production d;
     duration := duration d; isbn := isbn d; written_by := written_by d;
     narrated_by := narrated_by d; cover_url := cover_url d; series_tag := v |}.

(** ** The dict [all_links]: URL to visited flag, in insertion order *)

Module Dict.

Fixpoint get (d : list (text * bool)) (k : text) : option bool :=
  match d with
  | [] => None
  | (k', v) :: d' => if text_eqb k k' then Some v else get d' k
  end.

(** [k in d]. *)
Definition mem (d : list (text * bool)) (k : text) : bool :=
  match get d k with
  | Some _ => true
  | None => false
  end.

(** [d[k] = v]: an existing key keeps its place, a new one goes last. *)
Fixpoint set (d : list (text * bool)) (k : text) (v : bool) : list (text * bool) :=
  match d with
  | [] => [(k, v)]
  | (k', v') :: d' =>
      if text_eqb k k' then (k', v) :: d' else (k', v') :: set d' k v
  end.

End Dict.

(** ** What the program reads off a parsed page

    [BeautifulSoup] is a library; a parsed document is represented by the
    answers to the queries the program makes. *)

Record ProductDesc := {
  pd_h3 : option text;            (* .find('h3').text *)
  pd_h6 : option text;            (* .find('h6').text *)
  pd_paragraphs : list (list text)  (* per <p>: the .text of each of its <a> *)
}.

Record Img := {
  img_src : option text;
  img_alt : option text
}.

Record Tab := {
  tab_text : text;                (* .text *)
  tab_links : list text           (* the .text of each of its <a> *)
}.

Inductive tab_id := tab1 | tab2 | tab5 | tab6.

Record Soup := {
  anchors : list (option text);            (* href of every <a>, in document order *)
  product_desc : option ProductDesc;       (* div.product-desc *)
  cover_div : option (option Img);         (* div.detail-page-image and its first img *)
  release_date_div : option text;          (* div.release-date, its .text *)
  tab : tab_id -> option Tab               (* div#tab1, #tab2, #tab5, #tab6 *)
}.

(** ** [class Scraper] *)

Record State := {
  all_links : list (text * bool);
  db : Database.t;
  clock : Z;                      (* CURRENT_TIMESTAMP *)
  visits : list text              (* the links of the "Visiting" lines printed *)
}.

Definition with_links (l : list (text * bool)) (st : State) : State :=
  {| all_links := l; db := db st; clock := clock st; visits := visits st |}.
Definition with_db (d : Database.t) (st : State) : State :=
  {| all_links := all_links st; db := d; clock := clock st; visits := visits st |}.

Module Scraper.
Section Scraper.

Variable base_url : text.
(** [BeautifulSoup(html, 'html.parser')]; [None] when it raises. *)
Variable BeautifulSoup : text -> option Soup.
(** [re.compile(pattern, re.IGNORECASE)]; [Raise ReError] on a pattern
    that is not a regular expression. *)
Variable re_compile : text -> result Regex.
(** [requests.get(url).text] after [raise_for_status]; [None] on a
    [RequestException]. *)
Variable http_get : text -> option text.
(** Seconds a request takes. *)
Variable latency : text -> Z.
Variable pad_year : bool.

(** [__init__]: the tables exist, [all_links] is loaded from them. *)
Definition init (d : Database.t) (now : Z) : State :=
  {| all_links := get_all_urls d; db := d; clock := now; visits := [] |}.

Definition get_html (u : text) (st : State) : option text * State :=
  (http_get u,
   {| all_links := all_links st; db := db st; clock := (clock st + latency u)%Z;
      visits := visits st |}).

Definition allowed_parts (only_releases : bool) : list text :=
  if negb only_releases then [txt "/releases/"; txt "/ranges/"; txt "/hubs/"]
  else [txt "/releases/"; txt "/ranges/"].

Definition disallowed_parts : list text :=
  [txt "facebook.com"; txt "twitter"; txt "youtube"; txt "/basket/"; txt "/pages/v/"].

Definition must_contain : list text := [txt "bigfinish.com"].

Definition full_url (href : text) : text :=
  if PyStr.startswith href (txt "http") then href else base_url ++ href.

(** The test of one [<a>] in the loop of [get_all_links]. *)
Definition wanted (only_releases : bool) (href : option text) : bool :=
  PyStr.truthy href
  && existsb (fun part => PyStr.contains part (PyStr.format href)) (allowed_parts only_releases)
  && negb (existsb (fun part => PyStr.contains part (PyStr.format href)) disallowed_parts)
  && forallb (fun part => PyStr.contains part (full_url (PyStr.format href))) must_contain.

(** [if full_url not in self.all_links: ...]. *)
Definition discover (u : text) (st : State) : State :=
  if Dict.mem (all_links st) u then st
  else with_db (add_url u (clock st) (db st))
         (with_links (Dict.set (all_links st) u false) st).

Definition link_step (only_releases : bool) (acc : list text * State)
    (href : option text) : list text * State :=
  if wanted only_releases href
  then let u := full_url (PyStr.format href) in
       (fst acc ++ [u], discover u (snd acc))
  else acc.

Definition get_all_links (html : text) (only_releases : bool) (st : State)
  : list text * State :=
  match BeautifulSoup html with
  | None => ([], st)
  | Some soup => fold_left (link_step only_releases) (anchors soup) ([], st)
  end.

(** The pattern [^([^\s]{1,6})\.\s+(.+)$]. *)
Definition title_pattern : list Re.item :=
  [ Re.Bol; Re.Mark; Re.Rep Re.nonspace 1 (Some 6); Re.Mark; Re.Lit ".";
    Re.Rep PyStr.isspace 1 None; Re.Mark; Re.Rep Re.notnl 1 None; Re.Mark;
    Re.Eol ].

Definition clean_title (title : option text) : option text * option text :=
  match title with
  | Some ((_ :: _) as t) =>
      match Re.rmatch title_pattern t with
      | Some (_, marks) => (Some (Re.group t marks 1), Some (Re.group t marks 2))
      | None => (None, title)
      end
  | _ => (None, title)
  end.

Definition empty_data (u : text) : Data :=
  {| url := u; title := None; series := None; release_date := None;
     about := None; background := None; production := None; duration := None;
     isbn := None; written_by := None; narrated_by := None; cover_url := None;
     series_tag := None |}.

(** Lines 268 to 276: the series tag split off the title. *)
Definition split_tag (data : Data) : Data :=
  let '(prefix, rest) := clean_title (title data) in
  if PyStr.truthy prefix then
    let data := set_title rest (set_series_tag prefix data) in
    let '(prefix2, rest2) := clean_title (title data) in
    if PyStr.truthy prefix2 then
      set_title rest2
        (set_series_tag
           (Some (PyStr.format (series_tag data) ++ txt "." ++ PyStr.format prefix2))
           data)
    else data
  else data.

(** [if re.search(f"{name}:\\s", title, I): title = re.sub(f"{name}:\\s", '', title, flags=I)]. *)
Definition strip_series (name : text) (data : Data) : result Data :=
  do r <- re_compile (name ++ txt ":\s");
  match title data with
  | None => Raise TypeError
  | Some t =>
      Ok (if re_search r t then set_title (Some (re_sub r [] t)) data else data)
  end.

(** Lines 267 to 285, inside [if product_desc:]. *)
Definition parse_desc (pd : ProductDesc) (data : Data) : result Data :=
  let data := set_title (PyStr.strip <$> pd_h3 pd) data in
  let data := split_tag data in
  let data := set_series (PyStr.strip <$> pd_h6 pd) data in
  do data <- strip_series (PyStr.format (series data)) data;
  match series data with
  | None => Raise AttributeError
  | Some s =>
      let tmp_series := PyStr.replace (txt " -") (txt ":") s in
      strip_series tmp_series data
  end.

(** Lines 287 to 294. *)
Definition parse_cover (soup : Soup) (data : Data) : Data :=
  match cover_div soup with
  | Some (Some cover_img) =>
      let c := img_src cover_img in
      let c := if PyStr.truthy c && negb (PyStr.startswith (PyStr.format c) (txt "http"))
               then Some (base_url ++ PyStr.format c) else c in
      let data := set_cover_url c data in
      set_title (if PyStr.truthy (img_alt cover_img) then img_alt cover_img
                 else title data) data
  | _ => data
  end.

(** Lines 297 to 302. *)
Definition parse_date (soup : Soup) (data : Data) : Data :=
  match release_date_div soup with
  | Some t =>
      let parsed_date :=
        DateParser.parse_release_date pad_year (Some (PyStr.strip t)) in
      if PyStr.truthy parsed_date then set_release_date parsed_date data else data
  | None => data
  end.

Definition names (l : list text) : text :=
  PyStr.join (txt ", ") (map PyStr.strip l).

(** Lines 305 to 309. *)
Definition parse_credits (soup : Soup) (data : Data) : Data :=
  let paragraphs :=
    match product_desc soup with
    | Some pd => pd_paragraphs pd
    | None => []
    end in
  let data :=
    match nth_error paragraphs 0 with
    | Some p => set_written_by (Some (names p)) data
    | None => data
    end in
  match nth_error paragraphs 1 with
  | Some p => set_narrated_by (Some (names p)) data
  | None => data
  end.

(** [content.split(marker)[1].split(' ')[0].split('\n')[0]]. *)
Definition field_after (marker content : text) : result text :=
  do a <- PyStr.index (PyStr.split marker content) 1;
  do b <- PyStr.index (PyStr.split (txt " ") a) 0;
  PyStr.index (PyStr.split [Re.newline] b) 0.

(** The pattern [\d{3}-\d{1,5}-\d{1,7}-\d{1}]. *)
Definition isbn_pattern : list Re.item :=
  [ Re.Rep PyStr.isdigit 3 (Some 3); Re.Lit "-";
    Re.Rep PyStr.isdigit 1 (Some 5); Re.Lit "-";
    Re.Rep PyStr.isdigit 1 (Some 7); Re.Lit "-";
    Re.Rep PyStr.isdigit 1 (Some 1) ].

(** [data['isbn'] = ...; if not re.match(...): data['isbn'] = None]. *)
Definition parse_isbn (marker content : text) (data : Data) : result Data :=
  do v <- field_after marker content;
  Ok (set_isbn (match Re.rmatch isbn_pattern v with
                | Some _ => Some v
                | None => None
                end) data).

(** Lines 323 to 336, the branch of [tab6]. *)
Definition parse_production (content : text) (data : Data) : result Data :=
  let data := set_production (Some content) data in
  do data <-
    (if PyStr.contains (txt "Duration:") content
     then do v <- field_after (txt "Duration: ") content;
          Ok (set_duration (Some v) data)
     else Ok data);
  if PyStr.contains (txt "Digital Retail ISBN: ") content
  then parse_isbn (txt "Digital Retail ISBN: ") content data
  else if PyStr.contains (txt "Physical Retail ISBN: ") content
  then parse_isbn (txt "Physical Retail ISBN: ") content data
  else Ok data.

(** The body of the loop over the tab identifiers. *)
Definition parse_tab (soup : Soup) (id : tab_id) (data : Data) : result Data :=
  match tab soup id with
  | None => Ok data
  | Some t =>
      let content := PyStr.strip (tab_text t) in
      match id with
      | tab1 => Ok (set_about (Some content) data)
      | tab2 => Ok (set_background (Some content) data)
      | tab5 => Ok (set_narrated_by (Some (names (tab_links t))) data)
      | tab6 => parse_production content data
      end
  end.

Fixpoint parse_tabs (soup : Soup) (ids : list tab_id) (data : Data) : result Data :=
  match ids with
  | [] => Ok data
  | id :: ids' => do data <- parse_tab soup id data; parse_tabs soup ids' data
  end.

(** Lines 249 to 336: the dict [data] built from a parsed page. *)
Definition extract (u : text) (soup : Soup) : result Data :=
  let data := empty_data u in
  do data <- match product_desc soup with
             | Some pd => parse_desc pd data
             | None => Ok data
             end;
  let data := parse_cover soup data in
  let data := parse_date soup data in
  let data := parse_credits soup data in
  parse_tabs soup [tab1; tab2; tab5; tab6] data.

(** [parse_data]: [Ok None] is the [None] returned when the parser
    raises, [Raise] an exception that leaves the method. *)
Definition parse_data (u html : text) (st : State) : result (option Data * State) :=
  match BeautifulSoup html with
  | None => Ok (None, st)
  | Some soup =>
      do data <- extract u soup;
      Ok (Some data, with_db (save_content data (clock st) (db st)) st)
  end.

Definition is_detail (link : text) : bool :=
  PyStr.contains (txt "/releases/v/") link.

Definition unvisited_links (st : State) : list text :=
  map fst (List.filter (fun lv => negb (snd lv) && is_detail (fst lv)) (all_links st)).

Definition mark (link : text) (st : State) : State :=
  with_links (Dict.set (all_links st) link true)
    (with_db (mark_url_visited link (clock st) (db st)) st).

Definition log_visit (link : text) (st : State) : State :=
  {| all_links := all_links st; db := db st; clock := clock st;
     visits := visits st ++ [link] |}.

(** The body of [for link in unvisited_links]. *)
Definition visit (link : text) (st : State) : result State :=
  let st := log_visit link st in
  let '(content, st) := get_html link st in
  if PyStr.truthy content then
    let html := PyStr.format content in
    let '(_, st) := get_all_links html true st in
    do st <- (if is_detail link
              then do r <- parse_data link html st; Ok (snd r)
              else Ok st);
    Ok (mark link st)
  else Ok st.

Fixpoint for_each (batch : list text) (st : State) : result State :=
  match batch with
  | [] => Ok st
  | link :: batch' => do st <- visit link st; for_each batch' st
  end.

(** [while True:] with a bound on the number of iterations; [None] when
    the bound is reached before the loop breaks. *)
Fixpoint crawl (fuel : nat) (st : State) : option (result State) :=
  match fuel with
  | O => None
  | S fuel' =>
      match unvisited_links st with
      | [] => Some (Ok st)
      | batch =>
          match for_each batch st with
          | Ok st' => crawl fuel' st'
          | Raise e => Some (Raise e)
          end
      end
  end.

(** Lines 342 to 348. *)
Definition bootstrap (st : State) : State :=
  match all_links st with
  | [] =>
      let '(html, st) := get_html base_url st in
      if PyStr.truthy html
      then snd (get_all_links (PyStr.format html) false st)
      else st
  | _ => st
  end.

Definition run (fuel : nat) (st : State) : option (result State) :=
  crawl fuel (bootstrap st).

End Scraper.
End Scraper.

(** ** The search overlay *)

(** [l.sort(reverse=True, key=key)]: a stable sort, largest key first.
    An element goes before the first element whose key is not larger. *)
Fixpoint insert_desc {A} (key : A -> Z) (x : A) (l : list A) : list A :=
  match l with
  | [] => [x]
  | y :: l' => if (key x <? key y)%Z then y :: insert_desc key x l' else x :: l
  end.

Definition sort_desc {A} (key : A -> Z) (l : list A) : list A :=
  fold_right (insert_desc key) [] l.

(** [duration_minutes] of both APIs: [int(row['duration'])] when the
    column is a non-empty string that [int] reads. *)
Definition duration_minutes (row : Data) : option Z :=
  if PyStr.truthy (duration row) then PyStr.int (PyStr.format (duration row)) else None.

(** Truthiness of an optional integer: [None] and [0] are false. *)
Definition truthy_int (o : option Z) : bool :=
  match o with
  | Some z => negb (z =? 0)%Z
  | None => false
  end.

(** [x.split(', ') if x else None]. *)
Definition split_names (x : option text) : option (list text) :=
  if PyStr.truthy x then Some (PyStr.split (txt ", ") (PyStr.format x)) else None.

(** [outdated_scraper-api.py]: the search over the rows of table [content]. *)
Module OutdatedApi.
Section Api.

(** [fuzz.ratio]. *)
Variable ratio : text -> text -> Z.

Record AudioBookResponse := {
  r_title : option text;
  r_subtitle : option text;
  r_author : option (list text);
  r_narrator : option (list text);
  r_cover : option text;
  r_series : list (option text * option text);
  r_duration : option Z
}.

Definition score (query : text) (row : Data) : Z :=
  ratio (PyStr.lower query) (PyStr.lower (PyStr.format (title row))).

(** Lines 42 to 47. *)
Definition matched_results (query : text) (results : list Data) : list (Z * Data) :=
  map (fun row => (score query row, row))
    (List.filter (fun row => PyStr.truthy (title row) && (60 <? score query row)%Z) results).

(** Lines 49 and 50. *)
Definition top_matches (query : text) (results : list Data) : list (Z * Data) :=
  firstn 5 (sort_desc fst (matched_results query results)).

Definition response (row : Data) : AudioBookResponse :=
  let duration_minutes := duration_minutes row in
  {| r_title := title row;
     r_subtitle := None;
     r_author := split_names (written_by row);
     r_narrator := split_names (narrated_by row);
     r_cover := cover_url row;
     r_series := [(series row, series_tag row)];
     r_duration := if truthy_int duration_minutes
                   then Some (PyStr.to_Z duration_minutes * 60)%Z else None |}.

Definition search_audiobooks (query : text) (results : list Data)
  : list AudioBookResponse :=
  map (fun m => response (snd m)) (top_matches query results).

End Api.
End OutdatedApi.

(** [web-api.py]: the search over the records [Search().search] resolved;
    an entry is [None] when [parse_data] returned [None] for it. *)
Module WebApi.
Section Api.

Variable ratio : text -> text -> Z.

Record AudioBookResponse := {
  r_url : option text;
  r_title : option text;
  r_subtitle : option text;
  r_author : option text;
  r_authors : option (list text);
  r_narrators : option (list text);
  r_narrator : option text;
  r_cover : option text;
  r_series : list (option text * option text);
  r_duration : option Z;
  r_isbn : option text;
  r_description : option text;
  r_publishedYear : option text;
  r_publishedDate : option text
}.

(** [(fuzz.ratio(query.lower(), match['title'].lower()), match)]. *)
Definition scored (query : text) (m : option Data) : result (Z * Data) :=
  match m with
  | None => Raise TypeError
  | Some row =>
      match title row with
      | None => Raise AttributeError
      | Some t => Ok (ratio (PyStr.lower query) (PyStr.lower t), row)
      end
  end.

(** Lines 40 to 43. *)
Fixpoint scored_matches (query : text) (top_matches : list (option Data))
  : result (list (Z * Data)) :=
  match top_matches with
  | [] => Ok []
  | m :: rest =>
      do x <- scored query m;
      do l <- scored_matches query rest;
      Ok (x :: l)
  end.

(** Lines 46 to 49. *)
Definition sorted_matches (query : text) (top_matches : list (option Data))
  : result (list (Z * Data)) :=
  do l <- scored_matches query top_matches; Ok (sort_desc fst l).

Definition response (row : Data) : AudioBookResponse :=
  let duration_minutes := duration_minutes row in
  {| r_url := Some (url row);
     r_title := title row;
     r_subtitle := None;
     r_author := written_by row;
     r_authors := split_names (written_by row);
     r_narrators := split_names (narrated_by row);
     r_narrator := narrated_by row;
     r_cover := cover_url row;
     r_series := [(series row, series_tag row)];
     r_duration := if truthy_int duration_minutes then duration_minutes else None;
     r_isbn := isbn row;
     r_description := about row;
     r_publishedYear :=
       if PyStr.truthy (release_date row)
       then Some (nth 0 (PyStr.split (txt "-") (PyStr.format (release_date row))) [])
       else None;
     r_publishedDate :=
       if PyStr.truthy (release_date row) then release_date row else None |}.

Definition search_audiobooks (query : text) (top_matches : list (option Data))
  : result (list AudioBookResponse) :=
  do l <- sorted_matches query top_matches;
  Ok (map (fun m => response (snd m)) l).

End Api.
End WebApi.

(** ** Shapes the properties speak of *)

(** One to six characters of a class. *)
Definition short (cls : ascii -> bool) (X : text) : Prop :=
  1 <= length X <= 6 /\ forallb cls X = true.

(** One or two short components joined with a dot. *)
Definition dot_joined (cls : ascii -> bool) (s : text) : Prop :=
  exists parts, 1 <= length parts <= 2 /\ List.Forall (short cls) parts
                /\ s = PyStr.join (txt ".") parts.

Definition alnum (c : ascii) : bool := PyStr.isalpha c || PyStr.isdigit c.

(** [d'] has the key, the series tag and the ISBN of [d]. *)
Definition keeps (d d' : Data) : Prop :=
  url d' = url d /\ series_tag d' = series_tag d /\ isbn d' = isbn d.

Definition digits (s : text) : Prop := forallb PyStr.isdigit s = true.

(** The texts of the pattern [\d{3}-\d{1,5}-\d{1,7}-\d{1}]. *)
Definition isbn_shape (s : text) : Prop :=
  exists a b c d,
    s = a ++ txt "-" ++ b ++ txt "-" ++ c ++ txt "-" ++ d
    /\ digits a /\ length a = 3
    /\ digits b /\ 1 <= length b <= 5
    /\ digits c /\ 1 <= length c <= 7
    /\ digits d /\ length d = 1.

(** A text that begins with a text of the pattern. *)
Definition starts_valid (v : text) : Prop :=
  exists p q, v = p ++ q /\ isbn_shape p.

(** Where a field read after a marker ends: at the end of the text, at a
    space, at a newline or at the next occurrence of the marker. *)
Definition stops_at (marker rest : text) : Prop :=
  rest = []
  \/ PyStr.startswith rest (txt " ") = true
  \/ PyStr.startswith rest [Re.newline] = true
  \/ PyStr.startswith rest marker = true.

(** The marker does not occur in [pre ++ tail] before the end of [pre]. *)
Definition not_before (marker pre tail : text) : Prop :=
  forall a b, pre = a ++ b -> b <> [] -> PyStr.startswith (b ++ tail) marker = false.

(** The optional leading token of a release date: the word in any case, a
    space and further white space. *)
Definition released_token (present : bool) (R ws : text) : text :=
  if present then R ++ txt " " ++ ws else [].

(** The number four decimal digits denote. *)
Definition year_value (c1 c2 c3 c4 : ascii) : Z :=
  (1000 * PyStr.digit_val c1 + 100 * PyStr.digit_val c2
   + 10 * PyStr.digit_val c3 + PyStr.digit_val c4)%Z.

(** ** The crawl as a walk of a link graph *)

(** The URLs known to the scraper, visited or not. *)
Definition frontier (st : State) : list text := map fst (all_links st).

Definition is_visited (st : State) (u : text) : Prop :=
  Dict.get (all_links st) u = Some true.

(** The dict has one entry per URL, all of them URLs of the universe. *)
Definition well_formed (U : list text) (st : State) : Prop :=
  List.NoDup (frontier st) /\ incl (frontier st) U.

(** The links a page yields to the classifier: the edges of the graph. *)
Definition page_links (base_url : text) (BeautifulSoup : text -> option Soup)
    (only_releases : bool) (html : text) : list text :=
  match BeautifulSoup html with
  | None => []
  | Some soup =>
      map (fun h => Scraper.full_url base_url (PyStr.format h))
        (List.filter (Scraper.wanted base_url only_releases) (anchors soup))
  end.

Definition discover_all (links : list text) (st : State) : State :=
  fold_left (fun st u => Scraper.discover u st) links st.

(** The detail pages of the universe that are not visited yet. *)
Definition pending (U : list text) (st : State) : list text :=
  List.filter (fun u => Scraper.is_detail u
                        && negb (match Dict.get (all_links st) u with
                                 | Some true => true
                                 | _ => false
                                 end)) U.

(** Largest key first. *)
Definition desc {A} (key : A -> Z) (x y : A) : Prop := (key y <= key x)%Z.

(** The score both APIs rank a record by. *)
Definition title_score (ratio : text -> text -> Z) (query : text) (row : Data) : Z :=
  ratio (PyStr.lower query) (PyStr.lower (PyStr.format (title row))).

(** A URL marked visited, in the dict and in the [urls] table. *)
Definition marked (link : text) (st : State) : Prop :=
  Dict.get (all_links st) link = Some true
  /\ exists r, urls (db st) !! link = Some r /\ visited r = true.

Definition digital : text := txt "Digital Retail ISBN: ".
Definition physical : text := txt "Physical Retail ISBN: ".

(** The marker the extractor reads the ISBN after. *)
Definition isbn_marker (content : text) : text :=
  if PyStr.contains digital content then digital else physical.

(** What the extractor makes of the ISBN in the text of the production
    tab. *)
Definition isbn_read (content : text) (result : option text) : Prop :=
  (PyStr.contains (isbn_marker content) content = false /\ result = None)
  \/ exists pre v rest,
      content = pre ++ isbn_marker content ++ v ++ rest
      /\ not_before (isbn_marker content) pre (isbn_marker content ++ v ++ rest)
      /\ stops_at (isbn_marker content) rest
      /\ ~ In " "%char v /\ ~ In Re.newline v
      /\ ((starts_valid v /\ result = Some v) \/ (~ starts_valid v /\ result = None)).

(** What a step may do to the frontier: keep the dict well formed, keep
    every URL known and every visit flag, and print nothing. *)
Record extends (U : list text) (st st' : State) : Prop := {
  ext_wf : well_formed U st';
  ext_incl : incl (frontier st) (frontier st');
  ext_visits : visits st' = visits st;
  ext_flags : forall v, is_visited st' v <-> is_visited st v
}.

(** ** A small site, for concrete runs *)

Module Sample.

Definition origin : text := txt "https://www.bigfinish.com".

Definition page (links : list (option text)) (pd : option ProductDesc)
    (t6 : option Tab) : Soup :=
  {| anchors := links; product_desc := pd; cover_div := None;
     release_date_div := None;
     tab := fun id => match id with tab6 => t6 | _ => None end |}.

Definition home : Soup :=
  page [Some (txt "/releases/v/1"); Some (txt "https://facebook.com/x");
        Some (txt "/basket/"); Some (txt "/ranges/monthly")] None None.

Definition release1 : Soup :=
  page [Some (txt "/releases/v/2")]
    (Some {| pd_h3 := Some (txt "1.2. The Actual Title");
             pd_h6 := Some (txt "Main Range"); pd_paragraphs := [] |})
    (Some {| tab_text := txt "Duration: 0 minutes Digital Retail ISBN: 978-1-4028-9462-6 x";
             tab_links := [] |}).

Definition release2 : Soup :=
  page [Some (txt "/releases/v/1")]
    (Some {| pd_h3 := Some (txt "The Actual Title");
             pd_h6 := Some (txt "Main Range"); pd_paragraphs := [] |})
    None.

(** A page whose description block has a title and no series heading. *)
Definition without_series : Soup :=
  page [] (Some {| pd_h3 := Some (txt "The Actual Title"); pd_h6 := None;
                   pd_paragraphs := [] |}) None.

(** A page whose description block has a series heading and no title. *)
Definition without_title : Soup :=
  page [] (Some {| pd_h3 := None; pd_h6 := Some (txt "Main Range");
                   pd_paragraphs := [] |}) None.

(** A production tab with [Duration:] and no space after it. *)
Definition bare_duration : Soup :=
  page [] None (Some {| tab_text := txt "Duration:90"; tab_links := [] |}).

(** A production tab whose ISBN is followed by a letter. *)
Definition trailing_isbn : Soup :=
  page [] None
    (Some {| tab_text := txt "Digital Retail ISBN: 978-1-4028-9462-6X (download)";
             tab_links := [] |}).

Definition release (n : string) : text := origin ++ txt "/releases/v/" ++ txt n.

(** The responses of the site: the body of a page is its name. *)
Definition http_get (u : text) : option text :=
  if text_eqb u origin then Some (txt "home")
  else if text_eqb u (release "1") then Some (txt "release1")
  else if text_eqb u (release "2") then Some (txt "release2")
  else None.

Definition BeautifulSoup (html : text) : option Soup :=
  if text_eqb html (txt "home") then Some home
  else if text_eqb html (txt "release1") then Some release1
  else if text_eqb html (txt "release2") then Some release2
  else if text_eqb html (txt "trailing") then Some trailing_isbn
  else None.

(** Compiled patterns none of which occurs in the titles of the site. *)
Definition re_compile (pattern : text) : result Regex :=
  Ok {| re_search := fun _ => false; re_sub := fun _ t => t |}.

Definition latency (u : text) : Z := 1%Z.

(** The scraper on new tables. *)
Definition start : State := Scraper.init Database.empty 0.

(** A frontier of one release, not visited. *)
Definition one_release : State :=
  {| all_links := [(release "1", false)];
     db := add_url (release "1") 0 Database.empty; clock := 0; visits := [] |}.

(** [parse_data] on the first release and on the page with the trailing
    letter, and the record and state each returns. *)
Definition parsed (html : text) : result (option Data * State) :=
  Scraper.parse_data origin BeautifulSoup re_compile true (release "1") html one_release.

Definition record_of (r : result (option Data * State)) : Data :=
  match r with
  | Ok (Some d, _) => d
  | _ => Scraper.empty_data []
  end.

Definition state_of (r : result (option Data * State)) : State :=
  match r with
  | Ok (_, st) => st
  | Raise _ => one_release
  end.

Definition flux : Data :=
  set_title (Some (txt "Doctor Who: Flux")) (Scraper.empty_data (release "1")).

Definition tale : Data :=
  set_title (Some (txt "Unrelated Tale")) (Scraper.empty_data (release "2")).

(** A similarity that tells equal texts from different ones. *)
Definition ratio (a b : text) : Z := if text_eqb a b then 100 else 10.

End Sample.

(** ** [Scraper.get_statistics] *)

(** The three numbers printed: total, visited and remaining URLs. *)
Definition get_statistics (st : State) : nat * nat * nat :=
  let total_urls := length (all_links st) in
  let visited_urls := length (List.filter snd (all_links st)) in
  (total_urls, visited_urls, total_urls - visited_urls).

(** ** The in-memory frontier and the [urls] table *)

(** The dict holds the URLs of the table, each with the flag of its row. *)
Definition mirrored (st : State) : Prop :=
  forall u, Dict.get (all_links st) u = visited <$> (urls (db st) !! u).

Definition consistent (st : State) : Prop :=
  List.NoDup (frontier st) /\ mirrored st.

(** ** [class Search] *)

Module Search.

Definition hex_digit (n : nat) : ascii :=
  nth n (txt "0123456789ABCDEF") "0"%char.

(** [%XX] of one byte. *)
Definition percent (b : nat) : text :=
  ["%"%char; hex_digit (b / 16); hex_digit (b mod 16)].

(** The bytes [urllib.parse.quote] never escapes, with its default safe
    character [/]. *)
Definition safe (c : ascii) : bool :=
  PyStr.isalpha c || PyStr.isdigit c
  || Ascii.eqb c "_" || Ascii.eqb c "." || Ascii.eqb c "-" || Ascii.eqb c "~"
  || Ascii.eqb c "/".

(** One character of [quote]: itself when safe, else the escapes of the
    bytes of its UTF-8 encoding (one byte below 128, two from 128 to 255). *)
Definition quote_char (c : ascii) : text :=
  if safe c then [c]
  else
    let n := PyStr.code c in
    if n <? 128 then percent n
    else percent (192 + n / 64) ++ percent (128 + n mod 64).

Definition quote (s : text) : text := flat_map quote_char s.

(** What [response.json()] gives: a dict, of which the program reads the
    ['id'] of each value in order ([None] for a value without one), or
    something else. *)
Inductive suggestions :=
| NotDict
| Suggestions (ids : list (option text)).

(** An element of the list [search] returns that is not [None]: the dict
    [parse_data] built, or the dict of a row of [content], which has the
    key [created_at] as well. *)
Inductive hit :=
| Parsed (d : Data)
| Stored (r : Row).

(** The thirteen keys both kinds of dict have. *)
Definition fields (h : hit) : Data :=
  match h with
  | Parsed d => d
  | Stored r => row_data r
  end.

(** The exceptions that leave [search]: none of them is caught. *)
Inductive search_error :=
| RequestFailed (u : text)      (* requests.get or raise_for_status *)
| BadJson                       (* response.json() *)
| NoId                          (* result['id'] *)
| Extract (e : exn).            (* raised inside parse_data *)

Inductive outcome (A : Type) :=
| Done (a : A)
| Failed (e : search_error).
Arguments Done {A} a.
Arguments Failed {A} e.

(** The store, the time and the URLs requested so far. *)
Record Session := {
  store : Database.t;
  now : Z;
  requested : list text
}.

Section Search.

(** [self.base_url]. *)
Definition base_url : text := txt "https://www.bigfinish.com".

Variable BeautifulSoup : text -> option Soup.
Variable re_compile : text -> result Regex.
(** The suggest endpoint: [None] when the request fails, [Some None] when
    the body is not JSON. *)
Variable suggest : text -> option (option suggestions).
(** A detail page: [None] when the request fails. *)
Variable http_get : text -> option text.
Variable latency : text -> Z.
Variable pad_year : bool.

Definition suggest_url (query : text) : text :=
  txt "https://www.bigfinish.com/search_results/suggest/"
  ++ quote (PyStr.replace (txt ":") (txt " ") query).

Definition detail_url (id : text) : text :=
  base_url ++ txt "/releases/v/" ++ id.

Definition request (u : text) (ss : Session) : Session :=
  {| store := store ss; now := (now ss + latency u)%Z; requested := requested ss ++ [u] |}.

(** The body of the loop over the suggestions. *)
Definition resolve (datas : list (option hit)) (ss : Session) (id : option text)
  : outcome (list (option hit) * Session) :=
  match id with
  | None => Failed NoId
  | Some i =>
      let new_url := detail_url i in
      match return_data_for_url new_url (store ss) with
      | Some data => Done (datas ++ [Some (Stored data)], ss)
      | None =>
          let ss := request new_url ss in
          match http_get new_url with
          | None => Failed (RequestFailed new_url)
          | Some text =>
              match Scraper.parse_data base_url BeautifulSoup re_compile pad_year
                      new_url text (Scraper.init (store ss) (now ss)) with
              | Raise e => Failed (Extract e)
              | Ok (data, st) =>
                  Done (datas ++ [Parsed <$> data],
                        {| store := db st; now := now ss; requested := requested ss |})
              end
          end
      end
  end.

Fixpoint resolve_all (ids : list (option text)) (datas : list (option hit))
    (ss : Session) : outcome (list (option hit) * Session) :=
  match ids with
  | [] => Done (datas, ss)
  | id :: ids' =>
      match resolve datas ss id with
      | Done (datas', ss') => resolve_all ids' datas' ss'
      | Failed e => Failed e
      end
  end.

Definition search (query : text) (ss : Session)
  : outcome (list (option hit) * Session) :=
  let u := suggest_url query in
  let ss := request u ss in
  match suggest u with
  | None => Failed (RequestFailed u)
  | Some None => Failed BadJson
  | Some (Some NotDict) => Done ([], ss)
  | Some (Some (Suggestions ids)) => resolve_all ids [] ss
  end.

End Search.
End Search.

(** ** What the crawl keeps *)

(** [st'] is consistent, knows every URL [st] knows, has every URL visited
    that [st] has, holds a record for every key [st] holds one for, and
    has printed, after the lines of [st], only detail pages it knows. *)
Record grows (st st' : State) : Prop := {
  grows_consistent : consistent st';
  grows_frontier : incl (frontier st) (frontier st');
  grows_visited : forall v, is_visited st v -> is_visited st' v;
  grows_content : forall v, is_Some (content (db st) !! v) -> is_Some (content (db st') !! v);
  grows_visits : exists new,
    visits st' = visits st ++ new
    /\ List.Forall (fun u => Scraper.is_detail u = true /\ In u (frontier st')) new
}.

(** The rows [discover] writes for the links of a page. *)
Definition fresh_row (now : Z) : UrlRecord :=
  {| visited := false; visited_at := None; discovered_at := now |}.

(** ** Pages the extractor reads without raising *)

Definition compiles (re_compile : text -> result Regex) (name : text) : Prop :=
  exists r, re_compile (name ++ txt ":\s") = Ok r.

(** The description block has both headings and the two patterns built
    from the series compile. *)
Definition desc_ok (re_compile : text -> result Regex) (pd : ProductDesc) : Prop :=
  exists h3 h6,
    pd_h3 pd = Some h3 /\ pd_h6 pd = Some h6
    /\ compiles re_compile (PyStr.strip h6)
    /\ compiles re_compile (PyStr.replace (txt " -") (txt ":") (PyStr.strip h6)).

(** A production tab that names a duration has a space after the colon. *)
Definition production_ok (t : Tab) : Prop :=
  PyStr.contains (txt "Duration:") (PyStr.strip (tab_text t)) = true ->
  PyStr.contains (txt "Duration: ") (PyStr.strip (tab_text t)) = true.

Definition readable (re_compile : text -> result Regex) (soup : Soup) : Prop :=
  (forall pd, product_desc soup = Some pd -> desc_ok re_compile pd)
  /\ (forall t, tab soup tab6 = Some t -> production_ok t).

(** ** Names and years in the responses *)

(** [c] replaced by [d]. *)
Definition subst_char (c d x : ascii) : ascii := if Ascii.eqb x c then d else x.

Definition no_comma_space (x : text) : Prop :=
  PyStr.contains (txt ", ") x = false.

(** ** A session on the small site *)

(** The suggest endpoint: the same two hits for every query. *)
Definition sample_suggest (u : text) : option (option Search.suggestions) :=
  Some (Some (Search.Suggestions [Some (txt "1"); Some (txt "2")])).

(** No record stored yet. *)
Definition sample_session : Search.Session :=
  {| Search.store := Database.empty; Search.now := 0; Search.requested := [] |}.

(** What a search returned for a suggestion is what the store holds
    under the suggestion's detail URL: the row itself when it was read
    from the store, a row with the same thirteen fields when the page was
    fetched and parsed. *)
Definition resolved (d : Database.t) (id : option text) (data : option Search.hit)
  : Prop :=
  exists i, id = Some i
            /\ match data with
               | None => True
               | Some (Search.Stored r) =>
                   return_data_for_url (Search.detail_url i) d = Some r
               | Some (Search.Parsed x) =>
                   exists c, return_data_for_url (Search.detail_url i) d
                             = Some {| row_data := x; created_at := c |}
               end.

(** The row the store holds under the detail URL of a suggestion. *)
Definition stored_at (d : Database.t) (id : option text) (r : Row) : Prop :=
  exists i, id = Some i /\ return_data_for_url (Search.detail_url i) d = Some r.

(** A row with the fields of an element of the list, the element itself
    when that was read from the store. *)
Definition same_fields (data : option Search.hit) (r : Row) : Prop :=
  exists x, data = Some x /\ Search.fields x = row_data r
            /\ forall r0, x = Search.Stored r0 -> r0 = r.

(** The store holds every row [d] holds. *)
Definition keeps_records (d d' : Database.t) : Prop :=
  forall u r, return_data_for_url u d = Some r -> return_data_for_url u d' = Some r.

(** A detail URL without a record in [d]. *)
Definition missing (d : Database.t) (u : text) : Prop :=
  return_data_for_url u d = None /\ exists i, u = Search.detail_url i.

(** ** The fields of a record, stage by stage *)

(** The fields no step of the production tab writes. *)
Definition same_credits (d d' : Data) : Prop :=
  title d' = title d /\ series d' = series d /\ release_date d' = release_date d
  /\ about d' = about d /\ background d' = background d
  /\ written_by d' = written_by d /\ narrated_by d' = narrated_by d
  /\ cover_url d' = cover_url d.

(** A release page with a cover image, a release date, a cast tab, a
    production tab and two paragraphs of credits, and the record read
    off it. *)
Definition full_release : Soup :=
  {| anchors := [];
     product_desc :=
       Some {| pd_h3 := Some (txt "1. Storm Warning");
               pd_h6 := Some (txt "Main Range");
               pd_paragraphs := [[txt " Alan Barnes "]; [txt "Paul McGann"]] |};
     cover_div := Some (Some {| img_src := Some (txt "/img/storm.jpg");
                                img_alt := Some (txt "Storm Warning (cover)") |});
     release_date_div := Some (txt " Released January 2001 ");
     tab := fun id =>
       match id with
       | tab5 => Some {| tab_text := txt "Cast";
                         tab_links := [txt "Paul McGann"; txt " India Fisher"] |}
       | tab6 => Some {| tab_text := txt "Recorded in London. Duration: 120 minutes";
                         tab_links := [] |}
       | _ => None
       end |}.

Definition full_record : Data :=
  match Scraper.extract Sample.origin Sample.re_compile true (Sample.release "3")
          full_release with
  | Ok d => d
  | Raise _ => Scraper.empty_data []
  end.

(** A date as [strftime('%Y-%m-%d')] writes the first of a month. *)
Definition first_day (pad_year : bool) (date : text) : Prop :=
  exists Y M,
    date = Y ++ txt "-" ++ M ++ txt "-01"
    /\ digits Y /\ 1 <= length Y <= 4 /\ (pad_year = true -> length Y = 4)
    /\ digits M /\ length M = 2.

(** ** The live endpoint

    [search_audiobooks] of [web-api.py] with its first line: the
    candidates are what [Search().search(query)] returns, of which the
    loop reads the thirteen fields only. *)
Definition live_search (ratio : text -> text -> Z)
    (BeautifulSoup : text -> option Soup) (re_compile : text -> result Regex)
    (suggest : text -> option (option Search.suggestions))
    (http_get : text -> option text) (latency : text -> Z) (pad_year : bool)
    (query : text) (ss : Search.Session)
  : Search.outcome (result (list WebApi.AudioBookResponse) * Search.Session) :=
  match Search.search BeautifulSoup re_compile suggest http_get latency pad_year query ss with
  | Search.Done (top_matches, ss') =>
      Search.Done (WebApi.search_audiobooks ratio query
                     (map (fmap Search.fields) top_matches), ss')
  | Search.Failed e => Search.Failed e
  end.

(** A candidate the live API can score: a record with a title. *)
Definition scorable (m : option Data) : Prop :=
  exists row, m = Some row /\ title row <> None.

(** * Properties *)

(** ** Texts *)

Lemma text_eqb_refl (a : text) : text_eqb a a = true.
Proof.
  induction a as [|c a IH]; simpl; [reflexivity|].
  rewrite Ascii.eqb_refl. exact IH.
Qed.

Lemma text_eqb_eq (a b : text) : text_eqb a b = true <-> a = b.
Proof.
  split.
  - revert b. induction a as [|x a IH]; intros [|y b] H; simpl in H;
      try discriminate; [reflexivity|].
    apply andb_true_iff in H as [Hc Hr].
    apply Ascii.eqb_eq in Hc. subst y. f_equal. apply IH, Hr.
  - intros ->. apply text_eqb_refl.
Qed.

Lemma text_eqb_neq (a b : text) : text_eqb a b = false <-> a <> b.
Proof.
  rewrite <- text_eqb_eq. destruct (text_eqb a b); split; congruence.
Qed.

(** ** The [urls] table *)

(** C9 (as amended).  [mark_url_visited] replaces the whole row of the URL:
    afterwards the row exists with [visited] true and both [visited_at] and
    [discovered_at] stamped with the current time, whether or not the URL had
    a row before; the rows of all other URLs and the [content] table are
    unchanged. *)
Theorem C9_mark_url_visited_replaces_row (u : text) (now : Z) (d : Database.t) :
  urls (mark_url_visited u now d) !! u
    = Some {| visited := true; visited_at := Some now; discovered_at := now |}
  /\ (forall v, v <> u -> urls (mark_url_visited u now d) !! v = urls d !! v)
  /\ content (mark_url_visited u now d) = content d.
Proof.
  unfold mark_url_visited; simpl. split; [|split].
  - apply lookup_insert_eq.
  - intros v Hv. apply lookup_insert_ne. congruence.
  - reflexivity.
Qed.

Lemma C9_mark_url_visited_witness :
  urls (mark_url_visited (txt "a") 20 (add_url (txt "b") 10 Database.empty)) !! (txt "b")
  = urls (add_url (txt "b") 10 Database.empty) !! (txt "b").
Proof.
  apply (C9_mark_url_visited_replaces_row (txt "a") 20
           (add_url (txt "b") 10 Database.empty)).
  vm_compute. discriminate.
Defined.

(** C9 fails as stated: a URL discovered at time 10 and marked visited at
    time 20 has its [discovered_at] changed to 20. *)
Lemma C9_discovered_at_not_preserved :
  ~ (forall (u : text) (now : Z) (d : Database.t) (r : UrlRecord),
        urls d !! u = Some r ->
        discovered_at <$> (urls (mark_url_visited u now d) !! u)
          = Some (discovered_at r)).
Proof.
  intros H.
  specialize (H (txt "u") 20%Z (add_url (txt "u") 10 Database.empty)
                {| visited := false; visited_at := None; discovered_at := 10 |}).
  unfold add_url, mark_url_visited in H; simpl in H.
  rewrite lookup_empty in H. simpl in H.
  rewrite !lookup_insert_eq in H. simpl in H.
  specialize (H eq_refl). discriminate H.
Qed.

(** ** Presentation of the duration *)

(** C10.  A record whose [duration] string is read by [int] as 0 is reported
    with [duration] absent by both APIs, as a record with a missing or
    non-numeric duration is. *)
Theorem C10_zero_duration_absent (row : Data) (d : text) :
  duration row = Some d ->
  PyStr.int d = Some 0%Z ->
  WebApi.r_duration (WebApi.response row) = None
  /\ OutdatedApi.r_duration (OutdatedApi.response row) = None.
Proof.
  intros Hd Hint.
  unfold WebApi.response, OutdatedApi.response, duration_minutes; simpl.
  rewrite Hd; simpl.
  destruct d as [|c d']; simpl; [split; reflexivity|].
  rewrite Hint. simpl. split; reflexivity.
Qed.

Lemma C10_zero_duration_witness :
  WebApi.r_duration
    (WebApi.response (set_duration (Some (txt "0")) (Scraper.empty_data (txt "u")))) = None
  /\ OutdatedApi.r_duration
       (OutdatedApi.response (set_duration (Some (txt "0")) (Scraper.empty_data (txt "u")))) = None.
Proof.
  apply (C10_zero_duration_absent
           (set_duration (Some (txt "0")) (Scraper.empty_data (txt "u"))) (txt "0"));
    reflexivity.
Defined.

(** Missing, empty and non-numeric durations are reported absent too. *)
Lemma duration_absent_cases (row : Data) :
  duration_minutes row = None ->
  WebApi.r_duration (WebApi.response row) = None
  /\ OutdatedApi.r_duration (OutdatedApi.response row) = None.
Proof.
  intros H. unfold WebApi.response, OutdatedApi.response; simpl.
  rewrite H. split; reflexivity.
Qed.

(** ** The link classifier *)

Lemma startswith_app (s p t : text) :
  PyStr.startswith s p = true -> PyStr.startswith (s ++ t) p = true.
Proof.
  revert s. induction p as [|a p IH]; intros s H; [destruct (s ++ t); reflexivity|].
  destruct s as [|b s]; simpl in *; [discriminate|].
  apply andb_true_iff in H as [H1 H2]. rewrite H1. simpl. apply IH, H2.
Qed.

Lemma contains_cons (sub : text) (c : ascii) (s : text) :
  PyStr.contains sub (c :: s) = PyStr.startswith (c :: s) sub || PyStr.contains sub s.
Proof. reflexivity. Qed.

Lemma contains_app_l (sub a b : text) :
  PyStr.contains sub a = true -> PyStr.contains sub (a ++ b) = true.
Proof.
  induction a as [|c a IH]; intros H.
  - destruct sub; [|discriminate H]. destruct b; reflexivity.
  - rewrite contains_cons in H. rewrite <- app_comm_cons, contains_cons.
    apply orb_true_iff in H as [H|H].
    + rewrite app_comm_cons, (startswith_app _ _ _ H). reflexivity.
    + rewrite (IH H). apply orb_true_r.
Qed.

Section LinkClassifier.

Variable base_url : text.
Variable BeautifulSoup : text -> option Soup.

Let wanted := Scraper.wanted base_url.
Let full_url := Scraper.full_url base_url.
Let get_all_links := Scraper.get_all_links base_url BeautifulSoup.

Lemma link_fold_fst only (l : list (option text)) (acc : list text) (st : State) :
  fst (fold_left (Scraper.link_step base_url only) l (acc, st))
  = acc ++ map (fun h => full_url (PyStr.format h)) (List.filter (wanted only) l).
Proof.
  revert acc st. induction l as [|h l IH]; intros acc st; simpl.
  - symmetry. apply app_nil_r.
  - unfold Scraper.link_step at 2. fold (wanted only h).
    destruct (wanted only h) eqn:Hw; simpl.
    + rewrite IH. rewrite <- app_assoc. reflexivity.
    + apply IH.
Qed.

Lemma wanted_iff only (href : option text) :
  wanted only href = true <->
  exists h, href = Some h /\ h <> []
    /\ (exists part, In part (Scraper.allowed_parts only) /\ PyStr.contains part h = true)
    /\ (forall part, In part Scraper.disallowed_parts -> PyStr.contains part h = false)
    /\ PyStr.contains (txt "bigfinish.com") (full_url h) = true.
Proof.
  unfold wanted, Scraper.wanted. rewrite !andb_true_iff.
  rewrite negb_true_iff, forallb_forall.
  split.
  - intros [[[Ht Ha] Hd] Hm].
    destruct href as [[|c h]|]; try discriminate Ht.
    exists (c :: h). unfold PyStr.format in *.
    apply existsb_exists in Ha.
    split; [reflexivity|]. split; [congruence|]. split; [exact Ha|]. split.
    + intros part Hin. destruct (PyStr.contains part (c :: h)) eqn:E; [|reflexivity].
      assert (Hex : existsb (fun part => PyStr.contains part (c :: h))
                      Scraper.disallowed_parts = true)
        by (apply existsb_exists; exists part; split; assumption).
      rewrite Hex in Hd. discriminate.
    + apply Hm. left. reflexivity.
  - intros (h & -> & Hne & Ha & Hd & Hm). unfold PyStr.format.
    destruct h as [|c h]; [congruence|]. repeat split.
    + apply existsb_exists. exact Ha.
    + destruct (existsb _ Scraper.disallowed_parts) eqn:E; [|reflexivity].
      apply existsb_exists in E as (part & Hin & Hc).
      rewrite (Hd part Hin) in Hc. discriminate.
    + intros part [<-|[]]. exact Hm.
Qed.

(** C7.  The list returned for a parsed page holds, in document order and
    with repetitions, the resolved target of exactly the links that are
    wanted: a non-empty target that contains an allowed fragment, no
    disallowed fragment and, once resolved against the base URL, the
    domain.  The list does not depend on the URLs already known.  A page
    with the targets [/releases/v/123], [https://facebook.com/x] and
    [/basket/] yields the first one only, resolved, when the base URL is
    on the domain. *)
Theorem C7_link_classifier (html : text) (soup : Soup) (only : bool) (st : State) :
  BeautifulSoup html = Some soup ->
  fst (get_all_links html only st)
    = map (fun h => full_url (PyStr.format h)) (List.filter (wanted only) (anchors soup))
  /\ (forall href, wanted only href = true <->
        exists h, href = Some h /\ h <> []
          /\ (exists part, In part (if only then [txt "/releases/"; txt "/ranges/"]
                                    else [txt "/releases/"; txt "/ranges/"; txt "/hubs/"])
                           /\ PyStr.contains part h = true)
          /\ (forall part, In part [txt "facebook.com"; txt "twitter"; txt "youtube";
                                    txt "/basket/"; txt "/pages/v/"] ->
                           PyStr.contains part h = false)
          /\ PyStr.contains (txt "bigfinish.com")
               (if PyStr.startswith h (txt "http") then h else base_url ++ h) = true)
  /\ (PyStr.contains (txt "bigfinish.com") base_url = true ->
      anchors soup = [Some (txt "/releases/v/123"); Some (txt "https://facebook.com/x");
                      Some (txt "/basket/")] ->
      fst (get_all_links html only st) = [base_url ++ txt "/releases/v/123"]).
Proof.
  intros Hsoup.
  assert (Hfst : fst (get_all_links html only st)
                 = map (fun h => full_url (PyStr.format h))
                     (List.filter (wanted only) (anchors soup))).
  { unfold get_all_links, Scraper.get_all_links. rewrite Hsoup.
    rewrite link_fold_fst. reflexivity. }
  split; [exact Hfst|]. split.
  - intros href. rewrite wanted_iff. unfold Scraper.allowed_parts.
    destruct only; simpl; reflexivity.
  - intros Hbase Ha. rewrite Hfst, Ha.
    assert (H1 : wanted only (Some (txt "/releases/v/123")) = true).
    { unfold wanted, Scraper.wanted.
      replace (existsb _ (Scraper.allowed_parts only)) with true
        by (destruct only; reflexivity).
      replace (existsb _ Scraper.disallowed_parts) with false by reflexivity.
      simpl. rewrite andb_true_r.
      change (Scraper.full_url base_url (txt "/releases/v/123"))
        with (base_url ++ txt "/releases/v/123").
      apply contains_app_l, Hbase. }
    assert (H2 : wanted only (Some (txt "https://facebook.com/x")) = false).
    { unfold wanted, Scraper.wanted.
      replace (existsb _ (Scraper.allowed_parts only)) with false
        by (destruct only; reflexivity).
      reflexivity. }
    assert (H3 : wanted only (Some (txt "/basket/")) = false).
    { unfold wanted, Scraper.wanted.
      replace (existsb _ (Scraper.allowed_parts only)) with false
        by (destruct only; reflexivity).
      reflexivity. }
    cbn [List.filter]. rewrite H1, H2, H3. reflexivity.
Qed.

End LinkClassifier.

(** ** The stable descending sort *)

Section SortDesc.

Context {A : Type} (key : A -> Z).

Lemma insert_desc_perm (x : A) (l : list A) :
  Permutation (insert_desc key x l) (x :: l).
Proof.
  induction l as [|y l IH]; simpl; [reflexivity|].
  destruct (key x <? key y)%Z; [|reflexivity].
  rewrite IH. apply perm_swap.
Qed.

Lemma sort_desc_perm (l : list A) : Permutation (sort_desc key l) l.
Proof.
  induction l as [|x l IH]; simpl; [reflexivity|].
  rewrite insert_desc_perm. constructor. exact IH.
Qed.

Lemma insert_desc_sorted (x : A) (l : list A) :
  StronglySorted (desc key) l -> StronglySorted (desc key) (insert_desc key x l).
Proof.
  induction 1 as [|y l Hs IH Hall]; simpl.
  - constructor; constructor.
  - destruct (key x <? key y)%Z eqn:E.
    + apply Z.ltb_lt in E. constructor; [exact IH|].
      apply List.Forall_forall. intros z Hz.
      apply (Permutation_in _ (insert_desc_perm x l)) in Hz.
      destruct Hz as [<-|Hz]; [unfold desc; lia|].
      rewrite List.Forall_forall in Hall. apply Hall, Hz.
    + apply Z.ltb_ge in E. constructor; [constructor; assumption|].
      constructor; [exact E|].
      rewrite List.Forall_forall in Hall |- *. intros z Hz.
      specialize (Hall z Hz). unfold desc in *. lia.
Qed.

Lemma sort_desc_sorted (l : list A) : StronglySorted (desc key) (sort_desc key l).
Proof.
  induction l as [|x l IH]; simpl; [constructor|].
  apply insert_desc_sorted, IH.
Qed.

(** Stability: the elements of one key keep their order. *)
Lemma insert_desc_stable (k : Z) (x : A) (l : list A) :
  List.filter (fun a => key a =? k)%Z (insert_desc key x l)
  = List.filter (fun a => key a =? k)%Z (x :: l).
Proof.
  induction l as [|y l IH]; [reflexivity|].
  cbn [insert_desc]. destruct (key x <? key y)%Z eqn:E; [|reflexivity].
  apply Z.ltb_lt in E. cbn [List.filter] in *. rewrite IH.
  destruct (key x =? k)%Z eqn:Ex, (key y =? k)%Z eqn:Ey; try reflexivity.
  apply Z.eqb_eq in Ex, Ey. lia.
Qed.

Lemma sort_desc_stable (k : Z) (l : list A) :
  List.filter (fun a => key a =? k)%Z (sort_desc key l)
  = List.filter (fun a => key a =? k)%Z l.
Proof.
  induction l as [|x l IH]; [reflexivity|].
  cbn [sort_desc fold_right]. rewrite insert_desc_stable.
  cbn [List.filter]. fold (sort_desc key l). rewrite IH. reflexivity.
Qed.

End SortDesc.

Lemma in_firstn {A} (x : A) (n : nat) (l : list A) : In x (firstn n l) -> In x l.
Proof.
  revert l. induction n as [|n IH]; intros [|y l] H; simpl in H; try contradiction.
  destruct H as [H|H]; [left; exact H|right; apply IH, H].
Qed.

(** ** The two ranking policies *)

Section Ranking.

Variable ratio : text -> text -> Z.

Lemma scored_matches_all (query : text) (rows : list Data) :
  (forall row, In row rows -> title row <> None) ->
  WebApi.scored_matches ratio query (map Some rows)
  = Ok (map (fun row => (title_score ratio query row, row)) rows).
Proof.
  induction rows as [|row rows IH]; intros H; [reflexivity|].
  cbn [map WebApi.scored_matches].
  assert (Ht : title row <> None) by (apply H; left; reflexivity).
  unfold WebApi.scored at 1. unfold title_score at 1.
  destruct (title row) as [t|] eqn:E; [|congruence].
  cbn [bind PyStr.format]. rewrite IH; [reflexivity|].
  intros r Hr. apply H. right. exact Hr.
Qed.

(** C8 (as amended).  The local variant keeps a candidate only if it has
    a title and its score is strictly above 60, and returns the first
    five of these in descending order of score; the live variant, when
    every resolved candidate has a title, keeps all of them in descending
    order of score; in both, candidates of equal score stay in input
    order. *)
Theorem C8_ranking_policies (query : text) :
  (forall results : list Data,
      let qualifying :=
        map (fun row => (title_score ratio query row, row))
          (List.filter (fun row => PyStr.truthy (title row)
                                   && (60 <? title_score ratio query row)%Z) results) in
      let kept := OutdatedApi.top_matches ratio query results in
      length kept <= 5
      /\ (forall m, In m kept ->
            (60 < fst m)%Z /\ fst m = title_score ratio query (snd m)
            /\ PyStr.truthy (title (snd m)) = true /\ In (snd m) results)
      /\ exists full,
          kept = firstn 5 full
          /\ Permutation full qualifying
          /\ StronglySorted (desc fst) full
          /\ forall k, List.filter (fun m => fst m =? k)%Z full
                       = List.filter (fun m => fst m =? k)%Z qualifying)
  /\ (forall rows : list Data,
        (forall row, In row rows -> title row <> None) ->
        exists l,
          WebApi.sorted_matches ratio query (map Some rows) = Ok l
          /\ Permutation l (map (fun row => (title_score ratio query row, row)) rows)
          /\ StronglySorted (desc fst) l
          /\ forall k, List.filter (fun m => fst m =? k)%Z l
                       = List.filter (fun m => fst m =? k)%Z
                           (map (fun row => (title_score ratio query row, row)) rows)).
Proof.
  split.
  - intros results qualifying kept.
    assert (Hq : OutdatedApi.matched_results ratio query results = qualifying)
      by reflexivity.
    split; [apply firstn_le_length|]. split.
    + intros m Hm. unfold kept, OutdatedApi.top_matches in Hm.
      apply in_firstn in Hm.
      apply (Permutation_in _ (sort_desc_perm fst _)) in Hm.
      rewrite Hq in Hm. unfold qualifying in Hm.
      apply in_map_iff in Hm as (row & <- & Hrow).
      apply filter_In in Hrow as [Hin Hc].
      apply andb_true_iff in Hc as [Ht Hs]. apply Z.ltb_lt in Hs.
      cbn [fst snd]. auto.
    + exists (sort_desc fst qualifying). split; [reflexivity|].
      split; [apply sort_desc_perm|]. split; [apply sort_desc_sorted|].
      intros k. apply sort_desc_stable.
  - intros rows Hrows.
    exists (sort_desc fst (map (fun row => (title_score ratio query row, row)) rows)).
    split.
    + unfold WebApi.sorted_matches. rewrite scored_matches_all by exact Hrows.
      reflexivity.
    + split; [apply sort_desc_perm|]. split; [apply sort_desc_sorted|].
      intros k. apply sort_desc_stable.
Qed.

End Ranking.

(** C8 fails as stated: a candidate whose score is exactly 60 is not below
    the threshold, yet the local variant discards it. *)
Lemma C8_score_at_threshold_discarded :
  ~ (forall (ratio : text -> text -> Z) (query : text) (results : list Data) (row : Data),
        In row results ->
        length results <= 5 ->
        PyStr.truthy (title row) = true ->
        ~ (title_score ratio query row < 60)%Z ->
        In row (map snd (OutdatedApi.top_matches ratio query results))).
Proof.
  intros H.
  set (row := set_title (Some (txt "Flux")) (Scraper.empty_data (txt "u"))).
  assert (Hin : In row (map snd (OutdatedApi.top_matches (fun _ _ => 60%Z)
                                    (txt "flux") [row]))).
  { apply H.
    - left. reflexivity.
    - simpl. lia.
    - reflexivity.
    - unfold title_score. lia. }
  vm_compute in Hin. exact Hin.
Qed.

(** ** The record extractor *)

Section Extractor.

Variable base_url : text.
Variable BeautifulSoup : text -> option Soup.
Variable re_compile : text -> result Regex.
Variable pad_year : bool.

Let extract := Scraper.extract base_url re_compile pad_year.

Lemma series_set_title v (d : Data) : series (set_title v d) = series d.
Proof. reflexivity. Qed.

(** A description block without an [h6] makes [parse_desc] raise. *)
Lemma parse_desc_without_series (pd : ProductDesc) (data : Data) :
  pd_h6 pd = None ->
  exists e, Scraper.parse_desc re_compile pd data = Raise e.
Proof.
  intros H6. unfold Scraper.parse_desc. rewrite H6. cbn [fmap option_fmap option_map].
  set (d := set_series None _). unfold Scraper.strip_series at 1.
  destruct (re_compile _) as [r|e]; cbn [bind]; [|exists e; reflexivity].
  assert (Hs : series d = None) by reflexivity.
  destruct (title d) as [t|]; cbn [bind]; [|exists TypeError; reflexivity].
  destruct (re_search r t); rewrite ?series_set_title, Hs;
    exists AttributeError; reflexivity.
Qed.

(** A description block without an [h3] makes [parse_desc] raise. *)
Lemma parse_desc_without_title (pd : ProductDesc) (data : Data) :
  pd_h3 pd = None ->
  exists e, Scraper.parse_desc re_compile pd data = Raise e.
Proof.
  intros H3. unfold Scraper.parse_desc. rewrite H3. cbn [fmap option_fmap option_map].
  unfold Scraper.strip_series at 1.
  destruct (re_compile _) as [r|e]; cbn [bind]; [|exists e; reflexivity].
  exists TypeError. reflexivity.
Qed.

Lemma extract_raises_desc (u : text) (soup : Soup) (pd : ProductDesc) :
  product_desc soup = Some pd ->
  pd_h6 pd = None \/ pd_h3 pd = None ->
  exists e, extract u soup = Raise e.
Proof.
  intros Hpd H. unfold extract, Scraper.extract. rewrite Hpd.
  destruct H as [H|H];
    [destruct (parse_desc_without_series pd (Scraper.empty_data u) H) as [e He]
    |destruct (parse_desc_without_title pd (Scraper.empty_data u) H) as [e He]];
    rewrite He; exists e; reflexivity.
Qed.

End Extractor.

(** ** The dict [all_links] *)

Lemma dict_get_set_eq (d : list (text * bool)) (k : text) (v : bool) :
  Dict.get (Dict.set d k v) k = Some v.
Proof.
  induction d as [|[k' v'] d IH]; simpl.
  - rewrite text_eqb_refl. reflexivity.
  - destruct (text_eqb k k') eqn:E; simpl; rewrite E; [reflexivity|exact IH].
Qed.

Lemma dict_get_set_ne (d : list (text * bool)) (k k' : text) (v : bool) :
  k' <> k -> Dict.get (Dict.set d k v) k' = Dict.get d k'.
Proof.
  intros Hne. induction d as [|[k0 v0] d IH]; simpl.
  - apply text_eqb_neq in Hne. rewrite Hne. reflexivity.
  - destruct (text_eqb k k0) eqn:E; simpl.
    + apply text_eqb_eq in E. subst k0.
      apply text_eqb_neq in Hne. rewrite Hne. reflexivity.
    + destruct (text_eqb k' k0); [reflexivity|exact IH].
Qed.

(** ** One step of the crawl loop *)

Section Visit.

Variable base_url : text.
Variable BeautifulSoup : text -> option Soup.
Variable re_compile : text -> result Regex.
Variable http_get : text -> option text.
Variable latency : text -> Z.
Variable pad_year : bool.

Let extract := Scraper.extract base_url re_compile pad_year.
Let visit := Scraper.visit base_url BeautifulSoup re_compile http_get latency pad_year.

Lemma mark_marked (link : text) (st : State) : marked link (Scraper.mark link st).
Proof.
  split.
  - apply dict_get_set_eq.
  - eexists. split; [apply lookup_insert_eq|reflexivity].
Qed.

(** C1 (as amended).  When the fetch of a URL returns a non-empty body,
    the URL is marked visited in [all_links] and in the [urls] table
    once the extractor has returned, with a record or with the [None] of
    a page the parser rejects.  When the fetch fails or returns an empty
    body, the step changes neither [all_links] nor the tables: the URL
    stays as it was. *)
Theorem C1_visit_marks_after_fetch (link : text) (st : State) :
  (forall body,
      http_get link = Some body -> body <> [] ->
      (Scraper.is_detail link = true ->
       forall soup, BeautifulSoup body = Some soup -> exists d, extract link soup = Ok d) ->
      exists st', visit link st = Ok st' /\ marked link st')
  /\ (PyStr.truthy (http_get link) = false ->
      exists st', visit link st = Ok st'
                  /\ all_links st' = all_links st /\ db st' = db st).
Proof.
  split.
  - intros body Hget Hne Hex.
    unfold visit, Scraper.visit, Scraper.get_html. rewrite Hget.
    destruct body as [|c body]; [congruence|]. cbn [PyStr.truthy PyStr.format].
    destruct (Scraper.get_all_links _ _ _ _ _) as [l st2].
    destruct (Scraper.is_detail link) eqn:Hd.
    + unfold Scraper.parse_data.
      destruct (BeautifulSoup (c :: body)) as [soup|] eqn:Hs.
      * destruct (Hex eq_refl soup eq_refl) as [d Hd'].
        unfold extract in Hd'. rewrite Hd'. cbn [bind snd].
        eexists. split; [reflexivity|apply mark_marked].
      * cbn [bind snd]. eexists. split; [reflexivity|apply mark_marked].
    + cbn [bind]. eexists. split; [reflexivity|apply mark_marked].
  - intros Hf. unfold visit, Scraper.visit, Scraper.get_html.
    rewrite Hf. eexists. split; [reflexivity|]. split; reflexivity.
Qed.

End Visit.

(** C1 fails as stated: after the step for a URL whose fetch fails, the URL
    is still unvisited. *)
Lemma C1_failed_fetch_leaves_unvisited :
  ~ (forall (base_url : text) (BeautifulSoup : text -> option Soup)
            (re_compile : text -> result Regex) (http_get : text -> option text)
            (latency : text -> Z) (pad_year : bool) (link : text) (st st' : State),
        Dict.get (all_links st) link = Some false ->
        Scraper.visit base_url BeautifulSoup re_compile http_get latency pad_year link st
          = Ok st' ->
        Dict.get (all_links st') link = Some true).
Proof.
  intros H.
  set (u := txt "https://www.bigfinish.com/releases/v/1").
  set (st := {| all_links := [(u, false)]; db := add_url u 0 Database.empty;
                clock := 0%Z; visits := [] |}).
  specialize (H (txt "https://www.bigfinish.com") (fun _ => None)
                (fun _ => Raise ReError) (fun _ => None) (fun _ => 1%Z) true u st
                _ eq_refl eq_refl).
  vm_compute in H. discriminate H.
Qed.

(** ** The matcher *)

Lemma backtrack_Some {R} (k : nat -> option R) (lo n : nat) (r : R) :
  Re.backtrack k lo n = Some r -> exists m, lo <= m <= n /\ k m = Some r.
Proof.
  induction n as [|n IH]; simpl.
  - destruct (0 <? lo) eqn:E; [discriminate|]. apply Nat.ltb_ge in E.
    destruct (k 0) eqn:Ek; [|discriminate].
    intros [= <-]. exists 0. split; [lia|exact Ek].
  - destruct (S n <? lo) eqn:E; [discriminate|]. apply Nat.ltb_ge in E.
    destruct (k (S n)) eqn:Ek.
    + intros [= <-]. exists (S n). split; [lia|exact Ek].
    + intros H. destruct (IH H) as (m & Hm & Hk). exists m. split; [lia|exact Hk].
Qed.

Lemma backtrack_top {R} (k : nat -> option R) (lo n : nat) (r : R) :
  lo <= n -> k n = Some r -> Re.backtrack k lo n = Some r.
Proof.
  intros Hle Hk. destruct n as [|n]; simpl.
  - replace (0 <? lo) with false by (symmetry; apply Nat.ltb_ge; lia).
    rewrite Hk. reflexivity.
  - replace (S n <? lo) with false by (symmetry; apply Nat.ltb_ge; lia).
    rewrite Hk. reflexivity.
Qed.

Lemma backtrack_exists {R} (k : nat -> option R) (lo n m : nat) (r : R) :
  lo <= m <= n -> k m = Some r -> exists r', Re.backtrack k lo n = Some r'.
Proof.
  intros Hm Hk. induction n as [|n IH].
  - assert (m = 0) by lia. subst m. exists r. apply backtrack_top; [lia|exact Hk].
  - simpl. replace (S n <? lo) with false by (symmetry; apply Nat.ltb_ge; lia).
    destruct (k (S n)) as [r1|] eqn:E; [exists r1; reflexivity|].
    apply IH. assert (m <> S n) by (intros ->; congruence). lia.
Qed.

Lemma backtrack_None {R} (k : nat -> option R) (lo n : nat) :
  (forall m, lo <= m <= n -> k m = None) -> Re.backtrack k lo n = None.
Proof.
  intros H. induction n as [|n IH]; simpl.
  - destruct (0 <? lo) eqn:E; [reflexivity|]. apply Nat.ltb_ge in E.
    rewrite H by lia. reflexivity.
  - destruct (S n <? lo) eqn:E; [reflexivity|]. apply Nat.ltb_ge in E.
    rewrite H by lia. apply IH. intros m Hm. apply H. lia.
Qed.

Lemma run_len_firstn (cls : ascii -> bool) (s : text) (n : nat) :
  n <= Re.run_len cls s ->
  forallb cls (firstn n s) = true /\ length (firstn n s) = n.
Proof.
  revert n. induction s as [|c s IH]; intros n Hn; simpl in Hn.
  - assert (n = 0) by lia. subst n. split; reflexivity.
  - destruct n as [|n]; [split; reflexivity|].
    destruct (cls c) eqn:E; [|lia].
    destruct (IH n) as [H1 H2]; [lia|].
    simpl. rewrite E, H1, H2. split; reflexivity.
Qed.

Lemma run_len_app_ge (cls : ascii -> bool) (a b : text) :
  forallb cls a = true -> length a <= Re.run_len cls (a ++ b).
Proof.
  induction a as [|c a IH]; simpl; intros H; [lia|].
  apply andb_true_iff in H as [H1 H2]. rewrite H1. specialize (IH H2). lia.
Qed.

(** The run stops where the class stops. *)
Lemma run_len_app_stop (cls : ascii -> bool) (a b : text) :
  forallb cls a = true ->
  match b with [] => True | c :: _ => cls c = false end ->
  Re.run_len cls (a ++ b) = length a.
Proof.
  induction a as [|c a IH]; simpl; intros H Hb.
  - destruct b as [|c b]; [reflexivity|]. simpl. rewrite Hb. reflexivity.
  - apply andb_true_iff in H as [H1 H2]. rewrite H1. f_equal. apply IH; assumption.
Qed.

Lemma greedy_le (cls : ascii -> bool) (hi : option nat) (s : text) :
  Re.greedy cls hi s <= Re.run_len cls s
  /\ match hi with Some h => Re.greedy cls hi s <= h | None => True end.
Proof. unfold Re.greedy. destruct hi; split; solve [lia|exact I]. Qed.

(** What a successful repetition consumed. *)
Lemma exec_rep_inv (cls : ascii -> bool) (lo : nat) (hi : option nat)
    (p : list Re.item) (s : text) (pos : nat) (marks : list nat) r :
  Re.exec (Re.Rep cls lo hi :: p) s pos marks = Some r ->
  exists n, lo <= n
    /\ match hi with Some h => n <= h | None => True end
    /\ forallb cls (firstn n s) = true /\ length (firstn n s) = n
    /\ Re.exec p (skipn n s) (pos + n) marks = Some r.
Proof.
  cbn [Re.exec]. intros H. apply backtrack_Some in H as (n & Hn & Hk).
  destruct (greedy_le cls hi s) as [G1 G2].
  destruct (run_len_firstn cls s n) as [F1 F2]; [lia|].
  exists n. repeat split; try assumption; try lia.
  destruct hi; [lia|exact I].
Qed.

(** A repetition succeeds as soon as one admissible length does. *)
Lemma exec_rep_exists (cls : ascii -> bool) (lo : nat) (hi : option nat)
    (p : list Re.item) (a b : text) (pos : nat) (marks : list nat) r :
  forallb cls a = true -> lo <= length a ->
  match hi with Some h => length a <= h | None => True end ->
  Re.exec p b (pos + length a) marks = Some r ->
  exists r', Re.exec (Re.Rep cls lo hi :: p) (a ++ b) pos marks = Some r'.
Proof.
  intros Ha Hlo Hhi Hk. cbn [Re.exec].
  apply backtrack_exists with (m := length a) (r := r).
  - split; [exact Hlo|]. pose proof (run_len_app_ge cls a b Ha).
    unfold Re.greedy. destruct hi; lia.
  - rewrite skipn_app, skipn_all, Nat.sub_diag. exact Hk.
Qed.

Lemma exec_bol (p : list Re.item) (s : text) (marks : list nat) :
  Re.exec (Re.Bol :: p) s 0 marks = Re.exec p s 0 marks.
Proof. reflexivity. Qed.

Lemma exec_mark (p : list Re.item) (s : text) (pos : nat) (marks : list nat) :
  Re.exec (Re.Mark :: p) s pos marks = Re.exec p s pos (pos :: marks).
Proof. reflexivity. Qed.

Lemma exec_lit (c : ascii) (p : list Re.item) (s : text) (pos : nat) (marks : list nat) :
  Re.exec (Re.Lit c :: p) (c :: s) pos marks = Re.exec p s (S pos) marks.
Proof. cbn [Re.exec]. rewrite Ascii.eqb_refl. reflexivity. Qed.

Lemma exec_lit_inv (c : ascii) (p : list Re.item) (s : text) (pos : nat)
    (marks : list nat) r :
  Re.exec (Re.Lit c :: p) s pos marks = Some r ->
  exists s', s = c :: s' /\ Re.exec p s' (S pos) marks = Some r.
Proof.
  cbn [Re.exec]. destruct s as [|c' s']; [discriminate|].
  destruct (Ascii.eqb c c') eqn:E; [|discriminate].
  apply Ascii.eqb_eq in E. subst c'. intros H. exists s'. split; [reflexivity|exact H].
Qed.

Lemma exec_eol_inv (s : text) (pos : nat) (marks : list nat) r :
  Re.exec [Re.Eol] s pos marks = Some r ->
  (s = [] \/ s = [Re.newline]) /\ r = (pos, rev marks).
Proof.
  cbn [Re.exec]. destruct s as [|c [|c' s']]; try discriminate.
  - intros [= <-]. split; [left; reflexivity|reflexivity].
  - destruct (Ascii.eqb c Re.newline) eqn:E; [|discriminate].
    apply Ascii.eqb_eq in E. subst c. intros [= <-].
    split; [right; reflexivity|reflexivity].
Qed.

Lemma skipn_S_cons (n : nat) (s s' : text) (c : ascii) :
  skipn n s = c :: s' -> skipn (S n) s = s'.
Proof.
  intros H. change (S n) with (1 + n). rewrite <- skipn_skipn, H. reflexivity.
Qed.

Lemma group_1 (t : text) (a b c d : nat) :
  Re.group t [a; b; c; d] 1 = firstn (b - a) (skipn a t).
Proof. reflexivity. Qed.

Lemma group_2 (t : text) (a b c d : nat) :
  Re.group t [a; b; c; d] 2 = firstn (d - c) (skipn c t).
Proof. reflexivity. Qed.

(** ** The clean-title transform *)

(** One application that matches: the title is the prefix, a dot, white
    space and the rest (with at most a final newline after it). *)
Lemma clean_title_inv (title : option text) (X : text) (rest : option text) :
  Scraper.clean_title title = (Some X, rest) ->
  exists t w R nl,
    title = Some t /\ rest = Some R
    /\ t = X ++ txt "." ++ w ++ R ++ nl
    /\ short Re.nonspace X
    /\ w <> [] /\ forallb PyStr.isspace w = true
    /\ R <> [] /\ forallb Re.notnl R = true
    /\ (nl = [] \/ nl = [Re.newline]).
Proof.
  unfold Scraper.clean_title. intros H.
  destruct title as [[|c0 t0]|]; try discriminate H.
  set (t := c0 :: t0) in *. clearbody t.
  destruct (Re.rmatch Scraper.title_pattern t) as [[e marks]|] eqn:E; [|discriminate H].
  injection H as HX Hrest.
  unfold Re.rmatch, Scraper.title_pattern in E.
  rewrite exec_bol, exec_mark in E.
  apply exec_rep_inv in E as (n & Hn1 & Hn6 & HXc & HXl & E).
  rewrite exec_mark in E.
  apply exec_lit_inv in E as (s1 & Hs1 & E).
  apply exec_rep_inv in E as (m & Hm1 & _ & Hwc & Hwl & E).
  rewrite exec_mark in E.
  apply exec_rep_inv in E as (q & Hq1 & _ & HRc & HRl & E).
  rewrite exec_mark in E.
  apply exec_eol_inv in E as [Hnl Hr]. injection Hr as _ Hmarks.
  cbn [rev app] in Hmarks. subst marks.
  assert (H2 : skipn (S n + m) t = skipn m s1).
  { rewrite Nat.add_comm, <- skipn_skipn. f_equal. apply (skipn_S_cons _ _ _ _ Hs1). }
  rewrite group_1 in HX. rewrite group_2 in Hrest.
  replace (S (n + m + q) - S (n + m)) with q in Hrest by lia.
  change (S (n + m)) with (S n + m) in Hrest. rewrite H2 in Hrest.
  rewrite Nat.sub_0_r in HX. change (skipn 0 t) with t in HX.
  subst X rest.
  exists t, (firstn m s1), (firstn q (skipn m s1)), (skipn q (skipn m s1)).
  split; [reflexivity|]. split; [reflexivity|]. split.
  { change (txt ".") with ["."%char]. cbn [app].
    rewrite (firstn_skipn q), (firstn_skipn m), <- Hs1. symmetry. apply firstn_skipn. }
  split; [unfold short; split; [lia|exact HXc]|].
  split; [intros H0; rewrite H0 in Hwl; simpl in Hwl; lia|].
  split; [exact Hwc|].
  split; [intros H0; rewrite H0 in HRl; simpl in HRl; lia|].
  split; [exact HRc|].
  exact Hnl.
Qed.

(** Conversely, a title of that shape is split. *)
Lemma clean_title_matches (X w R : text) :
  short Re.nonspace X ->
  w <> [] -> forallb PyStr.isspace w = true ->
  R <> [] -> forallb Re.notnl R = true ->
  exists X' R', Scraper.clean_title (Some (X ++ txt "." ++ w ++ R)) = (Some X', Some R').
Proof.
  intros [[HX1 HX6] HXc] Hw Hwc HR HRc.
  assert (Hlw : 1 <= length w) by (destruct w; [congruence|simpl; lia]).
  assert (HlR : 1 <= length R) by (destruct R; [congruence|simpl; lia]).
  assert (E : exists r, Re.rmatch Scraper.title_pattern (X ++ txt "." ++ w ++ R) = Some r).
  { unfold Re.rmatch, Scraper.title_pattern. rewrite exec_bol, exec_mark.
    destruct (exec_rep_exists Re.notnl 1 None [Re.Mark; Re.Eol] R [] (S (0 + length X) + length w)
                [S (0 + length X) + length w; 0 + length X; 0]
                (S (0 + length X) + length w + length R,
                 rev [S (0 + length X) + length w + length R;
                      S (0 + length X) + length w; 0 + length X; 0]))
      as [r3 E3]; [exact HRc|exact HlR|exact I|reflexivity|].
    rewrite app_nil_r in E3.
    destruct (exec_rep_exists PyStr.isspace 1 None
                [Re.Mark; Re.Rep Re.notnl 1 None; Re.Mark; Re.Eol] w R
                (S (0 + length X)) [0 + length X; 0] r3)
      as [r2 E2]; [exact Hwc|exact Hlw|exact I|rewrite exec_mark; exact E3|].
    apply (exec_rep_exists Re.nonspace 1 (Some 6) _ X (txt "." ++ w ++ R) 0 [0] r2);
      [exact HXc|exact HX1|exact HX6|].
    rewrite exec_mark. change (txt ".") with ["."%char]. cbn [app].
    rewrite exec_lit. exact E2. }
  destruct E as [[e marks] E]. unfold Scraper.clean_title.
  destruct X as [|x X]; [simpl in HX1; lia|].
  cbn [app] in *. rewrite E. eexists _, _. reflexivity.
Qed.

Lemma join_two (sep a b : text) : PyStr.join sep [a; b] = a ++ sep ++ b.
Proof. reflexivity. Qed.

Lemma short_truthy (cls : ascii -> bool) (X : text) :
  short cls X -> PyStr.truthy (Some X) = true.
Proof. intros [[H _] _]. destruct X; [simpl in H; lia|reflexivity]. Qed.

Lemma clean_title_none (title rest : option text) :
  Scraper.clean_title title = (None, rest) -> rest = title.
Proof.
  unfold Scraper.clean_title. destruct title as [[|c t]|]; try congruence.
  destruct (Re.rmatch _ _) as [[e marks]|]; congruence.
Qed.

(** The tag after the one or two applications. *)
Lemma split_tag_shape (data : Data) :
  series_tag data = None ->
  (series_tag (Scraper.split_tag data) = None
   /\ title (Scraper.split_tag data) = title data)
  \/ exists s, series_tag (Scraper.split_tag data) = Some s /\ dot_joined Re.nonspace s.
Proof.
  intros Hnone. unfold Scraper.split_tag.
  destruct (Scraper.clean_title (title data)) as [[X|] rest] eqn:E1.
  - right. destruct (clean_title_inv _ _ _ E1) as (t & w & R & nl & _ & -> & _ & HX & _).
    rewrite (short_truthy _ _ HX).
    cbn [title set_title].
    destruct (Scraper.clean_title (Some R)) as [[Y|] rest2] eqn:E2.
    + destruct (clean_title_inv _ _ _ E2) as (t' & w' & R' & nl' & _ & -> & _ & HY & _).
      rewrite (short_truthy _ _ HY). cbn [series_tag set_title set_series_tag PyStr.format].
      eexists. split; [reflexivity|].
      exists [X; Y]. split; [simpl; lia|].
      split; [apply List.Forall_cons; [exact HX|apply List.Forall_cons; [exact HY|apply List.Forall_nil]]|].
      reflexivity.
    + cbn [PyStr.truthy series_tag set_title set_series_tag].
      eexists. split; [reflexivity|].
      exists [X]. split; [simpl; lia|].
      split; [apply List.Forall_cons; [exact HX|apply List.Forall_nil]|].
      reflexivity.
  - left. cbn [PyStr.truthy]. split; [exact Hnone|reflexivity].
Qed.

Example clean_title_ex1 :
  Scraper.clean_title (Some (txt "1.2. The Actual Title"))
  = (Some (txt "1.2"), Some (txt "The Actual Title")).
Proof. reflexivity. Qed.

Example clean_title_ex2 :
  Scraper.clean_title (Some (txt "1. 2. The Actual Title"))
  = (Some (txt "1"), Some (txt "2. The Actual Title")).
Proof. reflexivity. Qed.

(** ** What the steps of the extractor leave alone *)

Lemma bind_Ok {A B} (r : result A) (k : A -> result B) (b : B) :
  bind r k = Ok b -> exists a, r = Ok a /\ k a = Ok b.
Proof. destruct r as [a|e]; simpl; [eauto|discriminate]. Qed.

Lemma keeps_refl (d : Data) : keeps d d.
Proof. repeat split. Qed.

Lemma keeps_trans (a b c : Data) : keeps a b -> keeps b c -> keeps a c.
Proof. unfold keeps. intros (?&?&?) (?&?&?). repeat split; congruence. Qed.

Section Frames.

Variable base_url : text.
Variable re_compile : text -> result Regex.
Variable pad_year : bool.

Lemma strip_series_keeps (name : text) (d d' : Data) :
  Scraper.strip_series re_compile name d = Ok d' -> keeps d d'.
Proof.
  unfold Scraper.strip_series. intros H.
  apply bind_Ok in H as (r & _ & H).
  destruct (title d) as [t|]; [|discriminate].
  destruct (re_search r t); injection H as <-; repeat split.
Qed.

Lemma split_tag_keeps (d : Data) :
  url (Scraper.split_tag d) = url d /\ isbn (Scraper.split_tag d) = isbn d.
Proof.
  unfold Scraper.split_tag.
  destruct (Scraper.clean_title (title d)) as [p r].
  destruct (PyStr.truthy p); [|split; reflexivity].
  destruct (Scraper.clean_title _) as [p2 r2].
  destruct (PyStr.truthy p2); split; reflexivity.
Qed.

Lemma parse_desc_inv (pd : ProductDesc) (d d' : Data) :
  Scraper.parse_desc re_compile pd d = Ok d' ->
  url d' = url d /\ isbn d' = isbn d
  /\ series_tag d'
     = series_tag (Scraper.split_tag (set_title (PyStr.strip <$> pd_h3 pd) d)).
Proof.
  unfold Scraper.parse_desc. intros H.
  apply bind_Ok in H as (d1 & H1 & H).
  apply strip_series_keeps in H1 as (U1 & T1 & I1).
  destruct (series d1); [|discriminate].
  apply strip_series_keeps in H as (U2 & T2 & I2).
  destruct (split_tag_keeps (set_title (PyStr.strip <$> pd_h3 pd) d)) as [U0 I0].
  cbn [url isbn series_tag set_series] in U1, T1, I1.
  change (url (set_title (PyStr.strip <$> pd_h3 pd) d)) with (url d) in U0.
  change (isbn (set_title (PyStr.strip <$> pd_h3 pd) d)) with (isbn d) in I0.
  repeat split; congruence.
Qed.

Lemma parse_cover_keeps (soup : Soup) (d : Data) :
  keeps d (Scraper.parse_cover base_url soup d).
Proof.
  unfold Scraper.parse_cover. destruct (cover_div soup) as [[img|]|]; repeat split.
Qed.

Lemma parse_date_keeps (soup : Soup) (d : Data) :
  keeps d (Scraper.parse_date pad_year soup d).
Proof.
  unfold Scraper.parse_date. destruct (release_date_div soup); [|repeat split].
  destruct (PyStr.truthy _); repeat split.
Qed.

Lemma parse_credits_keeps (soup : Soup) (d : Data) :
  keeps d (Scraper.parse_credits soup d).
Proof.
  unfold Scraper.parse_credits.
  destruct (nth_error _ 0), (nth_error _ 1); repeat split.
Qed.

Lemma parse_tab_keeps (soup : Soup) (id : tab_id) (d d' : Data) :
  id <> tab6 -> Scraper.parse_tab soup id d = Ok d' -> keeps d d'.
Proof.
  unfold Scraper.parse_tab. intros Hid H.
  destruct (tab soup id); [|injection H as <-; apply keeps_refl].
  destruct id; try congruence; injection H as <-; repeat split.
Qed.

(** A record that [extract] returns is the result of the [tab6] step on a
    record without ISBN whose tag is the one split off the title. *)
Lemma extract_inv (u : text) (soup : Soup) (d : Data) :
  Scraper.extract base_url re_compile pad_year u soup = Ok d ->
  exists d3,
    url d3 = u /\ isbn d3 = None
    /\ (series_tag d3 = None
        \/ exists raw, series_tag d3
             = series_tag (Scraper.split_tag (set_title raw (Scraper.empty_data u))))
    /\ Scraper.parse_tab soup tab6 d3 = Ok d.
Proof.
  unfold Scraper.extract. intros H.
  apply bind_Ok in H as (d0 & H0 & H).
  cbn [Scraper.parse_tabs] in H.
  apply bind_Ok in H as (d1 & H1 & H).
  apply bind_Ok in H as (d2 & H2 & H).
  apply bind_Ok in H as (d3 & H3 & H).
  apply bind_Ok in H as (d4 & H4 & H). injection H as <-.
  apply parse_tab_keeps in H1; [|discriminate].
  apply parse_tab_keeps in H2; [|discriminate].
  apply parse_tab_keeps in H3; [|discriminate].
  pose proof (parse_cover_keeps soup d0) as K1.
  pose proof (parse_date_keeps soup (Scraper.parse_cover base_url soup d0)) as K2.
  pose proof (parse_credits_keeps soup
                (Scraper.parse_date pad_year soup
                   (Scraper.parse_cover base_url soup d0))) as K3.
  pose proof (keeps_trans _ _ _ (keeps_trans _ _ _ (keeps_trans _ _ _
               (keeps_trans _ _ _ (keeps_trans _ _ _ K1 K2) K3) H1) H2) H3)
    as (U & T & I).
  exists d3. rewrite U, T, I.
  destruct (product_desc soup) as [pd|].
  - apply parse_desc_inv in H0 as (U0 & I0 & T0).
    rewrite U0, I0, T0. repeat split; try reflexivity; [|exact H4].
    right. eexists. reflexivity.
  - injection H0 as <-. repeat split; try reflexivity; [|exact H4].
    left. reflexivity.
Qed.

Lemma field_after_keeps_tag (marker content : text) (d d' : Data) :
  Scraper.parse_isbn marker content d = Ok d' ->
  url d' = url d /\ series_tag d' = series_tag d.
Proof.
  unfold Scraper.parse_isbn. intros H. apply bind_Ok in H as (v & _ & H).
  injection H as <-. split; reflexivity.
Qed.

Lemma parse_tab6_keeps_tag (soup : Soup) (d d' : Data) :
  Scraper.parse_tab soup tab6 d = Ok d' ->
  url d' = url d /\ series_tag d' = series_tag d.
Proof.
  unfold Scraper.parse_tab. destruct (tab soup tab6) as [t|];
    [|intros [= <-]; split; reflexivity].
  unfold Scraper.parse_production. intros H.
  apply bind_Ok in H as (d1 & H1 & H).
  assert (K1 : url d1 = url d /\ series_tag d1 = series_tag d).
  { destruct (PyStr.contains (txt "Duration:") _).
    - apply bind_Ok in H1 as (v & _ & H1). injection H1 as <-. split; reflexivity.
    - injection H1 as <-. split; reflexivity. }
  destruct K1 as [U1 T1].
  destruct (PyStr.contains (txt "Digital Retail ISBN: ") _).
  - apply field_after_keeps_tag in H as [U T]. split; congruence.
  - destruct (PyStr.contains (txt "Physical Retail ISBN: ") _).
    + apply field_after_keeps_tag in H as [U T]. split; congruence.
    + injection H as <-. split; assumption.
Qed.

End Frames.

(** C5 (as amended).  One application of the clean-title transform splits a
    title exactly when it is a prefix of one to six characters that are not
    white space, a dot, white space and a rest on one line; the prefix is the
    tag component and the rest the working title.  After the one or two
    applications the tag is absent and the title unchanged, or the tag is one
    such prefix or two joined with a dot: [1.2. The Actual Title] gives the
    tag [1.2] and the title [The Actual Title], [The Actual Title] gives no
    tag and is unchanged.  The tag of a record the extractor returns has that
    shape. *)
Theorem C5_series_tag_from_title :
  (forall title X rest,
      Scraper.clean_title title = (Some X, rest) ->
      exists t w R nl,
        title = Some t /\ rest = Some R
        /\ t = X ++ txt "." ++ w ++ R ++ nl
        /\ short Re.nonspace X
        /\ w <> [] /\ forallb PyStr.isspace w = true
        /\ R <> [] /\ forallb Re.notnl R = true
        /\ (nl = [] \/ nl = [Re.newline]))
  /\ (forall X w R,
        short Re.nonspace X -> w <> [] -> forallb PyStr.isspace w = true ->
        R <> [] -> forallb Re.notnl R = true ->
        exists X' R',
          Scraper.clean_title (Some (X ++ txt "." ++ w ++ R)) = (Some X', Some R'))
  /\ (forall u raw,
        let d := Scraper.split_tag (set_title raw (Scraper.empty_data u)) in
        (series_tag d = None /\ title d = raw)
        \/ exists s, series_tag d = Some s /\ dot_joined Re.nonspace s)
  /\ (forall u,
        let d := Scraper.split_tag
                   (set_title (Some (txt "1.2. The Actual Title")) (Scraper.empty_data u)) in
        series_tag d = Some (txt "1.2") /\ title d = Some (txt "The Actual Title"))
  /\ (forall u,
        let d := Scraper.split_tag
                   (set_title (Some (txt "The Actual Title")) (Scraper.empty_data u)) in
        series_tag d = None /\ title d = Some (txt "The Actual Title"))
  /\ (forall base_url re_compile pad_year u soup d,
        Scraper.extract base_url re_compile pad_year u soup = Ok d ->
        series_tag d = None
        \/ exists s, series_tag d = Some s /\ dot_joined Re.nonspace s).
Proof.
  split; [exact clean_title_inv|]. split; [exact clean_title_matches|].
  split; [intros u raw; apply (split_tag_shape (set_title raw (Scraper.empty_data u)));
          reflexivity|].
  split; [intros u; split; reflexivity|]. split; [intros u; split; reflexivity|].
  intros base_url re_compile pad_year u soup d H.
  apply extract_inv in H as (d3 & _ & _ & Ht & H6).
  apply parse_tab6_keeps_tag in H6 as [_ T]. rewrite T.
  destruct Ht as [Ht|[raw Ht]]; [left; exact Ht|]. rewrite Ht.
  destruct (split_tag_shape (set_title raw (Scraper.empty_data u)) eq_refl)
    as [[Hn _]|Hs]; [left; exact Hn|right; exact Hs].
Qed.

Lemma C5_series_tag_witness :
  exists t w R nl,
    Some (txt "1.2. The Actual Title") = Some t /\ Some (txt "The Actual Title") = Some R
    /\ t = txt "1.2" ++ txt "." ++ w ++ R ++ nl
    /\ short Re.nonspace (txt "1.2")
    /\ w <> [] /\ forallb PyStr.isspace w = true
    /\ R <> [] /\ forallb Re.notnl R = true
    /\ (nl = [] \/ nl = [Re.newline]).
Proof.
  apply (proj1 C5_series_tag_from_title (Some (txt "1.2. The Actual Title"))
           (txt "1.2") (Some (txt "The Actual Title"))).
  reflexivity.
Defined.

(** C5 fails as stated: the prefix need not be alphanumeric.  The title
    [#1. Storm Warning] gives the tag [#1]. *)
Lemma C5_tag_not_alphanumeric :
  ~ (forall u raw,
        let d := Scraper.split_tag (set_title raw (Scraper.empty_data u)) in
        series_tag d = None
        \/ exists s, series_tag d = Some s /\ dot_joined alnum s).
Proof.
  intros H.
  specialize (H (txt "u") (Some (txt "#1. Storm Warning"))). cbv zeta in H.
  assert (E : series_tag (Scraper.split_tag
                (set_title (Some (txt "#1. Storm Warning")) (Scraper.empty_data (txt "u"))))
              = Some (txt "#1")) by reflexivity.
  rewrite E in H. clear E.
  destruct H as [H|(s & Hs & parts & Hlen & Hall & Hj)]; [discriminate H|].
  injection Hs as <-.
  destruct parts as [|a [|b [|c parts]]]; simpl in Hlen; try lia.
  - cbn [PyStr.join] in Hj. subst a.
    apply List.Forall_inv in Hall. destruct Hall as [_ Hc]. discriminate Hc.
  - rewrite join_two in Hj.
    apply List.Forall_inv in Hall. destruct Hall as [[Hl _] Hc].
    destruct a as [|x a]; [simpl in Hl; lia|].
    injection Hj as <- _. discriminate Hc.
Qed.

(** ** Concrete runs *)

Example split_ex1 : PyStr.split (txt ", ") (txt "a, b, c") = [txt "a"; txt "b"; txt "c"].
Proof. reflexivity. Qed.

Example date_ex1 b :
  DateParser.parse_release_date b (Some (txt "Released March 2020")) = Some (txt "2020-03-01").
Proof. destruct b; reflexivity. Qed.

Example date_ex2 b :
  DateParser.parse_release_date b (Some (txt "released Marchy 2020")) = None.
Proof. destruct b; reflexivity. Qed.

Example date_ex3 :
  DateParser.parse_release_date false (Some (txt "  RELEASED in  March   0999xyz")) = Some (txt "999-03-01").
Proof. reflexivity. Qed.

Lemma C7_link_classifier_witness :
  fst (Scraper.get_all_links Sample.origin Sample.BeautifulSoup (txt "home") true
         Sample.start)
  = [Sample.release "1"; Sample.origin ++ txt "/ranges/monthly"].
Proof.
  exact (proj1 (C7_link_classifier Sample.origin Sample.BeautifulSoup (txt "home")
                  Sample.home true Sample.start eq_refl)).
Defined.

Lemma C1_visit_marks_witness :
  exists st',
    Scraper.visit Sample.origin Sample.BeautifulSoup Sample.re_compile Sample.http_get
      Sample.latency true (Sample.release "1") Sample.one_release = Ok st'
    /\ marked (Sample.release "1") st'.
Proof.
  apply (proj1 (C1_visit_marks_after_fetch Sample.origin Sample.BeautifulSoup
                  Sample.re_compile Sample.http_get Sample.latency true
                  (Sample.release "1") Sample.one_release) (txt "release1")).
  - reflexivity.
  - discriminate.
  - intros _ soup Hsoup. injection Hsoup as <-. eexists. vm_compute. reflexivity.
Defined.

Lemma C8_ranking_witness :
  exists l,
    WebApi.sorted_matches Sample.ratio (txt "Doctor Who: Flux")
      (map Some [Sample.tale; Sample.flux]) = Ok l
    /\ Permutation l
         (map (fun row => (title_score Sample.ratio (txt "Doctor Who: Flux") row, row))
            [Sample.tale; Sample.flux])
    /\ StronglySorted (desc fst) l
    /\ forall k, List.filter (fun m => fst m =? k)%Z l
                 = List.filter (fun m => fst m =? k)%Z
                     (map (fun row => (title_score Sample.ratio (txt "Doctor Who: Flux") row,
                                       row))
                        [Sample.tale; Sample.flux]).
Proof.
  apply (proj2 (C8_ranking_policies Sample.ratio (txt "Doctor Who: Flux"))
           [Sample.tale; Sample.flux]).
  intros row [<-|[<-|[]]]; discriminate.
Defined.

Example ranking_ex :
  map snd (OutdatedApi.top_matches Sample.ratio (txt "Doctor Who: Flux")
             [Sample.tale; Sample.flux]) = [Sample.flux]
  /\ (do l <- WebApi.sorted_matches Sample.ratio (txt "Doctor Who: Flux")
                (map Some [Sample.tale; Sample.flux]); Ok (map snd l))
     = Ok [Sample.flux; Sample.tale].
Proof. split; reflexivity. Qed.

(** C3 fails on the code.  A page that the parser accepts and whose
    description block lacks the series heading, or the title heading, makes
    the extractor raise instead of returning a record; so does a production
    tab that has [Duration:] without the space after it.  Nothing is
    persisted for such a page. *)
Theorem C3_missing_heading_raises
    (base_url : text) (re_compile : text -> result Regex) (pad_year : bool)
    (u html : text) (st : State) :
  (exists e, Scraper.parse_data base_url (fun _ => Some Sample.without_series)
               re_compile pad_year u html st = Raise e)
  /\ (exists e, Scraper.parse_data base_url (fun _ => Some Sample.without_title)
                  re_compile pad_year u html st = Raise e)
  /\ Scraper.parse_data base_url (fun _ => Some Sample.bare_duration)
       re_compile pad_year u html st = Raise IndexError.
Proof.
  unfold Scraper.parse_data. split; [|split].
  - destruct (extract_raises_desc base_url re_compile pad_year u Sample.without_series
                _ eq_refl (or_introl eq_refl)) as [e He].
    rewrite He. exists e. reflexivity.
  - destruct (extract_raises_desc base_url re_compile pad_year u Sample.without_title
                _ eq_refl (or_intror eq_refl)) as [e He].
    rewrite He. exists e. reflexivity.
  - reflexivity.
Qed.

(** ** [split] *)

Lemma split_go_skip (sep a s cur : text) :
  PyStr.split_go sep (a ++ s) (length a) cur = PyStr.split_go sep s 0 cur.
Proof.
  induction a as [|c a IH]; [reflexivity|]. exact IH.
Qed.

Lemma startswith_inv (s p : text) :
  PyStr.startswith s p = true -> exists post, s = p ++ post.
Proof.
  revert s. induction p as [|a p IH]; intros s H.
  - exists s. reflexivity.
  - destruct s as [|b s]; [discriminate H|]. simpl in H.
    apply andb_true_iff in H as [H1 H2]. apply Ascii.eqb_eq in H1. subst b.
    destruct (IH s H2) as [post ->]. exists post. reflexivity.
Qed.

Lemma startswith_prefix (p post : text) : PyStr.startswith (p ++ post) p = true.
Proof.
  induction p as [|a p IH]; [destruct post; reflexivity|].
  simpl. rewrite Ascii.eqb_refl. exact IH.
Qed.

Lemma split_go_cons (sep : text) (c : ascii) (s cur : text) :
  PyStr.split_go sep (c :: s) 0 cur
  = if PyStr.startswith (c :: s) sep
    then rev cur :: PyStr.split_go sep s (length sep - 1) []
    else PyStr.split_go sep s 0 (c :: cur).
Proof. reflexivity. Qed.

(** At an occurrence of the separator the piece read so far is closed. *)
Lemma split_go_found (sep post cur : text) :
  sep <> [] ->
  PyStr.split_go sep (sep ++ post) 0 cur = rev cur :: PyStr.split_go sep post 0 [].
Proof.
  intros Hsep. destruct sep as [|c sep]; [congruence|].
  change ((c :: sep) ++ post) with (c :: (sep ++ post)).
  rewrite split_go_cons.
  change (c :: sep ++ post) with ((c :: sep) ++ post).
  rewrite startswith_prefix. f_equal.
  replace (length (c :: sep) - 1) with (length sep) by (simpl; lia).
  apply split_go_skip.
Qed.

(** The first piece: a prefix of the text that stops at the end or at an
    occurrence of the separator, and holds no separator of one
    character. *)
Lemma split_go_head (sep s cur : text) :
  sep <> [] ->
  exists h rest l,
    PyStr.split_go sep s 0 cur = (rev cur ++ h) :: l
    /\ s = h ++ rest
    /\ (rest = [] \/ PyStr.startswith rest sep = true)
    /\ forall c0, sep = [c0] -> ~ In c0 h.
Proof.
  intros Hsep. revert cur. induction s as [|c s IH]; intros cur.
  - exists [], [], []. rewrite app_nil_r. repeat split; auto.
  - rewrite split_go_cons. destruct (PyStr.startswith (c :: s) sep) eqn:E.
    + exists [], (c :: s), (PyStr.split_go sep s (length sep - 1) []).
      rewrite app_nil_r. repeat split; auto.
    + destruct (IH (c :: cur)) as (h & rest & l & H1 & H2 & H3 & H4).
      exists (c :: h), rest, l. split.
      { rewrite H1. cbn [rev]. rewrite <- app_assoc. reflexivity. }
      split; [rewrite H2; reflexivity|]. split; [exact H3|].
      intros c0 Hc0 [Hin|Hin]; [|exact (H4 c0 Hc0 Hin)].
      subst sep c0. simpl in E. rewrite Ascii.eqb_refl in E.
      destruct s; discriminate E.
Qed.

(** A text that holds the separator splits at its first occurrence. *)
Lemma split_go_contains (sep s cur : text) :
  sep <> [] -> PyStr.contains sep s = true ->
  exists pre post,
    s = pre ++ sep ++ post
    /\ not_before sep pre (sep ++ post)
    /\ PyStr.split_go sep s 0 cur = (rev cur ++ pre) :: PyStr.split_go sep post 0 [].
Proof.
  intros Hsep. revert cur. induction s as [|c s IH]; intros cur H.
  - destruct sep; [congruence|discriminate H].
  - rewrite contains_cons in H. rewrite split_go_cons.
    destruct (PyStr.startswith (c :: s) sep) eqn:E.
    + destruct (startswith_inv _ _ E) as [post Hpost].
      exists [], post. split; [exact Hpost|]. split.
      { intros a b Hab Hb. symmetry in Hab. apply app_eq_nil in Hab as [_ ->].
        congruence. }
      rewrite app_nil_r. pose proof (split_go_found sep post cur Hsep) as F.
      rewrite <- Hpost, split_go_cons, E in F. exact F.
    + simpl in H. destruct (IH (c :: cur) H) as (pre & post & H1 & Hnb & H2).
      exists (c :: pre), post. split; [rewrite H1; reflexivity|]. split.
      { intros a b Hab Hb. destruct a as [|x a].
        - cbn [app] in Hab. subst b. cbn [app]. rewrite <- H1. exact E.
        - injection Hab as _ Hab. exact (Hnb a b Hab Hb). }
      rewrite H2. cbn [rev]. rewrite <- app_assoc. reflexivity.
Qed.

Lemma in_app_prefix (c : ascii) (a b : text) : ~ In c (a ++ b) -> ~ In c a.
Proof. intros H Hin. apply H, in_or_app. left. exact Hin. Qed.

(** The field read after a marker that occurs in the text. *)
Lemma field_after_inv (marker content : text) :
  marker <> [] -> PyStr.contains marker content = true ->
  exists pre v rest,
    Scraper.field_after marker content = Ok v
    /\ content = pre ++ marker ++ v ++ rest
    /\ not_before marker pre (marker ++ v ++ rest)
    /\ stops_at marker rest
    /\ ~ In " "%char v /\ ~ In Re.newline v.
Proof.
  intros Hm Hc. unfold Scraper.field_after, PyStr.split.
  destruct (split_go_contains marker content [] Hm Hc)
    as (pre & post & Hcontent & Hnb & Hs).
  rewrite Hs.
  destruct (split_go_head marker post [] Hm) as (h1 & r1 & l1 & S1 & P1 & R1 & _).
  rewrite S1. cbn [PyStr.index nth_error bind rev app].
  destruct (split_go_head (txt " ") h1 []) as (h2 & r2 & l2 & S2 & P2 & R2 & N2);
    [discriminate|].
  rewrite S2. cbn [PyStr.index nth_error bind rev app].
  destruct (split_go_head [Re.newline] h2 []) as (v & r3 & l3 & S3 & P3 & R3 & N3);
    [discriminate|].
  rewrite S3. cbn [PyStr.index nth_error bind rev app].
  exists pre, v, (r3 ++ r2 ++ r1). split; [reflexivity|]. split.
  { rewrite Hcontent, P1, P2, P3. rewrite <- !app_assoc. reflexivity. }
  split.
  { rewrite P1, P2, P3, <- !app_assoc in Hnb. exact Hnb. }
  split.
  { unfold stops_at. destruct r3 as [|c3 r3].
    - destruct r2 as [|c2 r2].
      + destruct R1 as [->|R1]; [left; reflexivity|]. right. right. right. exact R1.
      + destruct R2 as [R2|R2]; [discriminate|]. right. left.
        cbn [app]. change (c2 :: r2 ++ r1) with ((c2 :: r2) ++ r1).
        apply startswith_app, R2.
    - destruct R3 as [R3|R3]; [discriminate|]. right. right. left.
      change ((c3 :: r3) ++ r2 ++ r1) with ((c3 :: r3) ++ (r2 ++ r1)).
      apply startswith_app, R3. }
  split.
  - specialize (N2 " "%char eq_refl). rewrite P3 in N2.
    exact (in_app_prefix _ _ _ N2).
  - exact (N3 Re.newline eq_refl).
Qed.

(** ** The ISBN check *)

Lemma isbn_match_inv (v : text) r :
  Re.rmatch Scraper.isbn_pattern v = Some r -> starts_valid v.
Proof.
  unfold Re.rmatch, Scraper.isbn_pattern. intros E.
  apply exec_rep_inv in E as (n1 & L1 & U1 & D1 & N1 & E).
  apply exec_lit_inv in E as (s1 & Hs1 & E).
  apply exec_rep_inv in E as (n2 & L2 & U2 & D2 & N2 & E).
  apply exec_lit_inv in E as (s2 & Hs2 & E).
  apply exec_rep_inv in E as (n3 & L3 & U3 & D3 & N3 & E).
  apply exec_lit_inv in E as (s3 & Hs3 & E).
  apply exec_rep_inv in E as (n4 & L4 & U4 & D4 & N4 & _).
  exists (firstn n1 v ++ txt "-" ++ firstn n2 s1 ++ txt "-" ++ firstn n3 s2 ++ txt "-"
          ++ firstn n4 s3), (skipn n4 s3).
  split.
  - change (txt "-") with ["-"%char]. rewrite <- !app_assoc. cbn [app].
    rewrite (firstn_skipn n4 s3), <- Hs3, (firstn_skipn n3 s2), <- Hs2,
      (firstn_skipn n2 s1), <- Hs1. symmetry. apply firstn_skipn.
  - exists (firstn n1 v), (firstn n2 s1), (firstn n3 s2), (firstn n4 s3).
    unfold digits. repeat split; try assumption; lia.
Qed.

Lemma isbn_match_complete (p q : text) :
  isbn_shape p -> exists r, Re.rmatch Scraper.isbn_pattern (p ++ q) = Some r.
Proof.
  intros (a & b & c & d & -> & Da & La & Db & Lb & Dc & Lc & Dd & Ld).
  unfold digits in *. change (txt "-") with ["-"%char]. rewrite <- !app_assoc. cbn [app].
  assert (H4 : forall pos marks,
             exists r, Re.exec [Re.Rep PyStr.isdigit 1 (Some 1)] (d ++ q) pos marks = Some r).
  { intros pos marks. eapply exec_rep_exists; [exact Dd|lia|simpl; lia|reflexivity]. }
  assert (H3 : forall pos marks,
             exists r, Re.exec [Re.Rep PyStr.isdigit 1 (Some 7); Re.Lit "-";
                                Re.Rep PyStr.isdigit 1 (Some 1)]
                         (c ++ "-"%char :: d ++ q) pos marks = Some r).
  { intros pos marks. destruct (H4 (S (pos + length c)) marks) as [r E].
    eapply exec_rep_exists; [exact Dc|lia|simpl; lia|rewrite exec_lit; exact E]. }
  assert (H2 : forall pos marks,
             exists r, Re.exec [Re.Rep PyStr.isdigit 1 (Some 5); Re.Lit "-";
                                Re.Rep PyStr.isdigit 1 (Some 7); Re.Lit "-";
                                Re.Rep PyStr.isdigit 1 (Some 1)]
                         (b ++ "-"%char :: c ++ "-"%char :: d ++ q) pos marks = Some r).
  { intros pos marks. destruct (H3 (S (pos + length b)) marks) as [r E].
    eapply exec_rep_exists; [exact Db|lia|simpl; lia|rewrite exec_lit; exact E]. }
  unfold Re.rmatch, Scraper.isbn_pattern.
  destruct (H2 (S (0 + length a)) []) as [r E].
  eapply exec_rep_exists; [exact Da|lia|simpl; lia|rewrite exec_lit; exact E].
Qed.

Lemma isbn_match_iff (v : text) :
  Re.rmatch Scraper.isbn_pattern v <> None <-> starts_valid v.
Proof.
  split.
  - destruct (Re.rmatch Scraper.isbn_pattern v) as [r|] eqn:E; [|congruence].
    intros _. exact (isbn_match_inv v r E).
  - intros (p & q & -> & Hp). destruct (isbn_match_complete p q Hp) as [r E].
    rewrite E. discriminate.
Qed.

Section Isbn.

Variable base_url : text.
Variable BeautifulSoup : text -> option Soup.
Variable re_compile : text -> result Regex.
Variable pad_year : bool.

Lemma parse_isbn_read (marker content : text) (d d' : Data) :
  marker <> [] -> PyStr.contains marker content = true ->
  Scraper.parse_isbn marker content d = Ok d' ->
  exists pre v rest,
    content = pre ++ marker ++ v ++ rest
    /\ not_before marker pre (marker ++ v ++ rest)
    /\ stops_at marker rest
    /\ ~ In " "%char v /\ ~ In Re.newline v
    /\ ((starts_valid v /\ isbn d' = Some v) \/ (~ starts_valid v /\ isbn d' = None)).
Proof.
  intros Hm Hc H.
  destruct (field_after_inv marker content Hm Hc)
    as (pre & v & rest & F & P & B & S & N1 & N2).
  unfold Scraper.parse_isbn in H. rewrite F in H. cbn [bind] in H. injection H as <-.
  exists pre, v, rest. repeat split; try assumption.
  cbn [isbn set_isbn].
  destruct (Re.rmatch Scraper.isbn_pattern v) as [r|] eqn:E.
  - left. split; [exact (isbn_match_inv v r E)|reflexivity].
  - right. split; [|reflexivity]. intros Hv. apply isbn_match_iff in Hv. congruence.
Qed.

Lemma parse_production_isbn (content : text) (d d' : Data) :
  isbn d = None ->
  Scraper.parse_production content d = Ok d' ->
  isbn_read content (isbn d').
Proof.
  intros Hnone H. unfold Scraper.parse_production in H.
  apply bind_Ok in H as (d1 & H1 & H).
  assert (I1 : isbn d1 = None).
  { destruct (PyStr.contains (txt "Duration:") content).
    - apply bind_Ok in H1 as (v & _ & H1). injection H1 as <-. exact Hnone.
    - injection H1 as <-. exact Hnone. }
  unfold isbn_read, isbn_marker. fold digital physical in H.
  destruct (PyStr.contains digital content) eqn:Ed.
  - right.
    apply (parse_isbn_read digital content d1 d'); [discriminate|exact Ed|exact H].
  - destruct (PyStr.contains physical content) eqn:Ep.
    + right. apply (parse_isbn_read physical content d1 d'); [discriminate|exact Ep|exact H].
    + left. injection H as <-. split; [reflexivity|exact I1].
Qed.

(** C4.  A record that [parse_data] returns is the row stored under its
    URL.  Its ISBN comes from the text of the production tab: the field is
    read after the first ["Digital Retail ISBN: "] if the text has one,
    else after the first ["Physical Retail ISBN: "], up to the next space,
    newline or occurrence of the marker; it is kept when the pattern
    matches it, as [re.match] matches, from its first character, and is
    absent otherwise, as it is when there is no production tab or no
    marker.  A kept ISBN is therefore a text the pattern matches, without
    space or newline. *)
Theorem C4_isbn_validated_at_start (u html : text) (st st' : State) (data : Data) :
  Scraper.parse_data base_url BeautifulSoup re_compile pad_year u html st
    = Ok (Some data, st') ->
  return_data_for_url u (db st') = Some {| row_data := data; created_at := clock st |}
  /\ (exists soup,
        BeautifulSoup html = Some soup
        /\ match tab soup tab6 with
           | Some t => isbn_read (PyStr.strip (tab_text t)) (isbn data)
           | None => isbn data = None
           end)
  /\ (isbn data = None
      \/ exists v, isbn data = Some v /\ starts_valid v
                   /\ ~ In " "%char v /\ ~ In Re.newline v
                   /\ Re.rmatch Scraper.isbn_pattern v <> None).
Proof.
  unfold Scraper.parse_data. intros H.
  destruct (BeautifulSoup html) as [soup|] eqn:Hs; [|discriminate H].
  apply bind_Ok in H as (d & He & H). injection H as -> <-.
  apply extract_inv in He as (d3 & U3 & I3 & _ & H6).
  pose proof (parse_tab6_keeps_tag soup d3 data H6) as [U _].
  assert (R : match tab soup tab6 with
              | Some t => isbn_read (PyStr.strip (tab_text t)) (isbn data)
              | None => isbn data = None
              end).
  { unfold Scraper.parse_tab in H6. destruct (tab soup tab6) as [t|].
    - exact (parse_production_isbn _ _ _ I3 H6).
    - injection H6 as <-. exact I3. }
  split; [|split].
  - unfold return_data_for_url, save_content. cbn [db with_db content].
    rewrite U, U3, lookup_insert_eq. reflexivity.
  - exists soup. split; [reflexivity|exact R].
  - destruct (tab soup tab6) as [t|]; [|left; exact R].
    destruct R as [[_ R]|(pre & v & rest & _ & _ & _ & N1 & N2 & [[V R]|[_ R]])];
      [left; exact R| |left; exact R].
    right. exists v. repeat (split; [assumption|]). apply isbn_match_iff, V.
Qed.

End Isbn.

Lemma C4_isbn_witness :
  return_data_for_url (Sample.release "1")
    (db (Sample.state_of (Sample.parsed (txt "release1"))))
  = Some {| row_data := Sample.record_of (Sample.parsed (txt "release1"));
            created_at := 0 |}
  /\ isbn (Sample.record_of (Sample.parsed (txt "release1")))
     = Some (txt "978-1-4028-9462-6").
Proof.
  split; [|reflexivity].
  apply (C4_isbn_validated_at_start Sample.origin Sample.BeautifulSoup Sample.re_compile
           true (Sample.release "1") (txt "release1") Sample.one_release
           (Sample.state_of (Sample.parsed (txt "release1")))
           (Sample.record_of (Sample.parsed (txt "release1")))).
  vm_compute. reflexivity.
Defined.

(** The match is made from the first character of the field and need
    not reach its last: in the ISBN of thirteen digits it ends after
    [978-1-4028-9], and what follows is kept with it, as a letter after
    the last digit is.  [N/A] has no match. *)
Example isbn_match_examples :
  fst <$> Re.rmatch Scraper.isbn_pattern (txt "978-1-4028-9462-6") = Some 12
  /\ isbn (Sample.record_of (Sample.parsed (txt "trailing")))
     = Some (txt "978-1-4028-9462-6X")
  /\ Re.rmatch Scraper.isbn_pattern (txt "N/A") = None.
Proof. repeat split. Qed.

(** ** Character classes *)

Lemma isdigit_code (c : ascii) :
  PyStr.isdigit c = true <-> 48 <= PyStr.code c <= 57.
Proof.
  unfold PyStr.isdigit, PyStr.between.
  rewrite andb_true_iff, !Nat.leb_le. reflexivity.
Qed.

Lemma isdigit_not_space (c : ascii) : PyStr.isdigit c = true -> PyStr.isspace c = false.
Proof.
  intros H. apply isdigit_code in H. unfold PyStr.isspace, PyStr.between.
  cbv zeta. rewrite !orb_false_iff, !andb_false_iff, !Nat.leb_gt, !Nat.eqb_neq. lia.
Qed.

Lemma isdigit_not_alpha (c : ascii) : PyStr.isdigit c = true -> PyStr.isalpha c = false.
Proof.
  intros H. apply isdigit_code in H. unfold PyStr.isalpha, PyStr.between.
  cbv zeta. rewrite !orb_false_iff, !andb_false_iff, !Nat.leb_gt. lia.
Qed.

Lemma isspace_code (c : ascii) :
  PyStr.isspace c = true ->
  9 <= PyStr.code c <= 13 \/ 28 <= PyStr.code c <= 32
  \/ PyStr.code c = 133 \/ PyStr.code c = 160.
Proof.
  unfold PyStr.isspace, PyStr.between. cbv zeta.
  rewrite !orb_true_iff, !andb_true_iff, !Nat.leb_le, !Nat.eqb_eq. tauto.
Qed.

Lemma isspace_not_alpha (c : ascii) : PyStr.isspace c = true -> PyStr.isalpha c = false.
Proof.
  intros H. apply isspace_code in H. unfold PyStr.isalpha, PyStr.between.
  cbv zeta. rewrite !orb_false_iff, !andb_false_iff, !Nat.leb_gt. lia.
Qed.

Lemma isspace_not_digit (c : ascii) : PyStr.isspace c = true -> PyStr.isdigit c = false.
Proof.
  intros H. destruct (PyStr.isdigit c) eqn:E; [|reflexivity].
  apply isdigit_not_space in E. congruence.
Qed.

Lemma isalpha_not_space (c : ascii) : PyStr.isalpha c = true -> PyStr.isspace c = false.
Proof.
  intros H. destruct (PyStr.isspace c) eqn:E; [|reflexivity].
  apply isspace_not_alpha in E. congruence.
Qed.

Lemma lower_char_space (c : ascii) : PyStr.isspace c = true -> PyStr.lower_char c = c.
Proof.
  intros H. apply isspace_code in H. unfold PyStr.lower_char, PyStr.between.
  cbv zeta.
  replace ((65 <=? PyStr.code c) && (PyStr.code c <=? 90)) with false
    by (symmetry; apply andb_false_iff; rewrite !Nat.leb_gt; lia).
  replace ((192 <=? PyStr.code c) && (PyStr.code c <=? 222)) with false
    by (symmetry; apply andb_false_iff; rewrite !Nat.leb_gt; lia).
  reflexivity.
Qed.

Lemma lower_char_digit (c : ascii) : PyStr.isdigit c = true -> PyStr.lower_char c = c.
Proof.
  intros H. apply isdigit_code in H. unfold PyStr.lower_char, PyStr.between.
  cbv zeta.
  replace ((65 <=? PyStr.code c) && (PyStr.code c <=? 90)) with false
    by (symmetry; apply andb_false_iff; rewrite !Nat.leb_gt; lia).
  replace ((192 <=? PyStr.code c) && (PyStr.code c <=? 222)) with false
    by (symmetry; apply andb_false_iff; rewrite !Nat.leb_gt; lia).
  reflexivity.
Qed.

Lemma lower_fixed (cls : ascii -> bool) (s : text) :
  (forall c, cls c = true -> PyStr.lower_char c = c) ->
  forallb cls s = true -> PyStr.lower s = s.
Proof.
  intros Hc. induction s as [|c s IH]; simpl; intros H; [reflexivity|].
  apply andb_true_iff in H as [H1 H2]. rewrite (Hc c H1), (IH H2). reflexivity.
Qed.

Lemma lower_app (a b : text) : PyStr.lower (a ++ b) = PyStr.lower a ++ PyStr.lower b.
Proof. apply map_app. Qed.

(** ** [strip] *)

Lemma lstrip_spaces (a s : text) :
  forallb PyStr.isspace a = true -> PyStr.lstrip (a ++ s) = PyStr.lstrip s.
Proof.
  induction a as [|c a IH]; simpl; intros H; [reflexivity|].
  apply andb_true_iff in H as [H1 H2]. rewrite H1. exact (IH H2).
Qed.

Lemma lstrip_nonspace (c : ascii) (s : text) :
  PyStr.isspace c = false -> PyStr.lstrip (c :: s) = c :: s.
Proof. intros H. simpl. rewrite H. reflexivity. Qed.

Lemma lstrip_before_nonspace (u : text) (c : ascii) (v : text) :
  PyStr.isspace c = false ->
  PyStr.lstrip (u ++ c :: v) = PyStr.lstrip u ++ c :: v.
Proof.
  intros Hc. induction u as [|x u IH]; simpl.
  - rewrite Hc. reflexivity.
  - destruct (PyStr.isspace x); [exact IH|reflexivity].
Qed.

Lemma rstrip_after_nonspace (a : text) (c : ascii) (t : text) :
  PyStr.isspace c = false ->
  PyStr.rstrip (a ++ c :: t) = a ++ c :: PyStr.rstrip t.
Proof.
  intros Hc. unfold PyStr.rstrip.
  rewrite rev_app_distr. cbn [rev]. rewrite <- app_assoc. cbn [app].
  rewrite (lstrip_before_nonspace _ _ _ Hc).
  rewrite rev_app_distr. cbn [rev]. rewrite rev_involutive, <- app_assoc. reflexivity.
Qed.

(** ** Years *)

Lemma digit_val_range (c : ascii) :
  PyStr.isdigit c = true -> (0 <= PyStr.digit_val c <= 9)%Z.
Proof. intros H. apply isdigit_code in H. unfold PyStr.digit_val. lia. Qed.


Lemma isdigit_not_sign (c : ascii) :
  PyStr.isdigit c = true -> Ascii.eqb c "+" = false /\ Ascii.eqb c "-" = false.
Proof.
  intros H. apply isdigit_code in H. split.
  - destruct (Ascii.eqb c "+") eqn:E; [|reflexivity].
    apply Ascii.eqb_eq in E. subst c. vm_compute in H. lia.
  - destruct (Ascii.eqb c "-") eqn:E; [|reflexivity].
    apply Ascii.eqb_eq in E. subst c. vm_compute in H. lia.
Qed.

Lemma isdigit_not_int_space (c : ascii) :
  PyStr.isdigit c = true -> PyStr.int_space c = false.
Proof.
  intros H. apply isdigit_code in H. unfold PyStr.int_space, PyStr.between.
  cbv zeta. rewrite !orb_false_iff, !andb_false_iff, !Nat.leb_gt, !Nat.eqb_neq. lia.
Qed.

(** [int] strips nothing from a text that begins and ends with a digit. *)
Lemma int_strip_digits (c : ascii) (s : text) (e : ascii) :
  PyStr.isdigit c = true -> PyStr.isdigit (List.last (c :: s) e) = true ->
  PyStr.int_strip (c :: s) = c :: s.
Proof.
  intros Hc He. unfold PyStr.int_strip.
  cbn [PyStr.int_lstrip]. rewrite (isdigit_not_int_space c Hc).
  destruct (List.exists_last (l := c :: s)) as (l & x & E); [discriminate|].
  rewrite E in He |- *. rewrite List.last_last in He.
  rewrite rev_app_distr. cbn [rev app PyStr.int_lstrip].
  rewrite (isdigit_not_int_space x He).
  change (x :: rev l) with (rev [x] ++ rev l).
  rewrite <- rev_app_distr, rev_involutive. reflexivity.
Qed.

Lemma int_four (c1 c2 c3 c4 : ascii) :
  forallb PyStr.isdigit [c1; c2; c3; c4] = true ->
  PyStr.int [c1; c2; c3; c4] = Some (year_value c1 c2 c3 c4).
Proof.
  intros D. pose proof D as D'. cbn [forallb] in D'. rewrite !andb_true_iff in D'.
  destruct D' as (D1 & D2 & D3 & D4 & _).
  unfold PyStr.int. rewrite (int_strip_digits c1 [c2; c3; c4] c1 D1 D4).
  destruct (isdigit_not_sign _ D1) as [-> ->]. cbn [orb].
  replace (List.filter PyStr.isdigit [c1; c2; c3; c4]) with [c1; c2; c3; c4]
    by (cbn [List.filter]; rewrite D1, D2, D3, D4; reflexivity).
  change (PyStr.max_str_digits <? Z.of_nat (length [c1; c2; c3; c4]))%Z with false.
  cbn [PyStr.int_digits]. rewrite D1, D2, D3, D4.
  f_equal. unfold year_value. lia.
Qed.





(** ** The date pattern *)

Lemma firstn_exact {A} (a b : list A) : firstn (length a) (a ++ b) = a.
Proof. induction a as [|x a IH]; simpl; [destruct b; reflexivity|f_equal; exact IH]. Qed.

Lemma skipn_exact {A} (a b : list A) : skipn (length a) (a ++ b) = b.
Proof. induction a as [|x a IH]; simpl; [reflexivity|exact IH]. Qed.

(** A repetition without upper bound takes the whole run when the rest of
    the pattern accepts what follows. *)
Lemma exec_rep_top_stop (cls : ascii -> bool) (lo : nat) (p : list Re.item)
    (a b : text) (pos : nat) (marks : list nat) r :
  forallb cls a = true ->
  match b with [] => True | c :: _ => cls c = false end ->
  lo <= length a ->
  Re.exec p b (pos + length a) marks = Some r ->
  Re.exec (Re.Rep cls lo None :: p) (a ++ b) pos marks = Some r.
Proof.
  intros Ha Hb Hlo Hk. cbn [Re.exec Re.greedy].
  rewrite (run_len_app_stop cls a b Ha Hb).
  apply backtrack_top; [exact Hlo|]. rewrite skipn_exact. exact Hk.
Qed.

(** A repetition takes as many characters as its upper bound allows. *)
Lemma exec_rep_top_full (cls : ascii -> bool) (lo : nat) (p : list Re.item)
    (a b : text) (pos : nat) (marks : list nat) r :
  forallb cls a = true ->
  lo <= length a ->
  Re.exec p b (pos + length a) marks = Some r ->
  Re.exec (Re.Rep cls lo (Some (length a)) :: p) (a ++ b) pos marks = Some r.
Proof.
  intros Ha Hlo Hk. cbn [Re.exec Re.greedy].
  pose proof (run_len_app_ge cls a b Ha) as Hge.
  rewrite Nat.min_l by exact Hge.
  apply backtrack_top; [exact Hlo|]. rewrite skipn_exact. exact Hk.
Qed.

Lemma nonempty_length {A} (l : list A) : l <> [] -> 1 <= length l.
Proof. destruct l; [congruence|simpl; lia]. Qed.

Lemma exec_date_shape (m sep Y T : text) (pos : nat) :
  forallb PyStr.isalpha m = true -> m <> [] ->
  forallb PyStr.isspace sep = true -> sep <> [] ->
  forallb PyStr.isdigit Y = true -> length Y = 4 ->
  Re.exec DateParser.pattern (m ++ sep ++ Y ++ T) pos []
  = Some (pos + length m + length sep + 4,
          [pos; pos + length m; pos + length m + length sep;
           pos + length m + length sep + 4]).
Proof.
  intros Hm Hm0 Hs Hs0 HY HY4. unfold DateParser.pattern.
  rewrite exec_mark.
  apply exec_rep_top_stop; [exact Hm| |exact (nonempty_length _ Hm0)|].
  { destruct sep as [|c sep]; [congruence|]. cbn [app].
    simpl in Hs. apply andb_true_iff in Hs as [Hc _].
    exact (isspace_not_alpha c Hc). }
  rewrite exec_mark.
  apply exec_rep_top_stop; [exact Hs| |exact (nonempty_length _ Hs0)|].
  { destruct Y as [|c Y]; [discriminate HY4|]. cbn [app].
    simpl in HY. apply andb_true_iff in HY as [Hc _].
    destruct (PyStr.isspace c) eqn:E; [|reflexivity].
    apply isspace_not_digit in E. congruence. }
  rewrite exec_mark.
  assert (H4 : 4 <= length Y) by lia.
  pose proof (fun r => exec_rep_top_full PyStr.isdigit 4 [Re.Mark] Y T
                         (pos + length m + length sep)
                         [pos + length m + length sep; pos + length m; pos] r HY H4) as E.
  rewrite HY4 in E. apply E. reflexivity.
Qed.

(** ** The month table *)

Lemma month_name (m : text) (k : Z) :
  DateParser.lookup m DateParser.MONTHS = Some k ->
  forallb PyStr.isalpha m = true /\ m <> [] /\ PyStr.lower m = m
  /\ (1 <= k <= 12)%Z
  /\ forall s, PyStr.startswith (m ++ s) (txt "released ") = false.
Proof.
  unfold DateParser.MONTHS. cbn [DateParser.lookup].
  repeat match goal with
         | |- (if text_eqb m ?name then _ else _) = _ -> _ =>
             let E := fresh "E" in
             destruct (text_eqb m name) eqn:E;
             [apply text_eqb_eq in E; subst m; intros [= <-];
              repeat split; try reflexivity; try discriminate; lia|]
         end.
  discriminate.
Qed.

(** ** The text the date pattern is searched in *)

Lemma lstrip_starts (s : text) :
  match s with c :: _ => PyStr.isspace c = false | [] => True end ->
  PyStr.lstrip s = s.
Proof. destruct s as [|c s]; [reflexivity|]. apply lstrip_nonspace. Qed.

Lemma rstrip_digits (x : text) (c1 c2 c3 c4 : ascii) (t : text) :
  PyStr.isdigit c4 = true ->
  PyStr.rstrip (x ++ [c1; c2; c3; c4] ++ t) = x ++ [c1; c2; c3; c4] ++ PyStr.rstrip t.
Proof.
  intros D.
  replace (x ++ [c1; c2; c3; c4] ++ t) with ((x ++ [c1; c2; c3]) ++ c4 :: t)
    by (rewrite <- app_assoc; reflexivity).
  rewrite (rstrip_after_nonspace _ _ _ (isdigit_not_space _ D)).
  rewrite <- app_assoc. reflexivity.
Qed.

Lemma search_hit (p : list Re.item) (s : text) r :
  Re.exec p s 0 [] = Some r -> Re.search p s = Some r.
Proof. intros H. unfold Re.search. destruct s; simpl; rewrite H; reflexivity. Qed.

Lemma cleaned_shape (present : bool) (lead R ws M sep trail : text)
    (c1 c2 c3 c4 : ascii) :
  forallb PyStr.isspace lead = true ->
  PyStr.lower R = txt "released" ->
  forallb PyStr.isspace ws = true ->
  forallb PyStr.isalpha (PyStr.lower M) = true -> PyStr.lower M <> [] ->
  (present = false ->
   PyStr.startswith (PyStr.lower M ++ sep ++ [c1; c2; c3; c4]
                     ++ PyStr.rstrip (PyStr.lower trail)) (txt "released ") = false) ->
  forallb PyStr.isspace sep = true ->
  forallb PyStr.isdigit [c1; c2; c3; c4] = true ->
  exists T,
    DateParser.cleaned
      (lead ++ released_token present R ws ++ M ++ sep ++ [c1; c2; c3; c4] ++ trail)
    = PyStr.lower M ++ sep ++ [c1; c2; c3; c4] ++ T.
Proof.
  intros Hlead HR Hws Hma Hm0 Hnr Hsep HY.
  assert (D4 : PyStr.isdigit c4 = true).
  { cbn [forallb] in HY. rewrite !andb_true_iff in HY. tauto. }
  assert (Hm1 : match PyStr.lower M ++ sep ++ [c1; c2; c3; c4] ++ PyStr.rstrip (PyStr.lower trail)
                with c :: _ => PyStr.isspace c = false | [] => True end).
  { destruct (PyStr.lower M) as [|mc m']; [congruence|]. cbn [app].
    simpl in Hma. apply andb_true_iff in Hma as [Hc _]. exact (isalpha_not_space _ Hc). }
  set (m := PyStr.lower M) in *. set (tr := PyStr.lower trail) in *.
  set (Y := [c1; c2; c3; c4]) in *.
  assert (E : PyStr.strip
                (PyStr.lower (lead ++ released_token present R ws ++ M ++ sep ++ Y ++ trail))
              = (if present then txt "released " ++ ws else [])
                ++ m ++ sep ++ Y ++ PyStr.rstrip tr).
  { rewrite !lower_app.
    rewrite (lower_fixed _ lead lower_char_space Hlead).
    rewrite (lower_fixed _ sep lower_char_space Hsep).
    rewrite (lower_fixed _ Y lower_char_digit HY).
    fold m tr. unfold PyStr.strip. rewrite (lstrip_spaces lead _ Hlead).
    destruct present; unfold released_token.
    - rewrite !lower_app, HR, (lower_fixed _ ws lower_char_space Hws).
      change (PyStr.lower (txt " ")) with (txt " ").
      replace ((txt "released" ++ txt " " ++ ws) ++ m ++ sep ++ Y ++ tr)
        with (txt "released " ++ ws ++ m ++ sep ++ Y ++ tr)
        by (rewrite <- !app_assoc; reflexivity).
      rewrite lstrip_starts by reflexivity.
      replace (txt "released " ++ ws ++ m ++ sep ++ Y ++ tr)
        with ((txt "released " ++ ws ++ m ++ sep) ++ Y ++ tr)
        by (rewrite <- !app_assoc; reflexivity).
      unfold Y. rewrite (rstrip_digits _ _ _ _ _ _ D4). rewrite <- !app_assoc.
      reflexivity.
    - cbn [app PyStr.lower map].
      assert (Hm2 : match m ++ sep ++ Y ++ tr
                    with c :: _ => PyStr.isspace c = false | [] => True end).
      { destruct m as [|mc m']; [congruence|]. cbn [app].
        simpl in Hma. apply andb_true_iff in Hma as [Hc _].
        exact (isalpha_not_space _ Hc). }
      rewrite (lstrip_starts _ Hm2).
      replace (m ++ sep ++ Y ++ tr) with ((m ++ sep) ++ Y ++ tr)
        by (rewrite <- !app_assoc; reflexivity).
      unfold Y. rewrite (rstrip_digits _ _ _ _ _ _ D4). rewrite <- !app_assoc.
      reflexivity. }
  unfold DateParser.cleaned. cbv zeta. rewrite E. clear E.
  destruct present.
  - rewrite <- app_assoc, startswith_prefix.
    change 9 with (length (txt "released ")). rewrite skipn_exact.
    unfold PyStr.strip. rewrite (lstrip_spaces ws _ Hws).
    rewrite (lstrip_starts _ Hm1).
    replace (m ++ sep ++ Y ++ PyStr.rstrip tr)
      with ((m ++ sep) ++ Y ++ PyStr.rstrip tr)
      by (rewrite <- !app_assoc; reflexivity).
    unfold Y. rewrite (rstrip_digits _ _ _ _ _ _ D4). rewrite <- !app_assoc.
    eexists. reflexivity.
  - cbn [app]. rewrite (Hnr eq_refl). eexists. reflexivity.
Qed.

Lemma lower_char_idem (c : ascii) :
  PyStr.lower_char (PyStr.lower_char c) = PyStr.lower_char c.
Proof. destruct c as [[] [] [] [] [] [] [] []]; reflexivity. Qed.

Lemma lower_idem (s : text) : PyStr.lower (PyStr.lower s) = PyStr.lower s.
Proof.
  unfold PyStr.lower. rewrite map_map. apply map_ext. exact lower_char_idem.
Qed.



(** A word other than [released] followed by white space does not start
    with the token. *)
Lemma not_released (w sep s : text) :
  forallb PyStr.isalpha w = true -> w <> txt "released" ->
  sep <> [] -> forallb PyStr.isspace sep = true ->
  PyStr.startswith (w ++ sep ++ s) (txt "released ") = false.
Proof.
  intros Hw Hne Hs0 Hs.
  destruct (PyStr.startswith (w ++ sep ++ s) (txt "released ")) eqn:E; [|reflexivity].
  exfalso. apply startswith_inv in E as [post E].
  change (txt "released " ++ post) with (txt "released" ++ " "%char :: post) in E.
  assert (L1 : Re.run_len PyStr.isalpha (w ++ sep ++ s) = length w).
  { apply run_len_app_stop; [exact Hw|].
    destruct sep as [|c sep]; [congruence|]. cbn [app].
    simpl in Hs. apply andb_true_iff in Hs as [Hc _]. exact (isspace_not_alpha c Hc). }
  assert (L2 : Re.run_len PyStr.isalpha (txt "released" ++ " "%char :: post) = 8)
    by reflexivity.
  rewrite E in L1. rewrite L2 in L1.
  apply Hne. rewrite <- (firstn_exact w (sep ++ s)), E, <- L1. reflexivity.
Qed.

Lemma truthy_nonempty (s : text) : s <> [] -> PyStr.truthy (Some s) = true.
Proof. destruct s; [congruence|reflexivity]. Qed.

Lemma app_nonempty_r {A} (a b : list A) : b <> [] -> a ++ b <> [].
Proof. intros H E. apply app_eq_nil in E as [_ E]. exact (H E). Qed.

Lemma app_nonempty_l {A} (a b : list A) : a <> [] -> a ++ b <> [].
Proof. intros H E. apply app_eq_nil in E as [E _]. exact (H E). Qed.

Lemma lower_nonempty (s : text) : s <> [] -> PyStr.lower s <> [].
Proof. destruct s; [congruence|discriminate]. Qed.

(** The date of a text of the shape: an optional token, a word, white
    space, four digits and any text. *)
Lemma parse_shape (pad_year present : bool) (lead R ws W sep trail : text)
    (c1 c2 c3 c4 : ascii) :
  forallb PyStr.isspace lead = true ->
  PyStr.lower R = txt "released" ->
  forallb PyStr.isspace ws = true ->
  forallb PyStr.isalpha (PyStr.lower W) = true -> W <> [] ->
  present = true \/ PyStr.lower W <> txt "released" ->
  sep <> [] -> forallb PyStr.isspace sep = true ->
  forallb PyStr.isdigit [c1; c2; c3; c4] = true ->
  DateParser.parse_release_date pad_year
    (Some (lead ++ released_token present R ws ++ W ++ sep ++ [c1; c2; c3; c4] ++ trail))
  = match DateParser.lookup (PyStr.lower W) DateParser.MONTHS with
    | Some k => DateParser.first_of_month pad_year (year_value c1 c2 c3 c4) k
    | None => None
    end.
Proof.
  intros Hlead HR Hws Hwa Hw0 Hpr Hs0 Hs HY.
  pose proof (lower_nonempty W Hw0) as Hm0.
  destruct (cleaned_shape present lead R ws W sep trail c1 c2 c3 c4) as [T HT];
    try assumption.
  { intros ->. destruct Hpr as [Hpr|Hpr]; [discriminate|].
    apply not_released; assumption. }
  unfold DateParser.parse_release_date.
  rewrite truthy_nonempty
    by (apply app_nonempty_r, app_nonempty_r, app_nonempty_l; exact Hw0).
  cbn [negb PyStr.format]. rewrite HT.
  set (m := PyStr.lower W) in *. set (Y := [c1; c2; c3; c4]) in *.
  rewrite (search_hit _ _ _ (exec_date_shape m sep Y T 0 Hwa Hm0 Hs Hs0 HY eq_refl)).
  rewrite group_1, group_2. cbn [Nat.add].
  rewrite Nat.sub_0_r. change (skipn 0 (m ++ sep ++ Y ++ T)) with (m ++ sep ++ Y ++ T).
  rewrite firstn_exact.
  replace (length m + length sep + 4 - (length m + length sep)) with 4 by lia.
  replace (skipn (length m + length sep) (m ++ sep ++ Y ++ T)) with (Y ++ T).
  2:{ rewrite app_assoc, <- length_app. symmetry. apply skipn_exact. }
  change 4 with (length Y). rewrite firstn_exact.
  unfold m. rewrite lower_idem. fold m.
  destruct (DateParser.lookup m DateParser.MONTHS) as [k|]; [|reflexivity].
  unfold Y. rewrite (int_four _ _ _ _ HY). reflexivity.
Qed.

Lemma search_from_inv (p : list Re.item) (s : text) (pos : nat) r :
  Re.search_from p s pos = Some r ->
  exists pre rest, s = pre ++ rest /\ Re.exec p rest (pos + length pre) [] = Some r.
Proof.
  revert pos. induction s as [|c s IH]; intros pos; cbn [Re.search_from].
  - destruct (Re.exec p [] pos []) as [r'|] eqn:E; [|discriminate].
    intros [= <-]. exists [], []. rewrite Nat.add_0_r. split; [reflexivity|exact E].
  - destruct (Re.exec p (c :: s) pos []) as [r'|] eqn:E.
    + intros [= <-]. exists [], (c :: s). rewrite Nat.add_0_r.
      split; [reflexivity|exact E].
    + intros H. destruct (IH _ H) as (pre & rest & -> & Hx).
      exists (c :: pre), rest. split; [reflexivity|].
      cbn [length]. rewrite Nat.add_succ_r. exact Hx.
Qed.

(** Where the pattern matches there are a word, white space and four
    digits. *)
Lemma exec_date_inv (rest : text) (pos : nat) r :
  Re.exec DateParser.pattern rest pos [] = Some r ->
  exists w ws ys post,
    rest = w ++ ws ++ ys ++ post
    /\ w <> [] /\ forallb PyStr.isalpha w = true
    /\ ws <> [] /\ forallb PyStr.isspace ws = true
    /\ length ys = 4 /\ forallb PyStr.isdigit ys = true
    /\ r = (pos + length w + length ws + 4,
            [pos; pos + length w; pos + length w + length ws;
             pos + length w + length ws + 4]).
Proof.
  unfold DateParser.pattern. rewrite exec_mark. intros E.
  apply exec_rep_inv in E as (n & Hn & _ & Hwc & Hwl & E). rewrite exec_mark in E.
  apply exec_rep_inv in E as (m & Hm & _ & Hsc & Hsl & E). rewrite exec_mark in E.
  apply exec_rep_inv in E as (q & Hq & Hq4 & Hyc & Hyl & E). rewrite exec_mark in E.
  cbn [Re.exec rev app] in E. injection E as <-.
  assert (q = 4) by lia. subst q.
  exists (firstn n rest), (firstn m (skipn n rest)), (firstn 4 (skipn m (skipn n rest))),
    (skipn 4 (skipn m (skipn n rest))).
  rewrite !firstn_skipn, Hwl, Hsl.
  split; [reflexivity|].
  split; [intros H0; rewrite H0 in Hwl; simpl in Hwl; lia|]. split; [exact Hwc|].
  split; [intros H0; rewrite H0 in Hsl; simpl in Hsl; lia|]. split; [exact Hsc|].
  split; [exact Hyl|]. split; [exact Hyc|]. reflexivity.
Qed.

Lemma first_of_month_inv (pad_year : bool) (y k : Z) (d : text) :
  DateParser.first_of_month pad_year y k = Some d ->
  (1 <= y <= 9999)%Z /\ (1 <= k <= 12)%Z
  /\ d = DateParser.strftime_Y pad_year y ++ txt "-" ++ DateParser.pad2 k ++ txt "-01".
Proof.
  unfold DateParser.first_of_month.
  destruct (_ && _)%bool eqn:E; [|discriminate].
  rewrite !andb_true_iff, !Z.leb_le in E. intros [= <-]. repeat split; lia.
Qed.

(** A date is returned only for a text in which the pattern finds a
    recognised month and a year of [datetime]. *)
Lemma parse_release_date_sound (pad_year : bool) (s d : text) :
  DateParser.parse_release_date pad_year (Some s) = Some d ->
  exists pre w ws ys post k y,
    DateParser.cleaned s = pre ++ w ++ ws ++ ys ++ post
    /\ w <> [] /\ forallb PyStr.isalpha w = true
    /\ ws <> [] /\ forallb PyStr.isspace ws = true
    /\ length ys = 4 /\ forallb PyStr.isdigit ys = true
    /\ DateParser.lookup (PyStr.lower w) DateParser.MONTHS = Some k
    /\ PyStr.int ys = Some y /\ (1 <= y <= 9999)%Z
    /\ d = DateParser.strftime_Y pad_year y ++ txt "-" ++ DateParser.pad2 k ++ txt "-01".
Proof.
  unfold DateParser.parse_release_date.
  destruct (negb (PyStr.truthy (Some s))); [discriminate|]. cbn [PyStr.format].
  set (t := DateParser.cleaned s).
  destruct (Re.search DateParser.pattern t) as [[e marks]|] eqn:E; [|discriminate].
  unfold Re.search in E. apply search_from_inv in E as (pre & rest & Ht & E).
  apply exec_date_inv in E as (w & ws & ys & post & Hrest & Hw0 & Hw & Hs0 & Hs & Hy4 & Hy & Hr).
  injection Hr as _ ->. rewrite group_1, group_2. cbn [Nat.add].
  replace (length pre + length w - length pre) with (length w) by lia.
  replace (length pre + length w + length ws + 4 - (length pre + length w + length ws))
    with 4 by lia.
  rewrite Ht, Hrest. rewrite skipn_exact, firstn_exact.
  replace (skipn (length pre + length w + length ws) (pre ++ w ++ ws ++ ys ++ post))
    with (ys ++ post).
  2:{ replace (pre ++ w ++ ws ++ ys ++ post) with ((pre ++ w ++ ws) ++ ys ++ post)
        by (rewrite <- !app_assoc; reflexivity).
      replace (length pre + length w + length ws) with (length (pre ++ w ++ ws))
        by (rewrite !length_app; lia).
      symmetry. apply skipn_exact. }
  rewrite <- Hy4, firstn_exact.
  destruct (DateParser.lookup (PyStr.lower w) DateParser.MONTHS) as [k|] eqn:Ek;
    [|discriminate].
  destruct (PyStr.int ys) as [y|] eqn:Ey; [|discriminate].
  intros H. apply first_of_month_inv in H as (Hy1 & _ & Hd).
  exists pre, w, ws, ys, post, k, y. repeat split; try assumption; lia.
Qed.




(** ** The frontier *)

Lemma dict_get_in (d : list (text * bool)) (k : text) (v : bool) :
  Dict.get d k = Some v -> In (k, v) d.
Proof.
  induction d as [|[k' v'] d IH]; simpl; [discriminate|].
  destruct (text_eqb k k') eqn:E.
  - apply text_eqb_eq in E. subst k'. intros [= <-]. left. reflexivity.
  - intros H. right. exact (IH H).
Qed.

Lemma dict_get_none (d : list (text * bool)) (k : text) :
  Dict.get d k = None <-> ~ In k (map fst d).
Proof.
  induction d as [|[k' v'] d IH]; simpl; [tauto|].
  destruct (text_eqb k k') eqn:E.
  - apply text_eqb_eq in E. subst k'. split; [discriminate|]. intros H. exfalso. auto.
  - apply text_eqb_neq in E. rewrite IH. split; [intros H [H1|H1]; auto|tauto].
Qed.

Lemma dict_in_get (d : list (text * bool)) (k : text) (v : bool) :
  List.NoDup (map fst d) -> In (k, v) d -> Dict.get d k = Some v.
Proof.
  induction d as [|[k' v'] d IH]; simpl; intros Hnd Hin; [contradiction|].
  apply List.NoDup_cons_iff in Hnd as [Hn Hnd].
  destruct Hin as [[= -> ->]|Hin].
  - rewrite text_eqb_refl. reflexivity.
  - destruct (text_eqb k k') eqn:E; [|exact (IH Hnd Hin)].
    apply text_eqb_eq in E. subst k'. exfalso. apply Hn.
    apply in_map_iff. exists (k, v). split; [reflexivity|exact Hin].
Qed.

Lemma dict_mem_in (d : list (text * bool)) (k : text) :
  Dict.mem d k = true <-> In k (map fst d).
Proof.
  unfold Dict.mem. destruct (Dict.get d k) as [v|] eqn:E.
  - split; [intros _|reflexivity]. apply dict_get_in in E.
    apply in_map_iff. exists (k, v). split; [reflexivity|exact E].
  - split; [discriminate|]. intros H. apply dict_get_none in E. contradiction.
Qed.

Lemma dict_keys_set_in (d : list (text * bool)) (k : text) (v : bool) :
  In k (map fst d) -> map fst (Dict.set d k v) = map fst d.
Proof.
  induction d as [|[k' v'] d IH]; simpl; intros H; [contradiction|].
  destruct (text_eqb k k') eqn:E; [reflexivity|]. simpl. f_equal.
  apply IH. destruct H as [H|H]; [|exact H].
  apply text_eqb_neq in E. congruence.
Qed.

Lemma dict_keys_set_new (d : list (text * bool)) (k : text) (v : bool) :
  ~ In k (map fst d) -> map fst (Dict.set d k v) = map fst d ++ [k].
Proof.
  induction d as [|[k' v'] d IH]; simpl; intros H; [reflexivity|].
  destruct (text_eqb k k') eqn:E.
  - apply text_eqb_eq in E. subst k'. exfalso. auto.
  - simpl. f_equal. apply IH. auto.
Qed.

Section Frontier.

Variable U : list text.

Lemma extends_refl (st : State) : well_formed U st -> extends U st st.
Proof. intros H. split; [exact H|apply incl_refl|reflexivity|reflexivity]. Qed.

Lemma extends_trans (a b c : State) : extends U a b -> extends U b c -> extends U a c.
Proof.
  intros [W1 I1 V1 F1] [W2 I2 V2 F2]. split.
  - exact W2.
  - exact (incl_tran I1 I2).
  - congruence.
  - intros v. rewrite F2. apply F1.
Qed.

Lemma discover_extends (u : text) (st : State) :
  well_formed U st -> In u U -> extends U st (Scraper.discover u st).
Proof.
  intros [Hnd Hin] Hu. unfold Scraper.discover.
  destruct (Dict.mem (all_links st) u) eqn:E; [apply extends_refl; split; assumption|].
  assert (Hnew : ~ In u (map fst (all_links st))).
  { intros H. apply dict_mem_in in H. congruence. }
  split.
  - unfold well_formed, frontier. cbn [all_links with_db with_links].
    rewrite (dict_keys_set_new _ _ _ Hnew). split.
    + apply List.NoDup_app; [exact Hnd|apply List.NoDup_cons; [simpl; tauto|apply List.NoDup_nil]|].
      intros x Hx [<-|[]]. exact (Hnew Hx).
    + intros x Hx. apply in_app_or in Hx as [Hx|[<-|[]]]; [exact (Hin x Hx)|exact Hu].
  - unfold frontier. cbn [all_links with_db with_links].
    rewrite (dict_keys_set_new _ _ _ Hnew). apply incl_appl, incl_refl.
  - reflexivity.
  - intros v. unfold is_visited. cbn [all_links with_db with_links].
    destruct (text_eqb v u) eqn:Ev.
    + apply text_eqb_eq in Ev. subst v. rewrite dict_get_set_eq.
      apply dict_get_none in Hnew. rewrite Hnew. split; discriminate.
    + apply text_eqb_neq in Ev. rewrite (dict_get_set_ne _ _ _ _ Ev). reflexivity.
Qed.

Lemma discover_all_extends (links : list text) (st : State) :
  well_formed U st -> incl links U -> extends U st (discover_all links st).
Proof.
  revert st. induction links as [|u links IH]; intros st Hwf Hin.
  - apply extends_refl, Hwf.
  - cbn [discover_all fold_left].
    assert (Hu : In u U) by (apply Hin; left; reflexivity).
    pose proof (discover_extends u st Hwf Hu) as E1.
    apply (extends_trans _ _ _ E1). apply IH; [exact (ext_wf _ _ _ E1)|].
    intros x Hx. apply Hin. right. exact Hx.
Qed.

End Frontier.

Section LinkGraph.

Variable base_url : text.
Variable BeautifulSoup : text -> option Soup.

Lemma link_fold (only : bool) (l : list (option text)) (acc : list text) (st : State) :
  fold_left (Scraper.link_step base_url only) l (acc, st)
  = (acc ++ map (fun h => Scraper.full_url base_url (PyStr.format h))
              (List.filter (Scraper.wanted base_url only) l),
     discover_all (map (fun h => Scraper.full_url base_url (PyStr.format h))
                     (List.filter (Scraper.wanted base_url only) l)) st).
Proof.
  revert acc st. induction l as [|h l IH]; intros acc st.
  - cbn. rewrite app_nil_r. reflexivity.
  - cbn [fold_left List.filter]. unfold Scraper.link_step at 2.
    destruct (Scraper.wanted base_url only h); cbn [fst snd].
    + rewrite IH, <- app_assoc. reflexivity.
    + apply IH.
Qed.

Lemma get_all_links_graph (html : text) (only : bool) (st : State) :
  Scraper.get_all_links base_url BeautifulSoup html only st
  = (page_links base_url BeautifulSoup only html,
     discover_all (page_links base_url BeautifulSoup only html) st).
Proof.
  unfold Scraper.get_all_links, page_links.
  destruct (BeautifulSoup html); [apply link_fold|reflexivity].
Qed.

End LinkGraph.

(** ** Termination of the crawl *)

Lemma filter_length_le {A} (f g : A -> bool) (l : list A) :
  (forall a, In a l -> g a = true -> f a = true) ->
  length (List.filter g l) <= length (List.filter f l).
Proof.
  induction l as [|a l IH]; intros H; [reflexivity|]. cbn [List.filter].
  assert (IH' : length (List.filter g l) <= length (List.filter f l))
    by (apply IH; intros b Hb; apply H; right; exact Hb).
  destruct (g a) eqn:Eg.
  - rewrite (H a (or_introl eq_refl) Eg). simpl. lia.
  - destruct (f a); simpl; lia.
Qed.

Lemma filter_length_lt {A} (f g : A -> bool) (l : list A) (x : A) :
  (forall a, In a l -> g a = true -> f a = true) ->
  In x l -> f x = true -> g x = false ->
  length (List.filter g l) < length (List.filter f l).
Proof.
  induction l as [|a l IH]; intros H Hx Hf Hg; [contradiction|]. cbn [List.filter].
  assert (Hl : forall b, In b l -> g b = true -> f b = true)
    by (intros b Hb; apply H; right; exact Hb).
  destruct Hx as [->|Hx].
  - rewrite Hf, Hg. pose proof (filter_length_le f g l Hl). simpl. lia.
  - specialize (IH Hl Hx Hf Hg). destruct (g a) eqn:Eg.
    + rewrite (H a (or_introl eq_refl) Eg). simpl. lia.
    + destruct (f a); simpl; lia.
Qed.

Section Crawl.

Variable base_url : text.
Variable BeautifulSoup : text -> option Soup.
Variable re_compile : text -> result Regex.
Variable http_get : text -> option text.
Variable latency : text -> Z.
Variable pad_year : bool.
Variable U : list text.

Let extract := Scraper.extract base_url re_compile pad_year.
Let visit := Scraper.visit base_url BeautifulSoup re_compile http_get latency pad_year.
Let for_each := Scraper.for_each base_url BeautifulSoup re_compile http_get latency pad_year.
Let crawl := Scraper.crawl base_url BeautifulSoup re_compile http_get latency pad_year.
Let links := page_links base_url BeautifulSoup.

(** The pages of the universe link into the universe. *)
Hypothesis closed :
  forall u body, In u U -> http_get u = Some body -> incl (links true body) U.

(** Every detail page of the universe is served with a body, from which
    the extractor returns. *)
Hypothesis served :
  forall u, In u U -> Scraper.is_detail u = true ->
    exists body, http_get u = Some body /\ body <> []
      /\ forall soup, BeautifulSoup body = Some soup -> exists d, extract u soup = Ok d.

Lemma well_formed_links (st st' : State) :
  all_links st' = all_links st -> well_formed U st -> well_formed U st'.
Proof. unfold well_formed, frontier. intros ->. tauto. Qed.

Lemma visit_spec (link : text) (st : State) :
  well_formed U st -> In link (frontier st) -> Scraper.is_detail link = true ->
  exists st',
    visit link st = Ok st'
    /\ well_formed U st'
    /\ incl (frontier st) (frontier st')
    /\ visits st' = visits st ++ [link]
    /\ forall v, is_visited st' v <-> is_visited st v \/ v = link.
Proof.
  intros Hwf Hin Hd. pose proof (proj2 Hwf link Hin) as HU.
  destruct (served link HU Hd) as (body & Hget & Hne & Hex).
  unfold visit, Scraper.visit, Scraper.get_html. rewrite Hget.
  rewrite (truthy_nonempty body Hne). cbn [PyStr.format].
  rewrite get_all_links_graph.
  set (st1 := {| all_links := all_links (Scraper.log_visit link st);
                 db := db (Scraper.log_visit link st);
                 clock := (clock (Scraper.log_visit link st) + latency link)%Z;
                 visits := visits (Scraper.log_visit link st) |}).
  assert (Hwf1 : well_formed U st1) by (apply (well_formed_links st); [reflexivity|exact Hwf]).
  pose proof (discover_all_extends U (page_links base_url BeautifulSoup true body) st1 Hwf1
                (closed link body HU Hget)) as [W2 I2 V2 F2].
  set (st2 := discover_all (page_links base_url BeautifulSoup true body) st1) in *.
  rewrite Hd.
  assert (Hp : exists st3, (do r <- Scraper.parse_data base_url BeautifulSoup re_compile
                                      pad_year link body st2; Ok (snd r)) = Ok st3
                           /\ all_links st3 = all_links st2 /\ visits st3 = visits st2).
  { unfold Scraper.parse_data. destruct (BeautifulSoup body) as [soup|] eqn:Hs.
    - destruct (Hex soup eq_refl) as [d Hx]. unfold extract in Hx. rewrite Hx.
      cbn [bind snd]. eexists. split; [reflexivity|]. split; reflexivity.
    - cbn [bind snd]. eexists. split; [reflexivity|]. split; reflexivity. }
  destruct Hp as (st3 & -> & A3 & V3). cbn [bind].
  assert (Hin3 : In link (map fst (all_links st3))).
  { rewrite A3. apply I2. exact Hin. }
  eexists. split; [reflexivity|].
  unfold Scraper.mark, well_formed, frontier, is_visited.
  cbn [all_links visits with_links with_db].
  rewrite (dict_keys_set_in _ _ _ Hin3), A3, V3, V2.
  split; [exact W2|]. split; [exact I2|]. split; [reflexivity|].
  intros v. destruct (text_eqb v link) eqn:E.
  - apply text_eqb_eq in E. subst v. rewrite dict_get_set_eq. tauto.
  - apply text_eqb_neq in E. rewrite (dict_get_set_ne _ _ _ _ E).
    fold (is_visited st2 v). rewrite F2. unfold is_visited. cbn [all_links st1].
    tauto.
Qed.

Lemma for_each_spec (batch : list text) (st : State) :
  well_formed U st ->
  (forall l, In l batch -> In l (frontier st) /\ Scraper.is_detail l = true) ->
  exists st',
    for_each batch st = Ok st'
    /\ well_formed U st'
    /\ incl (frontier st) (frontier st')
    /\ visits st' = visits st ++ batch
    /\ forall v, is_visited st' v <-> is_visited st v \/ In v batch.
Proof.
  revert st. induction batch as [|l batch IH]; intros st Hwf Hb.
  - exists st. cbn. rewrite app_nil_r.
    split; [reflexivity|]. split; [exact Hwf|]. split; [apply incl_refl|].
    split; [reflexivity|]. tauto.
  - destruct (Hb l (or_introl eq_refl)) as [Hl Hd].
    destruct (visit_spec l st Hwf Hl Hd) as (st1 & E1 & W1 & I1 & V1 & F1).
    destruct (IH st1 W1) as (st' & E' & W' & I' & V' & F').
    { intros x Hx. destruct (Hb x (or_intror Hx)) as [Hx1 Hx2].
      split; [apply I1, Hx1|exact Hx2]. }
    exists st'. unfold for_each. cbn [Scraper.for_each].
    fold visit. rewrite E1. cbn [bind]. fold for_each.
    split; [exact E'|]. split; [exact W'|]. split; [exact (incl_tran I1 I')|].
    split; [rewrite V', V1, <- app_assoc; reflexivity|].
    intros v. rewrite F', F1. cbn [In]. intuition congruence.
Qed.

Lemma unvisited_in (st : State) (l : text) :
  List.NoDup (frontier st) -> In l (Scraper.unvisited_links st) ->
  In l (frontier st) /\ Scraper.is_detail l = true
  /\ Dict.get (all_links st) l = Some false.
Proof.
  unfold Scraper.unvisited_links, frontier. intros Hnd Hin.
  apply in_map_iff in Hin as ([k v] & <- & Hin).
  apply filter_In in Hin as [Hin Hf]. cbn [fst snd] in *.
  apply andb_true_iff in Hf as [Hv Hd]. destruct v; [discriminate|].
  split; [apply in_map_iff; exists (k, false); split; [reflexivity|exact Hin]|].
  split; [exact Hd|]. exact (dict_in_get _ _ _ Hnd Hin).
Qed.

Lemma nodup_keys_filter (f : text * bool -> bool) (d : list (text * bool)) :
  List.NoDup (map fst d) -> List.NoDup (map fst (List.filter f d)).
Proof.
  induction d as [|kv d IH]; cbn [map List.filter]; intros H; [exact H|].
  apply List.NoDup_cons_iff in H as [Hn H].
  destruct (f kv); [|exact (IH H)].
  cbn [map]. apply List.NoDup_cons; [|exact (IH H)].
  intros Hin. apply Hn. apply in_map_iff in Hin as (x & Hx & Hin).
  apply filter_In in Hin as [Hin _]. apply in_map_iff. exists x. split; assumption.
Qed.

Lemma unvisited_nil (st : State) :
  List.NoDup (frontier st) -> Scraper.unvisited_links st = [] ->
  forall u, In u (frontier st) -> Scraper.is_detail u = true -> is_visited st u.
Proof.
  unfold Scraper.unvisited_links, frontier, is_visited. intros Hnd Hnil u Hu Hd.
  apply in_map_iff in Hu as ([k v] & <- & Hin). cbn [fst] in *.
  destruct v; [exact (dict_in_get _ _ _ Hnd Hin)|].
  exfalso.
  assert (Hf : In (k, false)
                 (List.filter (fun lv => negb (snd lv) && Scraper.is_detail (fst lv))
                    (all_links st))).
  { apply filter_In. split; [exact Hin|]. cbn [fst snd negb andb]. exact Hd. }
  apply (in_map fst) in Hf. rewrite Hnil in Hf. exact Hf.
Qed.

Lemma pending_decreases (st st' : State) (l : text) :
  (forall v, is_visited st v -> is_visited st' v) ->
  In l U -> Scraper.is_detail l = true ->
  Dict.get (all_links st) l = Some false -> is_visited st' l ->
  length (pending U st') < length (pending U st).
Proof.
  intros Hmono HU Hd Hl Hl'. unfold pending.
  apply filter_length_lt with (x := l).
  - intros a _ Ha. apply andb_true_iff in Ha as [Ha1 Ha2]. rewrite Ha1. cbn [andb].
    destruct (Dict.get (all_links st) a) as [[|]|] eqn:E; try reflexivity.
    rewrite (Hmono a E) in Ha2. discriminate Ha2.
  - exact HU.
  - rewrite Hd, Hl. reflexivity.
  - rewrite Hd, Hl'. reflexivity.
Qed.

(** The loop ends within as many rounds as there are pending pages, plus
    the round that finds nothing to do. *)
Lemma crawl_spec (n : nat) (st : State) :
  length (pending U st) <= n -> well_formed U st ->
  exists st',
    crawl (S n) st = Some (Ok st')
    /\ well_formed U st'
    /\ incl (frontier st) (frontier st')
    /\ Scraper.unvisited_links st' = []
    /\ (forall v, is_visited st v -> is_visited st' v)
    /\ exists new,
        visits st' = visits st ++ new
        /\ List.NoDup new
        /\ (forall u, In u new -> Scraper.is_detail u = true)
        /\ forall u, In u new <-> is_visited st' u /\ ~ is_visited st u.
Proof.
  revert st. induction n as [|n IH]; intros st Hn Hwf;
    unfold crawl; cbn [Scraper.crawl];
    destruct (Scraper.unvisited_links st) as [|l0 b] eqn:Eb.
  1,3: exists st; split; [reflexivity|]; split; [exact Hwf|];
       split; [apply incl_refl|]; split; [exact Eb|]; split; [tauto|];
       exists []; rewrite app_nil_r; split; [reflexivity|];
       split; [apply List.NoDup_nil|]; split; [intros u []|];
       intros u; cbn [In]; tauto.
  all: assert (Hb : forall l, In l (l0 :: b) ->
                      In l (frontier st) /\ Scraper.is_detail l = true
                      /\ Dict.get (all_links st) l = Some false)
         by (intros l Hl; apply (unvisited_in st l (proj1 Hwf)); rewrite Eb; exact Hl);
       destruct (for_each_spec (l0 :: b) st Hwf) as (st1 & E1 & W1 & I1 & V1 & F1);
       [intros l Hl; destruct (Hb l Hl) as (? & ? & _); split; assumption|];
       destruct (Hb l0 (or_introl eq_refl)) as (H0f & H0d & H0g);
       assert (Hdec : length (pending U st1) < length (pending U st))
         by (apply (pending_decreases st st1 l0);
             [intros v Hv; apply F1; left; exact Hv|exact (proj2 Hwf l0 H0f)
             |exact H0d|exact H0g|apply F1; right; left; reflexivity]).
  - lia.
  - fold for_each. rewrite E1. fold crawl.
    destruct (IH st1) as (st' & E' & W' & I' & T' & M' & new & V' & N' & D' & C');
      [lia|exact W1|].
    exists st'. split; [exact E'|]. split; [exact W'|].
    split; [exact (incl_tran I1 I')|]. split; [exact T'|].
    split; [intros v Hv; apply M', F1; left; exact Hv|].
    assert (Hnb : List.NoDup (l0 :: b)).
    { rewrite <- Eb. unfold Scraper.unvisited_links.
      apply nodup_keys_filter. exact (proj1 Hwf). }
    exists ((l0 :: b) ++ new). split; [rewrite V', V1, <- app_assoc; reflexivity|].
    split.
    { apply List.NoDup_app; [exact Hnb|exact N'|].
      intros a Ha Hnew. apply C' in Hnew as [_ Hnot]. apply Hnot, F1. right. exact Ha. }
    split.
    { intros u Hu. apply in_app_or in Hu as [Hu|Hu]; [|exact (D' u Hu)].
      destruct (Hb u Hu) as (_ & Hd & _). exact Hd. }
    intros u. rewrite in_app_iff, C', F1. split.
    + intros [Hu|[Hu Hnu]].
      * split; [apply M', F1; right; exact Hu|].
        destruct (Hb u Hu) as (_ & _ & Hg). unfold is_visited. rewrite Hg. discriminate.
      * split; [exact Hu|]. intros Hv. apply Hnu. left. exact Hv.
    + intros [Hu Hnu].
      destruct (Dict.get (all_links st1) u) as [[|]|] eqn:E.
      * left. apply F1 in E as [E|E]; [contradiction|exact E].
      * right. split; [exact Hu|]. intros [Hv|Hv]; [contradiction|].
        assert (Hx : is_visited st1 u) by (apply F1; right; exact Hv).
        unfold is_visited in Hx. congruence.
      * right. split; [exact Hu|]. intros [Hv|Hv]; [contradiction|].
        assert (Hx : is_visited st1 u) by (apply F1; right; exact Hv).
        unfold is_visited in Hx. congruence.
Qed.

End Crawl.

Lemma extends_clock (U : list text) (st : State) (c : Z) :
  well_formed U st ->
  extends U st {| all_links := all_links st; db := db st; clock := c;
                  visits := visits st |}.
Proof.
  intros Hwf. split; [exact Hwf|apply incl_refl|reflexivity|reflexivity].
Qed.

Lemma bootstrap_extends (base_url : text) (BeautifulSoup : text -> option Soup)
    (http_get : text -> option text) (latency : text -> Z) (U : list text) (st : State) :
  well_formed U st ->
  (forall body, http_get base_url = Some body ->
                incl (page_links base_url BeautifulSoup false body) U) ->
  extends U st (Scraper.bootstrap base_url BeautifulSoup http_get latency st).
Proof.
  intros Hwf Hseed. unfold Scraper.bootstrap.
  destruct (all_links st); [|apply extends_refl, Hwf].
  unfold Scraper.get_html.
  pose proof (extends_clock U st (clock st + latency base_url)%Z Hwf) as E1.
  destruct (http_get base_url) as [[|c body]|] eqn:Hg; cbn [PyStr.truthy]; try exact E1.
  cbn [PyStr.format]. rewrite get_all_links_graph. cbn [snd].
  apply (extends_trans _ _ _ _ E1).
  apply discover_all_extends; [exact (ext_wf _ _ _ E1)|exact (Hseed _ eq_refl)].
Qed.

(** C2 (as amended).  Take a finite universe of URLs that holds the
    frontier and every link the classifier finds on the seed page and on
    the pages of the universe, and in which every detail page is served
    with a non-empty body from which the extractor returns.  Then the run
    ends with no unvisited detail page in the frontier: every detail page
    of the final frontier is visited, and the pages the run visited are
    exactly the detail pages of the final frontier that were not visited
    before, each once, also those discovered during the run. *)
Theorem C2_crawl_terminates
    (base_url : text) (BeautifulSoup : text -> option Soup)
    (re_compile : text -> result Regex) (http_get : text -> option text)
    (latency : text -> Z) (pad_year : bool) (U : list text) (st : State) :
  well_formed U st ->
  (forall body, http_get base_url = Some body ->
                incl (page_links base_url BeautifulSoup false body) U) ->
  (forall u body, In u U -> http_get u = Some body ->
                  incl (page_links base_url BeautifulSoup true body) U) ->
  (forall u, In u U -> Scraper.is_detail u = true ->
     exists body, http_get u = Some body /\ body <> []
       /\ forall soup, BeautifulSoup body = Some soup ->
            exists d, Scraper.extract base_url re_compile pad_year u soup = Ok d) ->
  exists fuel st',
    Scraper.run base_url BeautifulSoup re_compile http_get latency pad_year fuel st
      = Some (Ok st')
    /\ Scraper.unvisited_links st' = []
    /\ (forall u, In u (frontier st') -> Scraper.is_detail u = true -> is_visited st' u)
    /\ incl (frontier st) (frontier st')
    /\ exists new,
        visits st' = visits st ++ new
        /\ List.NoDup new
        /\ forall u, In u new <->
             In u (frontier st') /\ Scraper.is_detail u = true /\ ~ is_visited st u.
Proof.
  intros Hwf Hseed Hclosed Hserved.
  pose proof (bootstrap_extends base_url BeautifulSoup http_get latency U st Hwf Hseed)
    as [Wb Ib Vb Fb].
  set (stb := Scraper.bootstrap base_url BeautifulSoup http_get latency st) in *.
  destruct (crawl_spec base_url BeautifulSoup re_compile http_get latency pad_year U
              Hclosed Hserved (length (pending U stb)) stb (le_n _) Wb)
    as (st' & E & W' & I' & T' & M' & new & V' & N' & D' & C').
  exists (S (length (pending U stb))), st'.
  split; [exact E|]. split; [exact T'|].
  pose proof (unvisited_nil st' (proj1 W') T') as Hall.
  split; [exact Hall|]. split; [exact (incl_tran Ib I')|].
  exists new. split; [rewrite V', Vb; reflexivity|]. split; [exact N'|].
  intros u. rewrite C', Fb. split.
  - intros [Hu Hnu]. split; [|split; [|exact Hnu]].
    + apply dict_get_in in Hu. apply in_map_iff. exists (u, true).
      split; [reflexivity|exact Hu].
    + apply D', C'. split; [exact Hu|]. rewrite Fb. exact Hnu.
  - intros (Hf & Hd & Hnu). split; [exact (Hall u Hf Hd)|exact Hnu].
Qed.

Lemma incl_check (l U : list text) :
  forallb (fun x => existsb (text_eqb x) U) l = true -> incl l U.
Proof.
  intros H x Hx. rewrite forallb_forall in H. specialize (H x Hx).
  apply existsb_exists in H as (y & Hy & E). apply text_eqb_eq in E. subst y. exact Hy.
Qed.

Lemma C2_crawl_witness :
  exists fuel st',
    Scraper.run Sample.origin Sample.BeautifulSoup Sample.re_compile Sample.http_get
      Sample.latency true fuel Sample.start = Some (Ok st')
    /\ Scraper.unvisited_links st' = []
    /\ (forall u, In u (frontier st') -> Scraper.is_detail u = true -> is_visited st' u)
    /\ incl (frontier Sample.start) (frontier st')
    /\ exists new,
        visits st' = visits Sample.start ++ new
        /\ List.NoDup new
        /\ forall u, In u new <->
             In u (frontier st') /\ Scraper.is_detail u = true
             /\ ~ is_visited Sample.start u.
Proof.
  apply (C2_crawl_terminates Sample.origin Sample.BeautifulSoup Sample.re_compile
           Sample.http_get Sample.latency true
           [Sample.release "1"; Sample.release "2"; Sample.origin ++ txt "/ranges/monthly"]
           Sample.start).
  - split; [apply List.NoDup_nil|intros x []].
  - intros body [= <-]. apply incl_check. vm_compute. reflexivity.
  - intros u body [<-|[<-|[<-|[]]]] [= <-]; apply incl_check; vm_compute; reflexivity.
  - intros u [<-|[<-|[<-|[]]]] Hd; try discriminate Hd.
    + exists (txt "release1"). split; [reflexivity|]. split; [discriminate|].
      intros soup [= <-]. eexists. vm_compute. reflexivity.
    + exists (txt "release2"). split; [reflexivity|]. split; [discriminate|].
      intros soup [= <-]. eexists. vm_compute. reflexivity.
Defined.

Example crawl_ex :
  option_map (fun r => match r with Ok st => visits st | Raise _ => [] end)
    (Scraper.run Sample.origin Sample.BeautifulSoup Sample.re_compile Sample.http_get
       Sample.latency true 3 Sample.start)
  = Some [Sample.release "1"; Sample.release "2"].
Proof. vm_compute. reflexivity. Qed.

(** C2 fails as stated: a finite graph with one detail page whose fetch
    fails is never exhausted, whatever the number of rounds. *)
Lemma C2_failing_fetch_never_terminates :
  ~ (forall (base_url : text) (BeautifulSoup : text -> option Soup)
            (re_compile : text -> result Regex) (http_get : text -> option text)
            (latency : text -> Z) (pad_year : bool) (U : list text) (st : State),
        well_formed U st ->
        (forall body, http_get base_url = Some body ->
                      incl (page_links base_url BeautifulSoup false body) U) ->
        (forall u body, In u U -> http_get u = Some body ->
                        incl (page_links base_url BeautifulSoup true body) U) ->
        exists fuel st',
          Scraper.run base_url BeautifulSoup re_compile http_get latency pad_year fuel st
            = Some (Ok st')).
Proof.
  intros H.
  destruct (H Sample.origin Sample.BeautifulSoup Sample.re_compile (fun _ => None)
              Sample.latency true [Sample.release "1"] Sample.one_release)
    as (fuel & st' & E).
  - split; [apply List.NoDup_cons; [intros []|apply List.NoDup_nil]|].
    intros x Hx. exact Hx.
  - intros body [=].
  - intros u body _ [=].
  - unfold Scraper.run in E. change (Scraper.bootstrap _ _ _ _ Sample.one_release)
      with Sample.one_release in E.
    assert (Hloop : forall n st, all_links st = [(Sample.release "1", false)] ->
                      Scraper.crawl Sample.origin Sample.BeautifulSoup Sample.re_compile
                        (fun _ => None) Sample.latency true n st = None).
    { clear. induction n as [|n IH]; intros st Hst; [reflexivity|].
      cbn [Scraper.crawl]. unfold Scraper.unvisited_links. rewrite Hst.
      change (map fst (List.filter _ [(Sample.release "1", false)]))
        with [Sample.release "1"].
      cbn [Scraper.for_each Scraper.visit Scraper.get_html PyStr.truthy bind].
      apply IH. exact Hst. }
    rewrite Hloop in E by reflexivity. discriminate E.
Qed.

(** * Further properties of the code *)

(** ** The store *)

(** X1.  [add_url] inserts if absent and ignores otherwise: a URL that has
    a row keeps it untouched, flag and timestamps included, so adding twice
    is adding once; a URL without a row gets an unvisited one discovered
    now; no other row and no record changes. *)
Theorem X1_add_url_insert_or_ignore (u : text) (now : Z) (d : Database.t) :
  (forall r, urls d !! u = Some r -> add_url u now d = d)
  /\ (urls d !! u = None ->
      urls (add_url u now d) !! u
      = Some {| visited := false; visited_at := None; discovered_at := now |})
  /\ (forall v, v <> u -> urls (add_url u now d) !! v = urls d !! v)
  /\ content (add_url u now d) = content d
  /\ (forall later, add_url u later (add_url u now d) = add_url u now d).
Proof.
  unfold add_url. split; [|split; [|split; [|split]]].
  - intros r Hr. rewrite Hr. reflexivity.
  - intros Hn. rewrite Hn. cbn [urls]. apply lookup_insert_eq.
  - intros v Hv. destruct (urls d !! u); [reflexivity|].
    cbn [urls]. apply lookup_insert_ne. congruence.
  - destruct (urls d !! u); reflexivity.
  - intros later. destruct (urls d !! u) eqn:E.
    + rewrite E. reflexivity.
    + cbn [urls]. rewrite lookup_insert_eq. reflexivity.
Qed.

(** X2.  [save_content] is a full replace keyed by the URL of the record:
    the row read back under that URL holds the record saved last and the
    time of that save, whatever was stored before; the rows of other URLs
    and the [urls] table are unchanged. *)
Theorem X2_save_content_read_back (data : Data) (now : Z) (d : Database.t) :
  return_data_for_url (url data) (save_content data now d)
  = Some {| row_data := data; created_at := now |}
  /\ (forall older earlier,
        url older = url data ->
        return_data_for_url (url data)
          (save_content data now (save_content older earlier d))
        = Some {| row_data := data; created_at := now |})
  /\ (forall v, v <> url data ->
        return_data_for_url v (save_content data now d) = return_data_for_url v d)
  /\ urls (save_content data now d) = urls d.
Proof.
  unfold return_data_for_url, save_content. cbn [content urls].
  split; [|split; [|split]].
  - rewrite lookup_insert_eq. reflexivity.
  - intros older earlier _. rewrite lookup_insert_eq. reflexivity.
  - intros v Hv. rewrite lookup_insert_ne by congruence. reflexivity.
  - reflexivity.
Qed.

(** ** Loading the frontier *)

Lemma list_fmap_map {A B} (f : A -> B) (l : list A) : f <$> l = map f l.
Proof. induction l as [|x l IH]; [reflexivity|]. cbn. rewrite <- IH. reflexivity. Qed.

Lemma get_all_urls_keys (d : Database.t) : List.NoDup (map fst (get_all_urls d)).
Proof.
  unfold get_all_urls. rewrite <- list_fmap_map.
  apply NoDup_ListNoDup, NoDup_fst_map_to_list.
Qed.

Lemma get_all_urls_get (d : Database.t) (u : text) :
  Dict.get (get_all_urls d) u = visited <$> (urls d !! u).
Proof.
  rewrite <- lookup_fmap.
  destruct ((visited <$> urls d) !! u) as [b|] eqn:E.
  - apply dict_in_get; [apply get_all_urls_keys|].
    unfold get_all_urls. apply list_elem_of_In, elem_of_map_to_list. exact E.
  - apply dict_get_none. intros Hin. apply in_map_iff in Hin as ([k b] & Hk & Hin).
    cbn [fst] in Hk. subst k.
    unfold get_all_urls in Hin. apply list_elem_of_In, elem_of_map_to_list in Hin.
    congruence.
Qed.

Lemma init_consistent (d : Database.t) (now : Z) : consistent (Scraper.init d now).
Proof. split; [apply get_all_urls_keys|]. intros u. apply get_all_urls_get. Qed.

(** X3.  The dict a new scraper loads from the store has one entry per
    row of the [urls] table, with the row's visited flag, and no entry
    for a URL without a row: it starts consistent with the table, whatever
    the table holds, and with nothing printed. *)
Theorem X3_init_consistent (d : Database.t) (now : Z) :
  consistent (Scraper.init d now)
  /\ (forall u, In u (frontier (Scraper.init d now)) <-> is_Some (urls d !! u))
  /\ (forall u, is_visited (Scraper.init d now) u <->
                exists r, urls d !! u = Some r /\ visited r = true)
  /\ db (Scraper.init d now) = d.
Proof.
  split; [|split; [|split]].
  - apply init_consistent.
  - intros u. unfold frontier. cbn [all_links Scraper.init].
    rewrite <- dict_mem_in. unfold Dict.mem. rewrite get_all_urls_get.
    destruct (urls d !! u) as [r|]; cbn; split; intros H;
      try reflexivity; try discriminate; try (eexists; reflexivity).
    destruct H as [x Hx]. discriminate Hx.
  - intros u. unfold is_visited. cbn [all_links Scraper.init].
    rewrite get_all_urls_get. destruct (urls d !! u) as [r|]; cbn.
    + split; [intros [= H]; exists r; split; [reflexivity|exact H]|].
      intros (r' & [= <-] & H). rewrite H. reflexivity.
    + split; [discriminate|]. intros (r' & H & _). discriminate H.
  - reflexivity.
Qed.

(** ** The frontier and the table *)

Lemma discover_known (u : text) (st : State) :
  In u (frontier st) -> Scraper.discover u st = st.
Proof.
  intros H. unfold Scraper.discover.
  apply dict_mem_in in H. rewrite H. reflexivity.
Qed.

Lemma discover_all_known (links : list text) (st : State) :
  incl links (frontier st) -> discover_all links st = st.
Proof.
  induction links as [|u links IH]; intros H; [reflexivity|].
  cbn [discover_all fold_left]. rewrite discover_known by (apply H; left; reflexivity).
  apply IH. intros x Hx. apply H. right. exact Hx.
Qed.

(** What one [discover] does to a consistent state. *)
Lemma discover_step (u : text) (st : State) :
  consistent st ->
  consistent (Scraper.discover u st)
  /\ (forall v, In v (frontier (Scraper.discover u st)) <-> In v (frontier st) \/ v = u)
  /\ (forall v, In v (frontier st) ->
        Dict.get (all_links (Scraper.discover u st)) v = Dict.get (all_links st) v
        /\ urls (db (Scraper.discover u st)) !! v = urls (db st) !! v)
  /\ (~ In u (frontier st) ->
        Dict.get (all_links (Scraper.discover u st)) u = Some false
        /\ urls (db (Scraper.discover u st)) !! u = Some (fresh_row (clock st)))
  /\ content (db (Scraper.discover u st)) = content (db st)
  /\ clock (Scraper.discover u st) = clock st
  /\ visits (Scraper.discover u st) = visits st.
Proof.
  intros [Hnd Hm]. unfold Scraper.discover.
  destruct (Dict.mem (all_links st) u) eqn:E.
  - assert (Hin : In u (frontier st)) by (apply dict_mem_in; exact E).
    split; [split; assumption|]. split.
    { intros v. split; [tauto|]. intros [H| ->]; assumption. }
    split; [intros v _; split; reflexivity|].
    split; [intros H; contradiction|]. repeat split.
  - assert (Hnew : ~ In u (map fst (all_links st))).
    { intros H. apply dict_mem_in in H. congruence. }
    assert (Hget : Dict.get (all_links st) u = None) by (apply dict_get_none; exact Hnew).
    assert (Hrow : urls (db st) !! u = None).
    { specialize (Hm u). rewrite Hget in Hm. destruct (urls (db st) !! u); [discriminate|reflexivity]. }
    assert (Hadd : add_url u (clock st) (db st)
                   = {| urls := <[u := fresh_row (clock st)]> (urls (db st));
                        content := content (db st) |}).
    { unfold add_url. rewrite Hrow. reflexivity. }
    cbn [all_links db clock visits with_db with_links]. rewrite Hadd. cbn [urls content].
    unfold frontier. cbn [all_links with_db with_links].
    rewrite (dict_keys_set_new _ _ _ Hnew).
    split.
    { split.
      - unfold frontier. cbn [all_links with_db with_links].
        rewrite (dict_keys_set_new _ _ _ Hnew).
        apply List.NoDup_app; [exact Hnd|apply List.NoDup_cons; [simpl; tauto|apply List.NoDup_nil]|].
        intros x Hx [<-|[]]. exact (Hnew Hx).
      - intros v. cbn [all_links db urls with_db with_links].
        destruct (text_eqb v u) eqn:Ev.
        + apply text_eqb_eq in Ev. subst v. rewrite dict_get_set_eq, lookup_insert_eq.
          reflexivity.
        + apply text_eqb_neq in Ev. rewrite (dict_get_set_ne _ _ _ _ Ev).
          rewrite lookup_insert_ne by congruence. apply Hm. }
    split.
    { intros v. rewrite in_app_iff. cbn [In]. split; [intros [H|[<-|[]]]|intros [H| ->]]; auto. }
    split.
    { intros v Hv. assert (Hne : v <> u) by (intros ->; exact (Hnew Hv)).
      rewrite (dict_get_set_ne _ _ _ _ Hne), lookup_insert_ne by congruence.
      split; reflexivity. }
    split.
    { intros _. rewrite dict_get_set_eq, lookup_insert_eq. split; reflexivity. }
    repeat split.
Qed.

(** The same for all the links of a page, in order. *)
Lemma discover_all_spec (links : list text) (st : State) :
  consistent st ->
  consistent (discover_all links st)
  /\ (forall v, In v (frontier (discover_all links st)) <-> In v (frontier st) \/ In v links)
  /\ (forall v, In v (frontier st) ->
        Dict.get (all_links (discover_all links st)) v = Dict.get (all_links st) v
        /\ urls (db (discover_all links st)) !! v = urls (db st) !! v)
  /\ (forall v, In v links -> ~ In v (frontier st) ->
        Dict.get (all_links (discover_all links st)) v = Some false
        /\ urls (db (discover_all links st)) !! v = Some (fresh_row (clock st)))
  /\ content (db (discover_all links st)) = content (db st)
  /\ clock (discover_all links st) = clock st
  /\ visits (discover_all links st) = visits st.
Proof.
  revert st. induction links as [|u links IH]; intros st Hc.
  - cbn [discover_all fold_left].
    split; [exact Hc|]. split; [intros v; cbn [In]; tauto|].
    split; [intros v _; split; reflexivity|].
    split; [intros v []|]. repeat split.
  - change (discover_all (u :: links) st) with (discover_all links (Scraper.discover u st)).
    destruct (discover_step u st Hc) as (C1 & F1 & K1 & N1 & T1 & L1 & V1).
    destruct (IH _ C1) as (C2 & F2 & K2 & N2 & T2 & L2 & V2).
    split; [exact C2|]. split.
    { intros v. rewrite F2, F1. cbn [In]. split; [intros [[H|H]|H]|intros [H|[H|H]]]; auto. }
    split.
    { intros v Hv. destruct (K1 v Hv) as [G1 R1].
      destruct (K2 v) as [G2 R2]; [apply F1; left; exact Hv|].
      split; congruence. }
    split.
    { intros v Hv Hnew. destruct (text_eqb v u) eqn:Ev;
        [apply text_eqb_eq in Ev; subst v|apply text_eqb_neq in Ev; rename Ev into Hne].
      - destruct (N1 Hnew) as [G1 R1].
        destruct (K2 u) as [G2 R2]; [apply F1; right; reflexivity|].
        split; congruence.
      - destruct Hv as [Hv|Hv]; [congruence|].
        destruct (N2 v Hv) as [G2 R2].
        { intros H. apply F1 in H as [H|H]; [exact (Hnew H)|exact (Hne H)]. }
        rewrite L1 in R2. split; assumption. }
    repeat split; congruence.
Qed.

(** X4.  What [get_all_links] does to a scraper whose dict agrees with the
    table: the two still agree; the URLs known afterwards are those known
    before and the links returned; a URL known before keeps its flag and
    its row; a link not known before is entered unvisited, with a row
    discovered at the current time; records, time and output are untouched;
    and a second call on the same page returns the same links and changes
    nothing. *)
Theorem X4_get_all_links_frontier (base_url : text) (BeautifulSoup : text -> option Soup)
    (html : text) (only : bool) (st st' : State) (links : list text) :
  consistent st ->
  Scraper.get_all_links base_url BeautifulSoup html only st = (links, st') ->
  consistent st'
  /\ (forall u, In u (frontier st') <-> In u (frontier st) \/ In u links)
  /\ (forall u, In u (frontier st) ->
        Dict.get (all_links st') u = Dict.get (all_links st) u
        /\ urls (db st') !! u = urls (db st) !! u)
  /\ (forall u, In u links -> ~ In u (frontier st) ->
        Dict.get (all_links st') u = Some false
        /\ urls (db st') !! u = Some (fresh_row (clock st)))
  /\ content (db st') = content (db st)
  /\ clock st' = clock st
  /\ visits st' = visits st
  /\ Scraper.get_all_links base_url BeautifulSoup html only st' = (links, st').
Proof.
  intros Hc. rewrite get_all_links_graph. intros [= <- <-].
  destruct (discover_all_spec (page_links base_url BeautifulSoup only html) st Hc)
    as (C & F & K & N & T & L & V).
  repeat (split; [assumption|]).
  rewrite get_all_links_graph. f_equal.
  apply discover_all_known. intros u Hu. apply F. right. exact Hu.
Qed.

Lemma X4_get_all_links_witness :
  let r := Scraper.get_all_links Sample.origin Sample.BeautifulSoup (txt "home") false
             Sample.start in
  consistent (snd r)
  /\ Scraper.get_all_links Sample.origin Sample.BeautifulSoup (txt "home") false (snd r) = r.
Proof.
  intros r.
  destruct (X4_get_all_links_frontier Sample.origin Sample.BeautifulSoup (txt "home") false
              Sample.start (snd r) (fst r) (init_consistent Database.empty 0)
              (surjective_pairing r)) as (C & _ & _ & _ & _ & _ & _ & I).
  split; [exact C|]. rewrite I. symmetry. apply surjective_pairing.
Defined.

(** ** What the crawl keeps, in any world *)

Lemma grows_refl (st : State) : consistent st -> grows st st.
Proof.
  intros H. split; [exact H|apply incl_refl|auto|auto|].
  exists []. rewrite app_nil_r. split; [reflexivity|apply List.Forall_nil].
Qed.

Lemma grows_trans (a b c : State) : grows a b -> grows b c -> grows a c.
Proof.
  intros [C1 F1 V1 T1 (n1 & E1 & P1)] [C2 F2 V2 T2 (n2 & E2 & P2)]. split.
  - exact C2.
  - exact (incl_tran F1 F2).
  - auto.
  - auto.
  - exists (n1 ++ n2). split; [rewrite E2, E1, app_assoc; reflexivity|].
    apply List.Forall_app. split; [|exact P2].
    eapply List.Forall_impl; [|exact P1]. intros u [Hd Hin]. split; [exact Hd|exact (F2 u Hin)].
Qed.

(** A step that touches neither the dict nor the [urls] table. *)
Lemma grows_same (st st' : State) (new : list text) :
  consistent st ->
  all_links st' = all_links st -> urls (db st') = urls (db st) ->
  (forall v, is_Some (content (db st) !! v) -> is_Some (content (db st') !! v)) ->
  visits st' = visits st ++ new ->
  List.Forall (fun u => Scraper.is_detail u = true /\ In u (frontier st)) new ->
  grows st st'.
Proof.
  intros [Hnd Hm] Ha Hu Hc Hv Hn. split.
  - split; [unfold frontier; rewrite Ha; exact Hnd|].
    intros u. rewrite Ha, Hu. apply Hm.
  - unfold frontier. rewrite Ha. apply incl_refl.
  - unfold is_visited. rewrite Ha. auto.
  - exact Hc.
  - exists new. split; [exact Hv|]. unfold frontier in *. rewrite Ha. exact Hn.
Qed.

Lemma is_visited_in (st : State) (v : text) : is_visited st v -> In v (frontier st).
Proof.
  unfold is_visited, frontier. intros H. apply dict_get_in in H.
  apply in_map_iff. exists (v, true). split; [reflexivity|exact H].
Qed.

Lemma discover_all_grows (links : list text) (st : State) :
  consistent st -> grows st (discover_all links st).
Proof.
  intros Hc. destruct (discover_all_spec links st Hc) as (C & F & K & _ & T & _ & V).
  split.
  - exact C.
  - intros u Hu. apply F. left. exact Hu.
  - intros v Hv. unfold is_visited in *.
    rewrite (proj1 (K v (is_visited_in st v Hv))). exact Hv.
  - intros v. rewrite T. auto.
  - exists []. rewrite app_nil_r. split; [exact V|apply List.Forall_nil].
Qed.

Lemma mark_grows (link : text) (st : State) :
  consistent st -> grows st (Scraper.mark link st).
Proof.
  intros [Hnd Hm].
  assert (Hkeys : incl (frontier st) (frontier (Scraper.mark link st))
                  /\ List.NoDup (frontier (Scraper.mark link st))).
  { unfold frontier, Scraper.mark. cbn [all_links with_links with_db].
    destruct (Dict.mem (all_links st) link) eqn:E;
      [assert (Hin : In link (map fst (all_links st))) by (apply dict_mem_in; exact E)
      |assert (Hnew : ~ In link (map fst (all_links st)))
         by (intros H; apply dict_mem_in in H; congruence)].
    - rewrite (dict_keys_set_in _ _ _ Hin). split; [apply incl_refl|exact Hnd].
    - rewrite (dict_keys_set_new _ _ _ Hnew). split; [apply incl_appl, incl_refl|].
      apply List.NoDup_app; [exact Hnd|apply List.NoDup_cons; [simpl; tauto|apply List.NoDup_nil]|].
      intros x Hx [<-|[]]. exact (Hnew Hx). }
  destruct Hkeys as [Hincl Hnd'].
  assert (Hget : forall v, Dict.get (all_links (Scraper.mark link st)) v
                           = if text_eqb v link then Some true else Dict.get (all_links st) v).
  { intros v. unfold Scraper.mark. cbn [all_links with_links with_db].
    destruct (text_eqb v link) eqn:Ev.
    - apply text_eqb_eq in Ev. subst v. apply dict_get_set_eq.
    - apply text_eqb_neq in Ev. apply dict_get_set_ne. exact Ev. }
  split.
  - split; [exact Hnd'|]. intros v. rewrite Hget.
    unfold Scraper.mark, mark_url_visited. cbn [db urls with_links with_db].
    destruct (text_eqb v link) eqn:Ev.
    + apply text_eqb_eq in Ev. subst v. rewrite lookup_insert_eq. reflexivity.
    + apply text_eqb_neq in Ev. rewrite lookup_insert_ne by congruence. apply Hm.
  - exact Hincl.
  - intros v Hv. unfold is_visited in *. rewrite Hget.
    destruct (text_eqb v link); [reflexivity|exact Hv].
  - intros v Hv. exact Hv.
  - exists []. rewrite app_nil_r. split; [reflexivity|apply List.Forall_nil].
Qed.

Section Safety.

Variable base_url : text.
Variable BeautifulSoup : text -> option Soup.
Variable re_compile : text -> result Regex.
Variable http_get : text -> option text.
Variable latency : text -> Z.
Variable pad_year : bool.

Lemma parse_data_state (u html : text) (st st' : State) (r : option Data) :
  Scraper.parse_data base_url BeautifulSoup re_compile pad_year u html st = Ok (r, st') ->
  all_links st' = all_links st /\ urls (db st') = urls (db st)
  /\ clock st' = clock st /\ visits st' = visits st
  /\ match r with
     | Some d =>
         (exists soup, BeautifulSoup html = Some soup
                       /\ Scraper.extract base_url re_compile pad_year u soup = Ok d)
         /\ db st' = save_content d (clock st) (db st)
     | None => BeautifulSoup html = None /\ st' = st
     end.
Proof.
  unfold Scraper.parse_data. destruct (BeautifulSoup html) as [soup|].
  - intros H. apply bind_Ok in H as (d & Hd & H). injection H as <- <-.
    cbn [all_links db clock visits with_db save_content urls].
    repeat split; try reflexivity. exists soup. split; [reflexivity|exact Hd].
  - intros [= <- <-]. repeat split.
Qed.

Lemma parse_data_grows (u html : text) (st st' : State) (r : option Data) :
  consistent st ->
  Scraper.parse_data base_url BeautifulSoup re_compile pad_year u html st = Ok (r, st') ->
  grows st st'.
Proof.
  intros Hc H. apply parse_data_state in H as (Ha & Hu & _ & Hv & Hr).
  apply (grows_same st st' []); try assumption.
  - destruct r as [d|]; [|destruct Hr as [_ ->]; auto].
    destruct Hr as (_ & ->). intros v Hv'. cbn [save_content content].
    destruct (text_eqb v (url d)) eqn:E.
    + apply text_eqb_eq in E. subst v. rewrite lookup_insert_eq. eexists. reflexivity.
    + apply text_eqb_neq in E. rewrite lookup_insert_ne by congruence. exact Hv'.
  - rewrite app_nil_r. exact Hv.
  - apply List.Forall_nil.
Qed.

Lemma visit_grows (link : text) (st st' : State) :
  consistent st -> In link (frontier st) -> Scraper.is_detail link = true ->
  Scraper.visit base_url BeautifulSoup re_compile http_get latency pad_year link st = Ok st' ->
  grows st st'.
Proof.
  intros Hc Hin Hd. unfold Scraper.visit, Scraper.get_html.
  set (st0 := {| all_links := all_links (Scraper.log_visit link st);
                 db := db (Scraper.log_visit link st);
                 clock := (clock (Scraper.log_visit link st) + latency link)%Z;
                 visits := visits (Scraper.log_visit link st) |}).
  assert (G0 : grows st st0).
  { apply (grows_same st st0 [link]); try reflexivity; [exact Hc|auto|].
    apply List.Forall_cons; [split; assumption|apply List.Forall_nil]. }
  destruct (PyStr.truthy (http_get link)); [|intros [= <-]; exact G0].
  rewrite get_all_links_graph.
  set (st1 := discover_all _ st0).
  assert (G1 : grows st0 st1) by (apply discover_all_grows, (grows_consistent _ _ G0)).
  rewrite Hd. intros H. apply bind_Ok in H as (st2 & H2 & H). injection H as <-.
  apply bind_Ok in H2 as ([r st3] & H3 & H2). injection H2 as <-. cbn [snd].
  pose proof (parse_data_grows _ _ _ _ _ (grows_consistent _ _ G1) H3) as G2.
  pose proof (mark_grows link st3 (grows_consistent _ _ G2)) as G3.
  exact (grows_trans _ _ _ (grows_trans _ _ _ (grows_trans _ _ _ G0 G1) G2) G3).
Qed.

Lemma for_each_grows (batch : list text) (st st' : State) :
  consistent st ->
  (forall l, In l batch -> In l (frontier st) /\ Scraper.is_detail l = true) ->
  Scraper.for_each base_url BeautifulSoup re_compile http_get latency pad_year batch st = Ok st' ->
  grows st st'.
Proof.
  revert st. induction batch as [|l batch IH]; intros st Hc Hb H.
  - injection H as <-. apply grows_refl, Hc.
  - cbn [Scraper.for_each] in H. apply bind_Ok in H as (st1 & H1 & H).
    destruct (Hb l (or_introl eq_refl)) as [Hin Hd].
    pose proof (visit_grows l st st1 Hc Hin Hd H1) as G1.
    apply (grows_trans _ _ _ G1). apply IH; [exact (grows_consistent _ _ G1)| |exact H].
    intros x Hx. destruct (Hb x (or_intror Hx)) as [Hx1 Hx2].
    split; [exact (grows_frontier _ _ G1 x Hx1)|exact Hx2].
Qed.

Lemma crawl_grows (fuel : nat) (st st' : State) :
  consistent st ->
  Scraper.crawl base_url BeautifulSoup re_compile http_get latency pad_year fuel st
  = Some (Ok st') ->
  grows st st' /\ Scraper.unvisited_links st' = [].
Proof.
  revert st. induction fuel as [|fuel IH]; intros st Hc H; [discriminate H|].
  cbn [Scraper.crawl] in H.
  destruct (Scraper.unvisited_links st) as [|l batch] eqn:E.
  - injection H as <-. split; [apply grows_refl, Hc|exact E].
  - destruct (Scraper.for_each _ _ _ _ _ _ (l :: batch) st) as [st1|e] eqn:F;
      [|discriminate H].
    assert (G1 : grows st st1).
    { apply (for_each_grows (l :: batch)); [exact Hc| |exact F].
      intros x Hx. rewrite <- E in Hx.
      destruct (unvisited_in st x (proj1 Hc) Hx) as (H1 & H2 & _). split; assumption. }
    destruct (IH st1 (grows_consistent _ _ G1) H) as [G2 Hnil].
    split; [exact (grows_trans _ _ _ G1 G2)|exact Hnil].
Qed.

Lemma bootstrap_grows (st : State) :
  consistent st ->
  grows st (Scraper.bootstrap base_url BeautifulSoup http_get latency st).
Proof.
  intros Hc. unfold Scraper.bootstrap.
  destruct (all_links st) eqn:E; [|apply grows_refl, Hc].
  unfold Scraper.get_html.
  set (st0 := {| all_links := all_links st; db := db st;
                 clock := (clock st + latency base_url)%Z; visits := visits st |}).
  assert (G0 : grows st st0).
  { apply (grows_same st st0 []); try reflexivity; [exact Hc|auto|
      cbn; rewrite app_nil_r; reflexivity|apply List.Forall_nil]. }
  destruct (PyStr.truthy (http_get base_url)); [|exact G0].
  rewrite get_all_links_graph. cbn [snd].
  apply (grows_trans _ _ _ G0). apply discover_all_grows, (grows_consistent _ _ G0).
Qed.

End Safety.

(** X5.  Whatever the site answers, a run that ends normally from a
    scraper whose dict agrees with the table leaves them in agreement,
    forgets no URL, resets no visited flag, drops no stored record, has
    printed only detail pages of its frontier, and leaves no detail page
    of the frontier unvisited, in the dict and in the table. *)
Theorem X5_run_keeps_store (base_url : text) (BeautifulSoup : text -> option Soup)
    (re_compile : text -> result Regex) (http_get : text -> option text)
    (latency : text -> Z) (pad_year : bool) (fuel : nat) (st st' : State) :
  consistent st ->
  Scraper.run base_url BeautifulSoup re_compile http_get latency pad_year fuel st
  = Some (Ok st') ->
  grows st st'
  /\ Scraper.unvisited_links st' = []
  /\ forall u, In u (frontier st') -> Scraper.is_detail u = true ->
       is_visited st' u
       /\ exists r, urls (db st') !! u = Some r /\ visited r = true.
Proof.
  intros Hc H. unfold Scraper.run in H.
  pose proof (bootstrap_grows base_url BeautifulSoup http_get latency st Hc) as G0.
  destruct (crawl_grows _ _ _ _ _ _ _ _ _ (grows_consistent _ _ G0) H) as [G1 Hnil].
  split; [exact (grows_trans _ _ _ G0 G1)|]. split; [exact Hnil|].
  intros u Hu Hd. destruct (grows_consistent _ _ G1) as [Hnd Hm].
  pose proof (unvisited_nil st' Hnd Hnil u Hu Hd) as Hv.
  split; [exact Hv|]. unfold is_visited in Hv. rewrite (Hm u) in Hv.
  destruct (urls (db st') !! u) as [r|]; [|discriminate Hv].
  injection Hv as Hv. exists r. split; [reflexivity|exact Hv].
Qed.

Lemma X5_run_witness :
  exists st',
    Scraper.run Sample.origin Sample.BeautifulSoup Sample.re_compile Sample.http_get
      Sample.latency true 4 Sample.start = Some (Ok st')
    /\ grows Sample.start st'
    /\ Scraper.unvisited_links st' = [].
Proof.
  assert (E : exists st',
             Scraper.run Sample.origin Sample.BeautifulSoup Sample.re_compile
               Sample.http_get Sample.latency true 4 Sample.start = Some (Ok st'))
    by (eexists; vm_compute; reflexivity).
  destruct E as [st' E]. exists st'. split; [exact E|].
  destruct (X5_run_keeps_store Sample.origin Sample.BeautifulSoup Sample.re_compile
              Sample.http_get Sample.latency true 4 Sample.start st'
              (init_consistent Database.empty 0) E) as (G & N & _).
  split; assumption.
Defined.

(** ** The search and its cache *)

Lemma extract_url (base_url : text) (re_compile : text -> result Regex) (pad_year : bool)
    (u : text) (soup : Soup) (d : Data) :
  Scraper.extract base_url re_compile pad_year u soup = Ok d -> url d = u.
Proof.
  intros H. apply extract_inv in H as (d3 & U & _ & _ & H).
  apply parse_tab6_keeps_tag in H as [H _]. congruence.
Qed.

Lemma keeps_records_refl (d : Database.t) : keeps_records d d.
Proof. intros u x H. exact H. Qed.

Lemma keeps_records_trans (a b c : Database.t) :
  keeps_records a b -> keeps_records b c -> keeps_records a c.
Proof. intros H1 H2 u x H. apply H2, H1, H. Qed.

Section SearchCache.

Variable BeautifulSoup : text -> option Soup.
Variable re_compile : text -> result Regex.
Variable suggest : text -> option (option Search.suggestions).
Variable http_get : text -> option text.
Variable latency : text -> Z.
Variable pad_year : bool.

(** One suggestion: served from the store without a request, or fetched
    because the store has no row for it and then stored. *)
Lemma resolve_spec (datas datas' : list (option Search.hit)) (ss ss' : Search.Session)
    (id : option text) :
  Search.resolve BeautifulSoup re_compile http_get latency pad_year datas ss id
  = Search.Done (datas', ss') ->
  exists data fetched,
    datas' = datas ++ [data]
    /\ resolved (Search.store ss') id data
    /\ keeps_records (Search.store ss) (Search.store ss')
    /\ urls (Search.store ss') = urls (Search.store ss)
    /\ Search.requested ss' = Search.requested ss ++ fetched
    /\ List.Forall (missing (Search.store ss)) fetched.
Proof.
  unfold Search.resolve. destruct id as [i|]; [|discriminate].
  destruct (return_data_for_url (Search.detail_url i) (Search.store ss)) as [x|] eqn:E.
  - intros [= <- <-]. exists (Some (Search.Stored x)), []. rewrite app_nil_r.
    split; [reflexivity|]. split; [exists i; split; [reflexivity|exact E]|].
    split; [apply keeps_records_refl|]. repeat split. apply List.Forall_nil.
  - destruct (http_get (Search.detail_url i)) as [body|]; [|discriminate].
    destruct (Scraper.parse_data _ _ _ _ _ _ _) as [[data st]|e] eqn:P; [|discriminate].
    intros [= <- <-]. cbn [Search.store Search.requested Search.request].
    apply parse_data_state in P as (_ & Hu & _ & _ & Hr).
    cbn [Scraper.init db clock Search.request Search.store Search.now] in Hu.
    exists (Search.Parsed <$> data), [Search.detail_url i].
    split; [reflexivity|].
    assert (Hmiss : missing (Search.store ss) (Search.detail_url i))
      by (split; [exact E|exists i; reflexivity]).
    destruct data as [d|].
    + destruct Hr as [(soup & _ & Hx) Hdb]. apply extract_url in Hx.
      cbn [Scraper.init db clock Search.request Search.store Search.now] in Hdb.
      rewrite Hdb. unfold resolved, keeps_records, return_data_for_url, save_content.
      cbn [content urls fmap option_fmap option_map]. rewrite Hx.
      split.
      { exists i. split; [reflexivity|]. eexists. rewrite lookup_insert_eq. reflexivity. }
      split.
      { intros v y Hv. destruct (text_eqb v (Search.detail_url i)) eqn:Ev.
        - apply text_eqb_eq in Ev. subst v. unfold return_data_for_url in E. congruence.
        - apply text_eqb_neq in Ev. rewrite lookup_insert_ne by congruence. exact Hv. }
      split; [reflexivity|]. split; [reflexivity|].
      apply List.Forall_cons; [exact Hmiss|apply List.Forall_nil].
    + destruct Hr as [_ ->]. cbn [Scraper.init db].
      split; [exists i; split; [reflexivity|exact I]|].
      split; [apply keeps_records_refl|]. split; [reflexivity|]. split; [reflexivity|].
      apply List.Forall_cons; [exact Hmiss|apply List.Forall_nil].
Qed.

Lemma resolved_mono (d d' : Database.t) (id : option text) (data : option Search.hit) :
  keeps_records d d' -> resolved d id data -> resolved d' id data.
Proof.
  intros K (i & Hi & H). exists i. split; [exact Hi|].
  destruct data as [[x|r]|]; [|exact (K _ _ H)|exact I].
  destruct H as [c H]. exists c. exact (K _ _ H).
Qed.

Lemma missing_mono (d d' : Database.t) (u : text) :
  keeps_records d d' -> missing d' u -> missing d u.
Proof.
  intros K [H Hi]. split; [|exact Hi].
  destruct (return_data_for_url u d) as [x|] eqn:E; [|reflexivity].
  apply K in E. congruence.
Qed.

Lemma resolve_all_spec (ids : list (option text)) (acc out : list (option Search.hit))
    (ss ss' : Search.Session) :
  Search.resolve_all BeautifulSoup re_compile http_get latency pad_year ids acc ss
  = Search.Done (out, ss') ->
  exists datas fetched,
    out = acc ++ datas
    /\ List.Forall2 (resolved (Search.store ss')) ids datas
    /\ keeps_records (Search.store ss) (Search.store ss')
    /\ urls (Search.store ss') = urls (Search.store ss)
    /\ Search.requested ss' = Search.requested ss ++ fetched
    /\ List.Forall (missing (Search.store ss)) fetched.
Proof.
  revert acc ss. induction ids as [|id ids IH]; intros acc ss H.
  - injection H as <- <-. exists [], []. rewrite !app_nil_r.
    split; [reflexivity|]. split; [apply List.Forall2_nil|].
    split; [apply keeps_records_refl|]. repeat split. apply List.Forall_nil.
  - cbn [Search.resolve_all] in H.
    destruct (Search.resolve _ _ _ _ _ acc ss id) as [[acc1 ss1]|e] eqn:R; [|discriminate H].
    apply resolve_spec in R as (data & f1 & -> & R1 & K1 & U1 & Q1 & M1).
    apply IH in H as (datas & f2 & -> & R2 & K2 & U2 & Q2 & M2).
    exists (data :: datas), (f1 ++ f2).
    split; [rewrite <- app_assoc; reflexivity|].
    split; [apply List.Forall2_cons; [exact (resolved_mono _ _ _ _ K2 R1)|exact R2]|].
    split; [exact (keeps_records_trans _ _ _ K1 K2)|].
    split; [congruence|].
    split; [rewrite Q2, Q1, app_assoc; reflexivity|].
    apply List.Forall_app. split; [exact M1|].
    eapply List.Forall_impl; [|exact M2]. intros u. apply missing_mono, K1.
Qed.

(** With a row for each suggestion in the store, nothing is fetched and
    the rows are returned. *)
Lemma resolve_all_cached (ids : list (option text)) (rows : list Row)
    (acc : list (option Search.hit)) (ss : Search.Session) :
  List.Forall2 (stored_at (Search.store ss)) ids rows ->
  Search.resolve_all BeautifulSoup re_compile http_get latency pad_year ids acc ss
  = Search.Done (acc ++ map (fun r => Some (Search.Stored r)) rows, ss).
Proof.
  intros H. revert acc. induction H as [|id r ids rows (i & -> & Hr) _ IH]; intros acc.
  - rewrite app_nil_r. reflexivity.
  - cbn [Search.resolve_all Search.resolve map]. rewrite Hr.
    rewrite (IH (acc ++ [Some (Search.Stored r)])), <- app_assoc. reflexivity.
Qed.

(** The rows behind a list without [None]. *)
Lemma resolved_rows (d : Database.t) (ids : list (option text))
    (datas : list (option Search.hit)) :
  List.Forall2 (resolved d) ids datas ->
  List.Forall (fun data => data <> None) datas ->
  exists rows,
    List.Forall2 (stored_at d) ids rows /\ List.Forall2 same_fields datas rows.
Proof.
  induction 1 as [|id data ids datas (i & -> & Hd) _ IH]; intros Hs.
  - exists []. split; apply List.Forall2_nil.
  - apply List.Forall_cons_iff in Hs as [Hd0 Hs]. destruct (IH Hs) as (rows & R1 & R2).
    destruct data as [[x|r]|]; [| |congruence].
    + destruct Hd as [c Hd]. exists ({| row_data := x; created_at := c |} :: rows). split.
      * apply List.Forall2_cons; [exists i; split; [reflexivity|exact Hd]|exact R1].
      * apply List.Forall2_cons; [|exact R2].
        exists (Search.Parsed x). split; [reflexivity|]. split; [reflexivity|discriminate].
    + exists (r :: rows). split.
      * apply List.Forall2_cons; [exists i; split; [reflexivity|exact Hd]|exact R1].
      * apply List.Forall2_cons; [|exact R2].
        exists (Search.Stored r). split; [reflexivity|]. split; [reflexivity|].
        intros r0 [= <-]. reflexivity.
Qed.

(** A search that returned a list without [None], made again. *)
Lemma search_again (query : text) (ss ss' : Search.Session)
    (datas : list (option Search.hit)) :
  Search.search BeautifulSoup re_compile suggest http_get latency pad_year query ss
  = Search.Done (datas, ss') ->
  List.Forall (fun data => data <> None) datas ->
  exists rows,
    List.Forall2 same_fields datas rows
    /\ forall ss2, Search.store ss2 = Search.store ss' ->
         Search.search BeautifulSoup re_compile suggest http_get latency pad_year query ss2
         = Search.Done (map (fun r => Some (Search.Stored r)) rows,
                        Search.request latency (Search.suggest_url query) ss2).
Proof.
  unfold Search.search.
  destruct (suggest (Search.suggest_url query)) as [[[|ids]|]|]; try discriminate.
  - intros [= <- <-] _. exists []. split; [apply List.Forall2_nil|]. reflexivity.
  - intros H Hs. apply resolve_all_spec in H as (ds & _ & E & R & _).
    cbn [app] in E. subst ds.
    destruct (resolved_rows _ ids datas R Hs) as (rows & R1 & R2).
    exists rows. split; [exact R2|]. intros ss2 E2.
    apply (resolve_all_cached ids rows []).
    cbn [Search.store Search.request]. rewrite E2. exact R1.
Qed.

End SearchCache.

(** X10.  A search that returns: the store keeps every row it had and
    its [urls] table; the requests made are the suggest request and then
    only detail URLs that had no row; the list has one element per
    suggestion of the endpoint, in order, each the row the store now
    holds under the detail URL of its suggestion, or the record just
    parsed, which that row holds; and when no page failed to parse, the
    same search again makes the suggest request alone and returns the
    rows of the store, which have the fields of the elements returned
    first (and [created_at], which a record just parsed has not), and so
    does every later one. *)
Theorem X10_search_cache (BeautifulSoup : text -> option Soup)
    (re_compile : text -> result Regex)
    (suggest : text -> option (option Search.suggestions))
    (http_get : text -> option text) (latency : text -> Z) (pad_year : bool)
    (query : text) (ss ss' : Search.Session) (datas : list (option Search.hit)) :
  Search.search BeautifulSoup re_compile suggest http_get latency pad_year query ss
  = Search.Done (datas, ss') ->
  keeps_records (Search.store ss) (Search.store ss')
  /\ urls (Search.store ss') = urls (Search.store ss)
  /\ (exists fetched,
        Search.requested ss'
        = Search.requested ss ++ Search.suggest_url query :: fetched
        /\ List.Forall (missing (Search.store ss)) fetched)
  /\ match suggest (Search.suggest_url query) with
     | Some (Some (Search.Suggestions ids)) =>
         List.Forall2 (resolved (Search.store ss')) ids datas
     | Some (Some Search.NotDict) => datas = []
     | _ => False
     end
  /\ (List.Forall (fun data => data <> None) datas ->
      exists rows,
        List.Forall2 same_fields datas rows
        /\ forall ss2, Search.store ss2 = Search.store ss' ->
             Search.search BeautifulSoup re_compile suggest http_get latency pad_year
               query ss2
             = Search.Done (map (fun r => Some (Search.Stored r)) rows,
                            Search.request latency (Search.suggest_url query) ss2)).
Proof.
  intros H.
  split; [|split; [|split; [|split]]];
    [| | | |exact (search_again _ _ _ _ _ _ _ _ _ _ H)];
    unfold Search.search in H;
    destruct (suggest (Search.suggest_url query)) as [[[|ids]|]|]; try discriminate H.
  - injection H as <- <-. apply keeps_records_refl.
  - apply resolve_all_spec in H as (ds & fetched & E & R & K & U & Q & M). exact K.
  - injection H as <- <-. reflexivity.
  - apply resolve_all_spec in H as (ds & fetched & E & R & K & U & Q & M). exact U.
  - injection H as <- <-. exists []. split; [reflexivity|apply List.Forall_nil].
  - apply resolve_all_spec in H as (ds & fetched & E & R & K & U & Q & M).
    cbn [Search.store Search.requested Search.request] in Q, M.
    exists fetched. split; [rewrite Q, <- app_assoc; reflexivity|exact M].
  - injection H as <- <-. reflexivity.
  - apply resolve_all_spec in H as (ds & fetched & E & R & K & U & Q & M).
    cbn [app] in E. subst ds. exact R.
Qed.

Lemma X10_search_witness :
  exists datas ss' rows,
    Search.search Sample.BeautifulSoup Sample.re_compile sample_suggest Sample.http_get
      Sample.latency true (txt "Doctor Who: Flux") sample_session = Search.Done (datas, ss')
    /\ length datas = 2
    /\ List.Forall2 same_fields datas rows
    /\ Search.search Sample.BeautifulSoup Sample.re_compile sample_suggest Sample.http_get
         Sample.latency true (txt "Doctor Who: Flux") ss'
       = Search.Done (map (fun r => Some (Search.Stored r)) rows,
                      Search.request Sample.latency
                        (Search.suggest_url (txt "Doctor Who: Flux")) ss').
Proof.
  assert (E : exists datas ss',
             Search.search Sample.BeautifulSoup Sample.re_compile sample_suggest
               Sample.http_get Sample.latency true (txt "Doctor Who: Flux") sample_session
             = Search.Done (datas, ss')
             /\ length datas = 2
             /\ forallb (fun d => match d with Some _ => true | None => false end) datas
                = true)
    by (eexists; eexists; vm_compute; repeat split).
  destruct E as (datas & ss' & E & L & S).
  destruct (X10_search_cache _ _ _ _ _ _ _ _ _ _ E) as (_ & _ & _ & _ & A).
  destruct A as (rows & F & A).
  { apply List.Forall_forall. intros d Hd.
    rewrite forallb_forall in S. specialize (S d Hd). destruct d; [discriminate|discriminate S]. }
  exists datas, ss', rows. split; [exact E|]. split; [exact L|]. split; [exact F|].
  apply A. reflexivity.
Defined.

(** ** Pages the extractor reads *)

Lemma clean_title_rest (t p r : option text) :
  Scraper.clean_title t = (p, r) -> (r = None <-> t = None).
Proof.
  unfold Scraper.clean_title. destruct t as [[|c t]|].
  - intros [= <- <-]. reflexivity.
  - destruct (Re.rmatch _ _) as [[e marks]|]; intros [= <- <-]; split; discriminate.
  - intros [= <- <-]. reflexivity.
Qed.

Lemma split_tag_title (d : Data) :
  title (Scraper.split_tag d) = None <-> title d = None.
Proof.
  unfold Scraper.split_tag.
  destruct (Scraper.clean_title (title d)) as [p r] eqn:E1.
  pose proof (clean_title_rest _ _ _ E1) as H1.
  destruct (PyStr.truthy p); [|reflexivity].
  cbn [title set_title].
  destruct (Scraper.clean_title r) as [p2 r2] eqn:E2.
  pose proof (clean_title_rest _ _ _ E2) as H2.
  destruct (PyStr.truthy p2); cbn [title set_title]; [rewrite H2|]; exact H1.
Qed.

(** A text without the separator is one piece. *)
Lemma split_go_absent (sep s cur : text) :
  PyStr.contains sep s = false -> PyStr.split_go sep s 0 cur = [rev cur ++ s].
Proof.
  revert cur. induction s as [|c s IH]; intros cur H.
  - cbn. rewrite app_nil_r. reflexivity.
  - rewrite contains_cons in H. apply orb_false_iff in H as [H1 H2].
    rewrite split_go_cons, H1, (IH (c :: cur) H2). cbn [rev].
    rewrite <- app_assoc. reflexivity.
Qed.

Lemma field_after_contains (marker content v : text) :
  Scraper.field_after marker content = Ok v -> PyStr.contains marker content = true.
Proof.
  unfold Scraper.field_after. intros H. apply bind_Ok in H as (a & H & _).
  destruct (PyStr.contains marker content) eqn:E; [reflexivity|].
  unfold PyStr.split in H. rewrite (split_go_absent _ _ [] E) in H. discriminate H.
Qed.

Lemma field_after_total (marker content : text) :
  marker <> [] -> PyStr.contains marker content = true ->
  exists v, Scraper.field_after marker content = Ok v.
Proof.
  intros Hm Hc. destruct (field_after_inv marker content Hm Hc) as (pre & v & rest & H & _).
  exists v. exact H.
Qed.

Section Readable.

Variable base_url : text.
Variable re_compile : text -> result Regex.
Variable pad_year : bool.

Lemma strip_series_ok (name : text) (d : Data) :
  (exists d', Scraper.strip_series re_compile name d = Ok d')
  <-> compiles re_compile name /\ title d <> None.
Proof.
  unfold Scraper.strip_series, compiles. split.
  - intros [d' H]. apply bind_Ok in H as (r & Hr & H).
    split; [exists r; exact Hr|]. destruct (title d); [discriminate|discriminate H].
  - intros [[r Hr] Ht]. rewrite Hr. cbn [bind].
    destruct (title d) as [t|]; [|congruence]. eexists. reflexivity.
Qed.

Lemma strip_series_frame (name : text) (d d' : Data) :
  Scraper.strip_series re_compile name d = Ok d' ->
  series d' = series d /\ title d' <> None.
Proof.
  unfold Scraper.strip_series. intros H. apply bind_Ok in H as (r & _ & H).
  destruct (title d) as [t|] eqn:E; [|discriminate H].
  destruct (re_search r t); injection H as <-; cbn [series title set_title];
    split; try reflexivity; try discriminate. congruence.
Qed.

Lemma parse_desc_ok (pd : ProductDesc) (d : Data) :
  (exists d', Scraper.parse_desc re_compile pd d = Ok d') <-> desc_ok re_compile pd.
Proof.
  unfold Scraper.parse_desc, desc_ok.
  set (d2 := Scraper.split_tag (set_title (PyStr.strip <$> pd_h3 pd) d)).
  set (d3 := set_series (PyStr.strip <$> pd_h6 pd) d2).
  assert (Ht : title d3 = None <-> pd_h3 pd = None).
  { change (title d3) with (title d2). unfold d2. rewrite split_tag_title.
    cbn [title set_title].
    destruct (pd_h3 pd); cbn [fmap option_fmap option_map]; split; congruence. }
  assert (Hs : series d3 = PyStr.strip <$> pd_h6 pd) by reflexivity.
  split.
  - intros [d' H]. apply bind_Ok in H as (d4 & H4 & H).
    pose proof (strip_series_frame _ _ _ H4) as [S4 T4].
    assert (O4 : exists x, Scraper.strip_series re_compile (PyStr.format (series d3)) d3 = Ok x)
      by (exists d4; exact H4).
    apply strip_series_ok in O4 as [C1 T3].
    rewrite S4, Hs in H. rewrite Hs in C1.
    destruct (pd_h3 pd) as [h3|] eqn:E3; [|exfalso; apply T3, Ht; reflexivity].
    destruct (pd_h6 pd) as [h6|] eqn:E6; [|discriminate H].
    cbn [fmap option_fmap option_map PyStr.format] in H, C1.
    assert (O5 : exists x, Scraper.strip_series re_compile
                             (PyStr.replace (txt " -") (txt ":") (PyStr.strip h6)) d4 = Ok x)
      by (exists d'; exact H).
    apply strip_series_ok in O5 as [C2 _].
    exists h3, h6. repeat split; assumption.
  - intros (h3 & h6 & E3 & E6 & C1 & C2).
    assert (T3 : title d3 <> None) by (rewrite Ht, E3; discriminate).
    assert (O4 : exists x, Scraper.strip_series re_compile (PyStr.format (series d3)) d3 = Ok x).
    { apply strip_series_ok. split; [|exact T3]. rewrite Hs, E6. exact C1. }
    destruct O4 as [d4 H4]. rewrite H4. cbn [bind].
    pose proof (strip_series_frame _ _ _ H4) as [S4 T4].
    rewrite S4, Hs, E6. cbn [fmap option_fmap option_map].
    apply strip_series_ok. split; assumption.
Qed.

Lemma parse_isbn_total (marker content : text) (d : Data) :
  marker <> [] -> PyStr.contains marker content = true ->
  exists d', Scraper.parse_isbn marker content d = Ok d'.
Proof.
  intros Hm Hc. destruct (field_after_total marker content Hm Hc) as [v Hv].
  unfold Scraper.parse_isbn. rewrite Hv. cbn [bind]. eexists. reflexivity.
Qed.

Lemma parse_production_ok (content : text) (d : Data) :
  (exists d', Scraper.parse_production content d = Ok d')
  <-> (PyStr.contains (txt "Duration:") content = true ->
       PyStr.contains (txt "Duration: ") content = true).
Proof.
  unfold Scraper.parse_production. split.
  - intros [d' H] Hc. rewrite Hc in H. apply bind_Ok in H as (d1 & H1 & _).
    apply bind_Ok in H1 as (v & Hv & _). exact (field_after_contains _ _ _ Hv).
  - intros Hd.
    assert (O1 : exists d1,
               (if PyStr.contains (txt "Duration:") content
                then bind (Scraper.field_after (txt "Duration: ") content)
                       (fun v => Ok (set_duration (Some v) (set_production (Some content) d)))
                else Ok (set_production (Some content) d)) = Ok d1).
    { destruct (PyStr.contains (txt "Duration:") content); [|eexists; reflexivity].
      destruct (field_after_total (txt "Duration: ") content) as [v Hv];
        [discriminate|exact (Hd eq_refl)|].
      rewrite Hv. eexists. reflexivity. }
    destruct O1 as [d1 H1]. rewrite H1. cbn [bind].
    destruct (PyStr.contains (txt "Digital Retail ISBN: ") content) eqn:E1;
      [apply parse_isbn_total; [discriminate|exact E1]|].
    destruct (PyStr.contains (txt "Physical Retail ISBN: ") content) eqn:E2;
      [apply parse_isbn_total; [discriminate|exact E2]|].
    eexists. reflexivity.
Qed.

Lemma parse_tab_total (soup : Soup) (id : tab_id) (d : Data) :
  id <> tab6 -> exists d', Scraper.parse_tab soup id d = Ok d'.
Proof.
  intros Hid. unfold Scraper.parse_tab. destruct (tab soup id); [|eexists; reflexivity].
  destruct id; try congruence; eexists; reflexivity.
Qed.

Lemma parse_tab6_ok (soup : Soup) (d : Data) :
  (exists d', Scraper.parse_tab soup tab6 d = Ok d')
  <-> forall t, tab soup tab6 = Some t -> production_ok t.
Proof.
  unfold Scraper.parse_tab, production_ok. destruct (tab soup tab6) as [t|].
  - rewrite parse_production_ok. split; [intros H t' [= <-]; exact H|intros H; exact (H t eq_refl)].
  - split; [intros _ t H; discriminate H|intros _; eexists; reflexivity].
Qed.

Lemma extract_ok (u : text) (soup : Soup) :
  (exists d, Scraper.extract base_url re_compile pad_year u soup = Ok d)
  <-> readable re_compile soup.
Proof.
  unfold Scraper.extract, readable. cbn [Scraper.parse_tabs].
  set (d0 := Scraper.empty_data u).
  assert (Hdesc : (exists x, match product_desc soup with
                             | Some pd => Scraper.parse_desc re_compile pd d0
                             | None => Ok d0
                             end = Ok x)
                  <-> forall pd, product_desc soup = Some pd -> desc_ok re_compile pd).
  { destruct (product_desc soup) as [pd|].
    - rewrite parse_desc_ok. split; [intros H pd' [= <-]; exact H|intros H; exact (H pd eq_refl)].
    - split; [intros _ pd H; discriminate H|intros _; eexists; reflexivity]. }
  rewrite <- Hdesc. split.
  - intros [d H]. apply bind_Ok in H as (x & Hx & H).
    split; [exists x; exact Hx|].
    apply bind_Ok in H as (d1 & _ & H). apply bind_Ok in H as (d2 & _ & H).
    apply bind_Ok in H as (d3 & _ & H). apply bind_Ok in H as (d4 & H4 & _).
    apply (parse_tab6_ok soup d3). exists d4. exact H4.
  - intros [[x Hx] H6]. rewrite Hx. cbn [bind].
    destruct (parse_tab_total soup tab1
                (Scraper.parse_credits soup
                   (Scraper.parse_date pad_year soup (Scraper.parse_cover base_url soup x))))
      as [d1 H1]; [discriminate|]. rewrite H1. cbn [bind].
    destruct (parse_tab_total soup tab2 d1) as [d2 H2]; [discriminate|]. rewrite H2. cbn [bind].
    destruct (parse_tab_total soup tab5 d2) as [d3 H3]; [discriminate|]. rewrite H3. cbn [bind].
    destruct (proj2 (parse_tab6_ok soup d3) H6) as [d4 H4]. rewrite H4. cbn [bind].
    eexists. reflexivity.
Qed.

End Readable.

(** X14.  The pages on which the extractor returns a record, exactly: a
    description block, if the page has one, holds both headings and the
    two patterns built from its series heading compile; a production
    tab, if the page has one and it contains [Duration:], contains it
    with a space after the colon.  On every other page an exception leaves
    [parse_data] and nothing is stored.  A page that is read is stored
    under the URL it was fetched from, in a row created at the current
    time, and the dict, the [urls] table, the clock and the output are as
    before. *)
Theorem X14_parse_data_returns (base_url : text) (BeautifulSoup : text -> option Soup)
    (re_compile : text -> result Regex) (pad_year : bool) (u html : text)
    (soup : Soup) (st : State) :
  BeautifulSoup html = Some soup ->
  ((exists d st', Scraper.parse_data base_url BeautifulSoup re_compile pad_year u html st
                  = Ok (Some d, st'))
   <-> readable re_compile soup)
  /\ (forall r st', Scraper.parse_data base_url BeautifulSoup re_compile pad_year u html st
                    = Ok (r, st') ->
        exists d, r = Some d /\ url d = u
                  /\ return_data_for_url u (db st')
                     = Some {| row_data := d; created_at := clock st |}
                  /\ all_links st' = all_links st /\ urls (db st') = urls (db st)
                  /\ clock st' = clock st /\ visits st' = visits st)
  /\ (~ readable re_compile soup ->
      exists e, Scraper.parse_data base_url BeautifulSoup re_compile pad_year u html st
                = Raise e).
Proof.
  intros Hs. rewrite <- (extract_ok base_url re_compile pad_year u soup).
  split; [|split].
  - unfold Scraper.parse_data. rewrite Hs. split.
    + intros (d & st' & H). apply bind_Ok in H as (x & Hx & _). exists x. exact Hx.
    + intros [d Hd]. rewrite Hd. cbn [bind]. eexists. eexists. reflexivity.
  - intros r st' H. apply parse_data_state in H as (Ha & Hu & Hc & Hv & Hr).
    destruct r as [d|]; [|destruct Hr as [Hr _]; congruence].
    destruct Hr as [(soup' & _ & Hx) Hdb]. apply extract_url in Hx.
    exists d. split; [reflexivity|]. split; [exact Hx|].
    split; [|repeat split; assumption].
    rewrite Hdb. unfold return_data_for_url, save_content. cbn [content].
    rewrite Hx, lookup_insert_eq. reflexivity.
  - intros Hn. unfold Scraper.parse_data. rewrite Hs.
    destruct (Scraper.extract base_url re_compile pad_year u soup) as [d|e] eqn:E.
    + exfalso. apply Hn. exists d. reflexivity.
    + exists e. reflexivity.
Qed.

Lemma X14_parse_data_witness :
  exists d st',
    Scraper.parse_data Sample.origin Sample.BeautifulSoup Sample.re_compile true
      (Sample.release "1") (txt "release1") Sample.one_release = Ok (Some d, st').
Proof.
  apply (proj1 (X14_parse_data_returns Sample.origin Sample.BeautifulSoup
                  Sample.re_compile true (Sample.release "1") (txt "release1")
                  Sample.release1 Sample.one_release eq_refl)).
  split.
  - intros pd [= <-]. exists (txt "1.2. The Actual Title"), (txt "Main Range").
    repeat split; eexists; reflexivity.
  - intros t [= <-] _. vm_compute. reflexivity.
Defined.

(** ** Splitting what was joined *)

(** No separator begins inside [h]: scanning [h ++ rest] reads [h] into
    the piece. *)
Lemma split_go_pass (sep h rest cur : text) :
  not_before sep h rest ->
  PyStr.split_go sep (h ++ rest) 0 cur = PyStr.split_go sep rest 0 (rev h ++ cur).
Proof.
  revert cur. induction h as [|c h IH]; intros cur Hnb; [reflexivity|].
  assert (E : PyStr.startswith ((c :: h) ++ rest) sep = false)
    by (apply (Hnb [] (c :: h) eq_refl); discriminate).
  cbn [app] in E |- *. rewrite split_go_cons, E.
  rewrite IH.
  - cbn [rev]. rewrite <- app_assoc. reflexivity.
  - intros a b Hab Hb. apply (Hnb (c :: a) b); [rewrite Hab; reflexivity|exact Hb].
Qed.

Lemma split_piece (sep h post : text) :
  sep <> [] -> not_before sep h (sep ++ post) ->
  PyStr.split sep (h ++ sep ++ post) = h :: PyStr.split sep post.
Proof.
  intros Hsep Hnb. unfold PyStr.split.
  rewrite (split_go_pass _ _ _ _ Hnb), (split_go_found _ _ _ Hsep).
  rewrite app_nil_r, rev_involutive. reflexivity.
Qed.

Lemma split_last (sep h : text) :
  not_before sep h [] -> PyStr.split sep h = [h].
Proof.
  intros Hnb. unfold PyStr.split.
  rewrite <- (app_nil_r h) at 1. rewrite (split_go_pass _ _ _ _ Hnb).
  cbn. rewrite app_nil_r, rev_involutive. reflexivity.
Qed.

Lemma contains_suffix (sub a b : text) :
  PyStr.startswith b sub = true -> PyStr.contains sub (a ++ b) = true.
Proof.
  intros H. induction a as [|c a IH].
  - destruct b; cbn [app PyStr.contains]; rewrite H; reflexivity.
  - cbn [app]. rewrite contains_cons, IH. apply orb_true_r.
Qed.

Lemma not_before_absent (sep h : text) :
  PyStr.contains sep h = false -> not_before sep h [].
Proof.
  intros H a b -> Hb. rewrite app_nil_r.
  destruct (PyStr.startswith b sep) eqn:E; [|reflexivity].
  rewrite (contains_suffix sep a b E) in H. discriminate H.
Qed.

(** A name without [", "] holds no beginning of a separator that the
    separator after it would complete. *)
Lemma not_before_comma (x tail : text) :
  no_comma_space x -> not_before (txt ", ") x (txt ", " ++ tail).
Proof.
  unfold no_comma_space. change (txt ", ") with [","%char; " "%char].
  intros H a b -> Hb.
  destruct (PyStr.startswith (b ++ [","%char; " "%char] ++ tail) [","%char; " "%char])
    eqn:E; [|reflexivity].
  exfalso. destruct b as [|c [|c2 b]]; [congruence| |].
  - cbn [app PyStr.startswith] in E. apply andb_true_iff in E as [_ E].
    apply andb_true_iff in E as [E _]. discriminate E.
  - assert (S : PyStr.startswith (c :: c2 :: b) [","%char; " "%char] = true).
    { cbn [app PyStr.startswith] in E |- *.
      apply andb_true_iff in E as [E1 E]. apply andb_true_iff in E as [E2 _].
      rewrite E1, E2. destruct b; reflexivity. }
    rewrite (contains_suffix _ a _ S) in H. discriminate H.
Qed.

Lemma split_join_names (l : list text) :
  l <> [] -> List.Forall no_comma_space l ->
  PyStr.split (txt ", ") (PyStr.join (txt ", ") l) = l.
Proof.
  induction l as [|x l IH]; intros Hl Hf; [congruence|].
  apply List.Forall_cons_iff in Hf as [Hx Hf].
  destruct l as [|y l].
  - cbn [PyStr.join]. apply split_last, not_before_absent, Hx.
  - change (PyStr.join (txt ", ") (x :: y :: l))
      with (x ++ txt ", " ++ PyStr.join (txt ", ") (y :: l)).
    rewrite split_piece; [|discriminate|apply not_before_comma, Hx].
    f_equal. apply IH; [discriminate|exact Hf].
Qed.

Lemma names_empty (l : list text) :
  Scraper.names l = [] <-> l = [] \/ exists x, l = [x] /\ PyStr.strip x = [].
Proof.
  unfold Scraper.names. destruct l as [|x [|y l]]; cbn [map PyStr.join].
  - split; [left; reflexivity|reflexivity].
  - split; [intros H; right; exists x; split; [reflexivity|exact H]|].
    intros [H|(z & [= <-] & H)]; [discriminate H|exact H].
  - split.
    + intros H. apply app_eq_nil in H as [_ H]. discriminate H.
    + intros [H|(z & H & _)]; discriminate H.
Qed.

(** X8.  The credits the extractor joins with [", "] are split back by
    both APIs into the names of the links, each stripped, when no name
    holds [", "] itself; a paragraph without links, or with one link of
    white space only, gives no list at all. *)
Theorem X8_names_round_trip (row : Data) (l : list text) :
  written_by row = Some (Scraper.names l) ->
  List.Forall (fun x => no_comma_space (PyStr.strip x)) l ->
  (Scraper.names l <> [] ->
     OutdatedApi.r_author (OutdatedApi.response row) = Some (map PyStr.strip l)
     /\ WebApi.r_authors (WebApi.response row) = Some (map PyStr.strip l))
  /\ (l = [] \/ (exists x, l = [x] /\ PyStr.strip x = []) ->
     OutdatedApi.r_author (OutdatedApi.response row) = None
     /\ WebApi.r_authors (WebApi.response row) = None
     /\ WebApi.r_author (WebApi.response row) = Some []).
Proof.
  intros Hw Hf. unfold OutdatedApi.response, WebApi.response.
  cbn [OutdatedApi.r_author WebApi.r_authors WebApi.r_author]. rewrite Hw.
  unfold split_names. split.
  - intros Hne. rewrite (truthy_nonempty _ Hne). cbn [PyStr.format].
    assert (E : PyStr.split (txt ", ") (Scraper.names l) = map PyStr.strip l).
    { unfold Scraper.names. apply split_join_names.
      - intros H. apply Hne. unfold Scraper.names. rewrite H. reflexivity.
      - apply List.Forall_forall. intros y Hy. apply in_map_iff in Hy as (x & <- & Hx).
        rewrite List.Forall_forall in Hf. exact (Hf x Hx). }
    rewrite E. split; reflexivity.
  - intros H. apply names_empty in H. rewrite H. repeat split.
Qed.

Lemma X8_names_witness :
  OutdatedApi.r_author
    (OutdatedApi.response
       (set_written_by (Some (Scraper.names [txt " Nicholas Briggs "; txt "Una McCormack"]))
          Sample.flux))
  = Some [txt "Nicholas Briggs"; txt "Una McCormack"].
Proof.
  refine (proj1 (proj1 (X8_names_round_trip
                          (set_written_by
                             (Some (Scraper.names [txt " Nicholas Briggs "; txt "Una McCormack"]))
                             Sample.flux)
                          [txt " Nicholas Briggs "; txt "Una McCormack"] eq_refl _) _)).
  - apply List.Forall_cons; [vm_compute; reflexivity|].
    apply List.Forall_cons; [vm_compute; reflexivity|apply List.Forall_nil].
  - discriminate.
Defined.

(** ** The steps of the extractor, field by field *)

Lemma parse_isbn_credits (marker content : text) (d d' : Data) :
  Scraper.parse_isbn marker content d = Ok d' -> same_credits d d'.
Proof.
  unfold Scraper.parse_isbn. intros H. apply bind_Ok in H as (v & _ & H).
  injection H as <-. repeat split.
Qed.

Lemma same_credits_trans (a b c : Data) :
  same_credits a b -> same_credits b c -> same_credits a c.
Proof.
  unfold same_credits. intros Hab Hbc.
  destruct Hab as (T1 & S1 & R1 & A1 & B1 & W1 & N1 & C1).
  destruct Hbc as (T2 & S2 & R2 & A2 & B2 & W2 & N2 & C2).
  repeat split; congruence.
Qed.

Lemma parse_tab6_credits (soup : Soup) (d d' : Data) :
  Scraper.parse_tab soup tab6 d = Ok d' -> same_credits d d'.
Proof.
  unfold Scraper.parse_tab. destruct (tab soup tab6) as [t|];
    [|intros [= <-]; repeat split].
  unfold Scraper.parse_production. intros H.
  apply bind_Ok in H as (d1 & H1 & H).
  assert (K1 : same_credits d d1).
  { destruct (PyStr.contains (txt "Duration:") _).
    - apply bind_Ok in H1 as (v & _ & H1). injection H1 as <-. repeat split.
    - injection H1 as <-. repeat split. }
  apply (same_credits_trans _ _ _ K1).
  destruct (PyStr.contains (txt "Digital Retail ISBN: ") _);
    [exact (parse_isbn_credits _ _ _ _ H)|].
  destruct (PyStr.contains (txt "Physical Retail ISBN: ") _);
    [exact (parse_isbn_credits _ _ _ _ H)|].
  injection H as <-. repeat split.
Qed.

Section Stages.

Variable base_url : text.
Variable re_compile : text -> result Regex.
Variable pad_year : bool.

Lemma strip_series_frame_all (name : text) (d d' : Data) :
  Scraper.strip_series re_compile name d = Ok d' ->
  release_date d' = release_date d /\ written_by d' = written_by d
  /\ narrated_by d' = narrated_by d /\ cover_url d' = cover_url d
  /\ about d' = about d /\ background d' = background d.
Proof.
  unfold Scraper.strip_series. intros H. apply bind_Ok in H as (r & _ & H).
  destruct (title d) as [t|]; [|discriminate H].
  destruct (re_search r t); injection H as <-; repeat split.
Qed.

Lemma split_tag_frame_all (d : Data) :
  release_date (Scraper.split_tag d) = release_date d
  /\ written_by (Scraper.split_tag d) = written_by d
  /\ narrated_by (Scraper.split_tag d) = narrated_by d
  /\ cover_url (Scraper.split_tag d) = cover_url d
  /\ about (Scraper.split_tag d) = about d
  /\ background (Scraper.split_tag d) = background d.
Proof.
  unfold Scraper.split_tag.
  destruct (Scraper.clean_title (title d)) as [p r].
  destruct (PyStr.truthy p); [|repeat split].
  destruct (Scraper.clean_title _) as [p2 r2].
  destruct (PyStr.truthy p2); repeat split.
Qed.

(** The description block writes the title, the series and the tag only. *)
Lemma parse_desc_blank (pd : ProductDesc) (u : text) (x : Data) :
  Scraper.parse_desc re_compile pd (Scraper.empty_data u) = Ok x ->
  release_date x = None /\ written_by x = None /\ narrated_by x = None
  /\ cover_url x = None /\ about x = None /\ background x = None.
Proof.
  unfold Scraper.parse_desc. intros H.
  apply bind_Ok in H as (d1 & H1 & H).
  apply strip_series_frame_all in H1 as (A1 & A2 & A3 & A4 & A5 & A6).
  destruct (series d1); [|discriminate H].
  apply strip_series_frame_all in H as (B1 & B2 & B3 & B4 & B5 & B6).
  cbn [release_date written_by narrated_by cover_url about background set_series]
    in A1, A2, A3, A4, A5, A6.
  destruct (split_tag_frame_all
              (set_title (PyStr.strip <$> pd_h3 pd) (Scraper.empty_data u)))
    as (C1 & C2 & C3 & C4 & C5 & C6).
  cbn [release_date written_by narrated_by cover_url about background set_title
       Scraper.empty_data] in C1, C2, C3, C4, C5, C6.
  repeat split; congruence.
Qed.

(** The steps of [extract], one after the other. *)
Lemma extract_stages (u : text) (soup : Soup) (d : Data) :
  Scraper.extract base_url re_compile pad_year u soup = Ok d ->
  exists x d3,
    (release_date x = None /\ written_by x = None /\ narrated_by x = None
     /\ cover_url x = None /\ about x = None /\ background x = None)
    /\ Scraper.parse_tab soup tab5
         (match tab soup tab2 with
          | Some t => set_background (Some (PyStr.strip (tab_text t)))
          | None => fun d => d
          end
            (match tab soup tab1 with
             | Some t => set_about (Some (PyStr.strip (tab_text t)))
             | None => fun d => d
             end
               (Scraper.parse_credits soup
                  (Scraper.parse_date pad_year soup (Scraper.parse_cover base_url soup x)))))
       = Ok d3
    /\ same_credits d3 d.
Proof.
  unfold Scraper.extract. intros H.
  apply bind_Ok in H as (x & Hx & H). cbn [Scraper.parse_tabs] in H.
  apply bind_Ok in H as (d1 & H1 & H). apply bind_Ok in H as (d2 & H2 & H).
  apply bind_Ok in H as (d3 & H3 & H). apply bind_Ok in H as (d4 & H4 & H).
  injection H as <-.
  exists x, d3. split.
  { destruct (product_desc soup) as [pd|]; [exact (parse_desc_blank pd u x Hx)|].
    injection Hx as <-. repeat split. }
  split; [|exact (parse_tab6_credits soup d3 d4 H4)].
  unfold Scraper.parse_tab in H1 at 1. unfold Scraper.parse_tab in H2 at 1.
  destruct (tab soup tab1); injection H1 as <-;
    destruct (tab soup tab2); injection H2 as <-; exact H3.
Qed.

End Stages.

(** ** Credits, cover and date of a record *)

(** X12.  In every record the extractor returns, the writers are the
    links of the first paragraph of the description block, and the
    narrators are the links of the cast tab [tab5] whenever the page has
    that tab, even an empty one: the second paragraph is used only on a page
    without it. *)
Theorem X12_credits_precedence (base_url : text) (re_compile : text -> result Regex)
    (pad_year : bool) (u : text) (soup : Soup) (d : Data) :
  Scraper.extract base_url re_compile pad_year u soup = Ok d ->
  written_by d
  = Scraper.names <$> nth_error (match product_desc soup with
                                 | Some pd => pd_paragraphs pd
                                 | None => []
                                 end) 0
  /\ narrated_by d
     = match tab soup tab5 with
       | Some t => Some (Scraper.names (tab_links t))
       | None => Scraper.names <$> nth_error (match product_desc soup with
                                              | Some pd => pd_paragraphs pd
                                              | None => []
                                              end) 1
       end.
Proof.
  intros H. apply extract_stages in H as (x & d3 & (_ & W & N & _) & H3 & S).
  destruct S as (_ & _ & _ & _ & _ & -> & -> & _).
  set (paragraphs := match product_desc soup with
                     | Some pd => pd_paragraphs pd
                     | None => []
                     end).
  set (c := Scraper.parse_credits soup _) in H3.
  assert (Hc : written_by c = Scraper.names <$> nth_error paragraphs 0
               /\ narrated_by c = Scraper.names <$> nth_error paragraphs 1).
  { unfold c, Scraper.parse_credits. fold paragraphs.
    set (y := Scraper.parse_date _ _ _).
    assert (Hy : written_by y = None /\ narrated_by y = None).
    { unfold y, Scraper.parse_date, Scraper.parse_cover.
      destruct (release_date_div soup); [destruct (PyStr.truthy _)|];
        destruct (cover_div soup) as [[img|]|]; split; assumption. }
    destruct Hy as [Hw Hn].
    destruct (nth_error paragraphs 0), (nth_error paragraphs 1); split; assumption || reflexivity. }
  destruct Hc as [Hw Hn].
  set (e := match tab soup tab2 with
            | Some t => set_background (Some (PyStr.strip (tab_text t)))
            | None => fun d => d
            end _) in H3.
  assert (He : written_by e = written_by c /\ narrated_by e = narrated_by c)
    by (unfold e; destruct (tab soup tab2), (tab soup tab1); split; reflexivity).
  destruct He as [Ew En].
  unfold Scraper.parse_tab in H3. destruct (tab soup tab5) as [t|]; injection H3 as <-.
  - cbn [written_by narrated_by set_narrated_by]. split; [congruence|reflexivity].
  - split; congruence.
Qed.

Lemma X12_credits_witness :
  written_by full_record = Some (txt "Alan Barnes")
  /\ narrated_by full_record = Some (txt "Paul McGann, India Fisher").
Proof.
  assert (E : Scraper.extract Sample.origin Sample.re_compile true (Sample.release "3")
                full_release = Ok full_record) by (vm_compute; reflexivity).
  exact (X12_credits_precedence Sample.origin Sample.re_compile true
           (Sample.release "3") full_release full_record E).
Defined.

(** X13.  The cover image decides two fields of every record returned: a
    non-empty [alt] text replaces the title read from the heading, and a
    non-empty [src] is stored as it is when it begins with [http] and with
    the base URL before it otherwise; a page without the image has no
    cover URL. *)
Theorem X13_cover_decides (base_url : text) (re_compile : text -> result Regex)
    (pad_year : bool) (u : text) (soup : Soup) (d : Data) :
  Scraper.extract base_url re_compile pad_year u soup = Ok d ->
  match cover_div soup with
  | Some (Some img) =>
      (PyStr.truthy (img_alt img) = true -> title d = img_alt img)
      /\ (forall c, img_src img = Some c -> c <> [] ->
            cover_url d = Some (if PyStr.startswith c (txt "http") then c else base_url ++ c))
      /\ (PyStr.truthy (img_src img) = false -> cover_url d = img_src img)
  | _ => cover_url d = None
  end.
Proof.
  intros H. apply extract_stages in H as (x & d3 & (_ & _ & _ & C & _) & H3 & S).
  destruct S as (-> & _ & _ & _ & _ & _ & _ & ->).
  set (p := Scraper.parse_cover base_url soup x) in H3.
  assert (Hd : title d3 = title p /\ cover_url d3 = cover_url p).
  { unfold Scraper.parse_tab in H3.
    assert (Hc : title (Scraper.parse_credits soup (Scraper.parse_date pad_year soup p))
                 = title p
                 /\ cover_url (Scraper.parse_credits soup (Scraper.parse_date pad_year soup p))
                    = cover_url p).
    { unfold Scraper.parse_credits, Scraper.parse_date.
      destruct (nth_error _ 0), (nth_error _ 1), (release_date_div soup);
        try destruct (PyStr.truthy (DateParser.parse_release_date _ _));
        split; reflexivity. }
    destruct Hc as [<- <-].
    destruct (tab soup tab5); injection H3 as <-;
      destruct (tab soup tab2), (tab soup tab1); split; reflexivity. }
  destruct Hd as [-> ->]. unfold p, Scraper.parse_cover.
  destruct (cover_div soup) as [[img|]|]; try exact C.
  cbn [title cover_url set_title set_cover_url].
  split; [intros ->; reflexivity|]. split.
  - intros c Hs Hne. rewrite Hs. rewrite (truthy_nonempty c Hne). cbn [PyStr.format andb].
    destruct (PyStr.startswith c (txt "http")); reflexivity.
  - intros ->. reflexivity.
Qed.

Lemma X13_cover_witness :
  title full_record = Some (txt "Storm Warning (cover)")
  /\ cover_url full_record = Some (txt "https://www.bigfinish.com/img/storm.jpg")
  /\ series_tag full_record = Some (txt "1").
Proof.
  assert (E : Scraper.extract Sample.origin Sample.re_compile true (Sample.release "3")
                full_release = Ok full_record) by (vm_compute; reflexivity).
  destruct (X13_cover_decides Sample.origin Sample.re_compile true
              (Sample.release "3") full_release full_record E) as (T & C & _).
  split; [exact (T eq_refl)|]. split; [|vm_compute; reflexivity].
  apply (C (txt "/img/storm.jpg") eq_refl). discriminate.
Defined.

(** ** The year of a release *)

Lemma digit_char_digit (n : Z) :
  (0 <= n <= 9)%Z -> PyStr.isdigit (DateParser.digit_char n) = true.
Proof.
  intros H. apply isdigit_code. unfold DateParser.digit_char, PyStr.code.
  rewrite nat_ascii_embedding by lia. lia.
Qed.

Lemma mod10_range (n : Z) : (0 <= n mod 10 <= 9)%Z.
Proof. pose proof (Z.mod_pos_bound n 10). lia. Qed.

Lemma pad4_digits (y : Z) :
  (0 <= y <= 9999)%Z -> digits (DateParser.pad4 y) /\ length (DateParser.pad4 y) = 4.
Proof.
  intros H. split; [|reflexivity]. unfold digits, DateParser.pad4. cbn [forallb].
  assert (H1 : (0 <= y / 1000 <= 9)%Z).
  { split; [apply Z.div_pos; lia|]. apply Z.lt_succ_r. apply Z.div_lt_upper_bound; lia. }
  rewrite (digit_char_digit _ H1), !(digit_char_digit _ (mod10_range _)). reflexivity.
Qed.

Lemma pad2_digits (m : Z) : digits (DateParser.pad2 m) /\ length (DateParser.pad2 m) = 2.
Proof.
  split; [|reflexivity]. unfold digits, DateParser.pad2. cbn [forallb].
  rewrite !(digit_char_digit _ (mod10_range _)). reflexivity.
Qed.

Lemma drop_zeros_cons (c c2 : ascii) (s : text) :
  DateParser.drop_zeros (c :: c2 :: s)
  = if Ascii.eqb c "0" then DateParser.drop_zeros (c2 :: s) else c :: c2 :: s.
Proof. reflexivity. Qed.

Lemma drop_zeros_digits (s : text) :
  digits s -> s <> [] ->
  digits (DateParser.drop_zeros s) /\ 1 <= length (DateParser.drop_zeros s) <= length s.
Proof.
  unfold digits. induction s as [|c s IH]; intros Hd Hne; [congruence|].
  destruct s as [|c2 s].
  - split; [exact Hd|cbn; lia].
  - rewrite drop_zeros_cons. destruct (Ascii.eqb c "0").
    + change (forallb PyStr.isdigit (c :: c2 :: s))
        with (PyStr.isdigit c && forallb PyStr.isdigit (c2 :: s)) in Hd.
      apply andb_true_iff in Hd as [_ Hd].
      destruct (IH Hd) as [H1 H2]; [discriminate|]. split; [exact H1|].
      change (length (c :: c2 :: s)) with (S (length (c2 :: s))). lia.
    + split; [exact Hd|cbn [length]; lia].
Qed.

Lemma strftime_Y_digits (pad_year : bool) (y : Z) :
  (0 <= y <= 9999)%Z ->
  digits (DateParser.strftime_Y pad_year y)
  /\ 1 <= length (DateParser.strftime_Y pad_year y) <= 4
  /\ (pad_year = true -> length (DateParser.strftime_Y pad_year y) = 4).
Proof.
  intros H. destruct (pad4_digits y H) as [D L]. unfold DateParser.strftime_Y.
  destruct pad_year.
  - split; [exact D|]. rewrite L. split; [lia|reflexivity].
  - destruct (drop_zeros_digits (DateParser.pad4 y) D) as [D' L']; [discriminate|].
    rewrite L in L'. split; [exact D'|]. split; [exact L'|discriminate].
Qed.

(** The date the normalizer returns is the first day of a month. *)
Lemma parse_release_date_first_day (pad_year : bool) (s : option text) (date : text) :
  DateParser.parse_release_date pad_year s = Some date -> first_day pad_year date.
Proof.
  intros H. destruct s as [s|]; [|discriminate H].
  apply parse_release_date_sound in H
    as (pre & w & ws & ys & post & k & y & _ & _ & _ & _ & _ & _ & _ & _ & _ & Hy & ->).
  destruct (strftime_Y_digits pad_year y) as (D & L & P); [lia|].
  destruct (pad2_digits k) as [D2 L2].
  exists (DateParser.strftime_Y pad_year y), (DateParser.pad2 k).
  repeat split; try assumption; lia.
Qed.

Lemma not_before_digits (Y tail : text) :
  digits Y -> not_before (txt "-") Y tail.
Proof.
  unfold digits. intros HD a b -> Hb. rewrite forallb_app in HD.
  apply andb_true_iff in HD as [_ HD]. destruct b as [|c b]; [congruence|].
  cbn [forallb] in HD. apply andb_true_iff in HD as [Hc _].
  destruct (isdigit_not_sign c Hc) as [_ Hm].
  change (txt "-") with ["-"%char]. cbn [app PyStr.startswith].
  rewrite Ascii.eqb_sym, Hm. reflexivity.
Qed.

Lemma first_day_year (pad_year : bool) (Y rest : text) :
  digits Y -> nth 0 (PyStr.split (txt "-") (Y ++ txt "-" ++ rest)) [] = Y.
Proof.
  intros HD. rewrite split_piece; [reflexivity|discriminate|].
  apply not_before_digits, HD.
Qed.

(** X9.  The release date of every record the extractor returns is absent
    or the first day of a month, written as year, month and [01] with
    hyphens between; the live API reports the date as it is and the digits
    before the first hyphen as the year; a page without a date the
    normalizer reads has neither. *)
Theorem X9_published_year (base_url : text) (re_compile : text -> result Regex)
    (pad_year : bool) (u : text) (soup : Soup) (d : Data) :
  Scraper.extract base_url re_compile pad_year u soup = Ok d ->
  release_date d
  = match release_date_div soup with
    | Some t => DateParser.parse_release_date pad_year (Some (PyStr.strip t))
    | None => None
    end
  /\ match release_date d with
     | None => WebApi.r_publishedYear (WebApi.response d) = None
               /\ WebApi.r_publishedDate (WebApi.response d) = None
     | Some date =>
         exists Y M,
           date = Y ++ txt "-" ++ M ++ txt "-01"
           /\ digits Y /\ 1 <= length Y <= 4 /\ (pad_year = true -> length Y = 4)
           /\ digits M /\ length M = 2
           /\ WebApi.r_publishedYear (WebApi.response d) = Some Y
           /\ WebApi.r_publishedDate (WebApi.response d) = Some date
     end.
Proof.
  intros H. apply extract_stages in H as (x & d3 & (R & _) & H3 & S).
  destruct S as (_ & _ & HR & _).
  set (p := Scraper.parse_date pad_year soup (Scraper.parse_cover base_url soup x)) in H3.
  assert (Hd : release_date d3 = release_date p).
  { unfold Scraper.parse_tab in H3.
    assert (Hc : release_date (Scraper.parse_credits soup p) = release_date p).
    { unfold Scraper.parse_credits.
      destruct (nth_error _ 0), (nth_error _ 1); reflexivity. }
    rewrite <- Hc.
    destruct (tab soup tab5); injection H3 as <-;
      destruct (tab soup tab2), (tab soup tab1); reflexivity. }
  assert (Hx : release_date (Scraper.parse_cover base_url soup x) = None).
  { unfold Scraper.parse_cover. destruct (cover_div soup) as [[img|]|]; exact R. }
  assert (Hp : release_date p
               = match release_date_div soup with
                 | Some t => DateParser.parse_release_date pad_year (Some (PyStr.strip t))
                 | None => None
                 end).
  { unfold p, Scraper.parse_date. destruct (release_date_div soup) as [t|]; [|exact Hx].
    destruct (DateParser.parse_release_date pad_year (Some (PyStr.strip t)))
      as [date|] eqn:E; [|exact Hx].
    destruct (parse_release_date_first_day _ _ _ E) as (Y & M & -> & _ & L & _).
    destruct Y; [cbn in L; lia|]. reflexivity. }
  rewrite HR, Hd, Hp. split; [reflexivity|].
  unfold WebApi.response. cbn [WebApi.r_publishedYear WebApi.r_publishedDate].
  rewrite HR, Hd, Hp.
  destruct (match release_date_div soup with
            | Some t => DateParser.parse_release_date pad_year (Some (PyStr.strip t))
            | None => None
            end) as [date|] eqn:E; [|split; reflexivity].
  assert (F : first_day pad_year date).
  { destruct (release_date_div soup); [|discriminate E].
    exact (parse_release_date_first_day _ _ _ E). }
  destruct F as (Y & M & -> & DY & LY & PY & DM & LM).
  exists Y, M. split; [reflexivity|]. repeat (split; [assumption|]).
  assert (T : PyStr.truthy (Some (Y ++ txt "-" ++ M ++ txt "-01")) = true)
    by (destruct Y; [cbn in LY; lia|reflexivity]).
  rewrite T. cbn [PyStr.format]. rewrite (first_day_year pad_year Y _ DY).
  split; reflexivity.
Qed.

Lemma X9_published_year_witness :
  WebApi.r_publishedYear (WebApi.response full_record) = Some (txt "2001")
  /\ WebApi.r_publishedDate (WebApi.response full_record) = Some (txt "2001-01-01").
Proof.
  assert (E : Scraper.extract Sample.origin Sample.re_compile true (Sample.release "3")
                full_release = Ok full_record) by (vm_compute; reflexivity).
  pose proof (proj2 (X9_published_year Sample.origin Sample.re_compile true
                       (Sample.release "3") full_release full_record E)) as H.
  destruct H as (Y & M & HY & DY & _ & _ & _ & _ & H1 & H2).
  split; [|exact H2]. rewrite H1. f_equal.
  pose proof (f_equal (fun s => nth 0 (PyStr.split (txt "-") s) []) HY) as F.
  cbv beta in F. rewrite (first_day_year true Y _ DY) in F. rewrite <- F.
  vm_compute. reflexivity.
Defined.

(** ** The field after a marker, read forwards *)

Lemma not_before_char (c : ascii) (v tail : text) :
  ~ In c v -> not_before [c] v tail.
Proof.
  intros H a b -> Hb. destruct b as [|x b]; [congruence|].
  cbn [app PyStr.startswith].
  destruct (Ascii.eqb c x) eqn:E; [|reflexivity].
  apply Ascii.eqb_eq in E. subst x. exfalso. apply H, in_or_app. right. left. reflexivity.
Qed.

(** The first piece of [v ++ h] when no separator begins inside [v]: [v]
    and a part of [h] that is empty when [h] begins with the separator. *)
Lemma first_piece (sep v h : text) :
  sep <> [] -> not_before sep v h ->
  exists h' r,
    PyStr.index (PyStr.split sep (v ++ h)) 0 = Ok (v ++ h')
    /\ h = h' ++ r
    /\ (PyStr.startswith h sep = true -> h' = [])
    /\ forall c, sep = [c] -> ~ In c h'.
Proof.
  intros Hsep Hnb. unfold PyStr.split. rewrite (split_go_pass _ _ _ _ Hnb), app_nil_r.
  destruct (PyStr.startswith h sep) eqn:E.
  - destruct (startswith_inv _ _ E) as [post ->].
    rewrite (split_go_found _ _ _ Hsep), rev_involutive.
    exists [], (sep ++ post). rewrite app_nil_r.
    repeat split; auto.
  - destruct (split_go_head sep h (rev v) Hsep) as (h' & r & l & H1 & H2 & _ & H4).
    rewrite H1, rev_involutive. exists h', r.
    split; [reflexivity|]. split; [exact H2|]. split; [discriminate|exact H4].
Qed.

(** The converse of [field_after_inv]: the field between the first
    occurrence of the marker and the place where it stops. *)
Lemma field_after_exact (marker pre v rest : text) :
  marker <> [] ->
  not_before marker pre (marker ++ v ++ rest) ->
  not_before marker v rest ->
  ~ In " "%char v -> ~ In Re.newline v ->
  stops_at marker rest ->
  Scraper.field_after marker (pre ++ marker ++ v ++ rest) = Ok v.
Proof.
  intros Hm Hpre Hv Hsp Hnl Hstop. unfold Scraper.field_after.
  rewrite (split_piece _ _ _ Hm Hpre).
  change (PyStr.index (pre :: PyStr.split marker (v ++ rest)) 1)
    with (PyStr.index (PyStr.split marker (v ++ rest)) 0).
  destruct (first_piece marker v rest Hm Hv) as (h1 & r1 & -> & E1 & M1 & _).
  cbn [bind].
  destruct (first_piece (txt " ") v h1) as (h2 & r2 & -> & E2 & S2 & N2);
    [discriminate|apply not_before_char, Hsp|].
  cbn [bind].
  destruct (first_piece [Re.newline] v h2) as (h3 & r3 & -> & E3 & S3 & N3);
    [discriminate|apply not_before_char, Hnl|].
  assert (H3 : h3 = []).
  { destruct h3 as [|c h3]; [reflexivity|]. exfalso.
    assert (Hrest : rest = c :: h3 ++ r3 ++ r2 ++ r1)
      by (rewrite E1, E2, E3, <- !app_assoc; reflexivity).
    destruct Hstop as [H|[H|[H|H]]].
    - congruence.
    - rewrite Hrest in H. cbn [txt list_ascii_of_string PyStr.startswith] in H.
      apply andb_true_iff in H as [H _]. apply Ascii.eqb_eq in H. subst c.
      apply (N2 " "%char eq_refl). rewrite E3. left. reflexivity.
    - rewrite Hrest in H. cbn [PyStr.startswith] in H.
      apply andb_true_iff in H as [H _]. apply Ascii.eqb_eq in H. subst c.
      apply (N3 Re.newline eq_refl). left. reflexivity.
    - specialize (M1 H). rewrite E2, E3 in M1. discriminate M1. }
  rewrite H3, app_nil_r. reflexivity.
Qed.

Lemma not_before_nondigit (m0 : ascii) (ms v tail : text) :
  PyStr.isdigit m0 = false -> digits v -> not_before (m0 :: ms) v tail.
Proof.
  unfold digits. intros Hm HD a b -> Hb. rewrite forallb_app in HD.
  apply andb_true_iff in HD as [_ HD]. destruct b as [|c b]; [congruence|].
  cbn [forallb] in HD. apply andb_true_iff in HD as [Hc _].
  cbn [app PyStr.startswith].
  destruct (Ascii.eqb m0 c) eqn:E; [|reflexivity].
  apply Ascii.eqb_eq in E. subst c. congruence.
Qed.

Lemma digits_without (c : ascii) (v : text) :
  PyStr.isdigit c = false -> digits v -> ~ In c v.
Proof.
  unfold digits. intros Hc HD Hin. rewrite forallb_forall in HD.
  rewrite (HD c Hin) in Hc. discriminate Hc.
Qed.

(** A check of [not_before] by running over the positions of [pre]. *)
Lemma not_before_check (marker pre tail : text) :
  forallb (fun k => negb (PyStr.startswith (skipn k pre ++ tail) marker))
    (seq 0 (length pre)) = true ->
  not_before marker pre tail.
Proof.
  intros H a b -> Hb. rewrite forallb_forall in H.
  specialize (H (length a)). rewrite skipn_exact in H.
  apply negb_true_iff, H, in_seq. rewrite length_app.
  destruct b; [congruence|cbn [length]; lia].
Qed.

(** ** From the production tab to the duration of a response *)

Lemma filter_digits (v : text) : digits v -> List.filter PyStr.isdigit v = v.
Proof.
  unfold digits. induction v as [|c v IH]; intros H; [reflexivity|].
  cbn [forallb] in H. apply andb_true_iff in H as [Hc Hv].
  cbn [List.filter]. rewrite Hc, (IH Hv). reflexivity.
Qed.

Lemma last_digit (v : text) (e : ascii) :
  digits v -> v <> [] -> PyStr.isdigit (List.last v e) = true.
Proof.
  unfold digits. intros H Hne. rewrite forallb_forall in H. apply H.
  destruct (List.exists_last Hne) as (l & x & ->). rewrite List.last_last.
  apply in_or_app. right. left. reflexivity.
Qed.

(** Digits are read to the end, whatever was read before them. *)
Lemma int_digits_total (v : text) (acc : Z) (prev_digit : bool) :
  digits v -> v <> [] \/ prev_digit = true -> (0 <= acc)%Z ->
  exists n, PyStr.int_digits v acc prev_digit = Some n /\ (0 <= n)%Z.
Proof.
  unfold digits. revert acc prev_digit. induction v as [|c v IH]; intros acc b H Hb Ha.
  - destruct Hb as [Hb| ->]; [congruence|]. exists acc. split; [reflexivity|exact Ha].
  - cbn [forallb] in H. apply andb_true_iff in H as [Hc Hv].
    cbn [PyStr.int_digits]. rewrite Hc.
    apply IH; [exact Hv|right; reflexivity|].
    pose proof (digit_val_range c Hc). lia.
Qed.

(** [int] of a text of digits: their value, unless there are more than
    [max_str_digits] of them. *)
Lemma int_of_digits (v : text) :
  digits v -> v <> [] ->
  PyStr.int v
  = if (PyStr.max_str_digits <? Z.of_nat (length v))%Z then None
    else PyStr.int_digits v 0 false.
Proof.
  intros HD Hne. destruct v as [|c s]; [congruence|].
  assert (Hc : PyStr.isdigit c = true).
  { unfold digits in HD. cbn [forallb] in HD. apply andb_true_iff in HD as [Hc _]. exact Hc. }
  unfold PyStr.int.
  rewrite (int_strip_digits c s c Hc (last_digit (c :: s) c HD Hne)).
  destruct (isdigit_not_sign c Hc) as [-> ->]. cbn [orb].
  rewrite (filter_digits (c :: s) HD). reflexivity.
Qed.

(** X7.  A production tab that reads [Duration: ] followed by digits, at
    the first occurrence of the marker and with the end of the text, a
    space, a newline or the marker after the digits, gives a record whose
    duration is those digits.  Of up to 4300 digits [int] reads the value:
    the live API reports it as it is and the local API that value times
    60, and both report no duration when the value is 0.  Of more digits
    [int] raises [ValueError], which both APIs catch: they report no
    duration. *)
Theorem X7_duration_of_page (base_url : text) (re_compile : text -> result Regex)
    (pad_year : bool) (u : text) (soup : Soup) (d : Data) (t : Tab)
    (pre v rest : text) :
  Scraper.extract base_url re_compile pad_year u soup = Ok d ->
  tab soup tab6 = Some t ->
  PyStr.strip (tab_text t) = pre ++ txt "Duration: " ++ v ++ rest ->
  not_before (txt "Duration: ") pre (txt "Duration: " ++ v ++ rest) ->
  digits v -> v <> [] ->
  stops_at (txt "Duration: ") rest ->
  duration d = Some v
  /\ ((Z.of_nat (length v) <= PyStr.max_str_digits)%Z ->
      exists n,
        PyStr.int v = Some n /\ (0 <= n)%Z
        /\ WebApi.r_duration (WebApi.response d) = (if (n =? 0)%Z then None else Some n)
        /\ OutdatedApi.r_duration (OutdatedApi.response d)
           = (if (n =? 0)%Z then None else Some (n * 60)%Z))
  /\ ((PyStr.max_str_digits < Z.of_nat (length v))%Z ->
      PyStr.int v = None
      /\ WebApi.r_duration (WebApi.response d) = None
      /\ OutdatedApi.r_duration (OutdatedApi.response d) = None).
Proof.
  intros H Ht Hc Hpre HD Hne Hstop.
  assert (Hdur : duration d = Some v).
  { apply extract_inv in H as (d3 & _ & _ & _ & H).
    unfold Scraper.parse_tab in H. rewrite Ht, Hc in H.
    unfold Scraper.parse_production in H.
    assert (C : PyStr.contains (txt "Duration:") (pre ++ txt "Duration: " ++ v ++ rest) = true)
      by (apply contains_suffix; reflexivity).
    rewrite C in H.
    rewrite (field_after_exact (txt "Duration: ") pre v rest) in H;
      [|discriminate|exact Hpre|apply not_before_nondigit; [reflexivity|exact HD]
       |apply digits_without; [reflexivity|exact HD]
       |apply digits_without; [reflexivity|exact HD]|exact Hstop].
    cbn [bind] in H.
    destruct (PyStr.contains (txt "Digital Retail ISBN: ") _).
    - unfold Scraper.parse_isbn in H. apply bind_Ok in H as (x & _ & H).
      injection H as <-. reflexivity.
    - destruct (PyStr.contains (txt "Physical Retail ISBN: ") _).
      + unfold Scraper.parse_isbn in H. apply bind_Ok in H as (x & _ & H).
        injection H as <-. reflexivity.
      + injection H as <-. reflexivity. }
  split; [exact Hdur|].
  unfold WebApi.response, OutdatedApi.response, duration_minutes.
  cbn [WebApi.r_duration OutdatedApi.r_duration]. rewrite Hdur.
  rewrite (truthy_nonempty v Hne). cbn [PyStr.format].
  rewrite (int_of_digits v HD Hne). split.
  - intros Hle.
    replace (PyStr.max_str_digits <? Z.of_nat (length v))%Z with false
      by (symmetry; apply Z.ltb_ge; exact Hle).
    destruct (int_digits_total v 0 false HD (or_introl Hne)) as (n & Hn & Hpos); [lia|].
    exists n. rewrite Hn. split; [reflexivity|]. split; [exact Hpos|].
    cbn [truthy_int PyStr.to_Z]. destruct (n =? 0)%Z; split; reflexivity.
  - intros Hgt.
    replace (PyStr.max_str_digits <? Z.of_nat (length v))%Z with true
      by (symmetry; apply Z.ltb_lt; exact Hgt).
    repeat split.
Qed.

Lemma X7_duration_witness :
  duration full_record = Some (txt "120")
  /\ WebApi.r_duration (WebApi.response full_record) = Some 120%Z
  /\ OutdatedApi.r_duration (OutdatedApi.response full_record) = Some 7200%Z.
Proof.
  destruct (X7_duration_of_page Sample.origin Sample.re_compile true (Sample.release "3")
              full_release full_record
              {| tab_text := txt "Recorded in London. Duration: 120 minutes"; tab_links := [] |}
              (txt "Recorded in London. ") (txt "120") (txt " minutes"))
    as (D & A & _).
  - vm_compute. reflexivity.
  - reflexivity.
  - vm_compute. reflexivity.
  - apply not_before_check. vm_compute. reflexivity.
  - reflexivity.
  - discriminate.
  - right. left. reflexivity.
  - split; [exact D|].
    destruct A as (n & Hn & _ & W & O); [vm_compute; discriminate|].
    assert (E : PyStr.int (txt "120") = Some 120%Z) by (vm_compute; reflexivity).
    rewrite E in Hn. injection Hn as <-. split; [exact W|exact O].
Defined.

(** ** The live API, all or nothing *)

Section LiveApi.

Variable ratio : text -> text -> Z.

Lemma scored_ok (query : text) (m : option Data) :
  (exists x, WebApi.scored ratio query m = Ok x) <-> scorable m.
Proof.
  unfold WebApi.scored, scorable. split.
  - intros [x H]. destruct m as [row|]; [|discriminate H].
    exists row. split; [reflexivity|]. destruct (title row); [discriminate|discriminate H].
  - intros (row & -> & Ht). destruct (title row); [eexists; reflexivity|congruence].
Qed.

Lemma scored_matches_inv (query : text) (top_matches : list (option Data))
    (l : list (Z * Data)) :
  WebApi.scored_matches ratio query top_matches = Ok l ->
  List.Forall scorable top_matches /\ length l = length top_matches
  /\ map (fun x => Some (snd x)) l = top_matches.
Proof.
  revert l. induction top_matches as [|m rest IH]; intros l H.
  - injection H as <-. split; [apply List.Forall_nil|split; reflexivity].
  - cbn [WebApi.scored_matches] in H. apply bind_Ok in H as (x & Hx & H).
    apply bind_Ok in H as (l' & Hl & H). injection H as <-.
    destruct (IH l' Hl) as (F & L & M).
    split; [apply List.Forall_cons; [apply (proj1 (scored_ok query m)); exists x; exact Hx|exact F]|].
    split; [cbn [length]; rewrite L; reflexivity|].
    cbn [map]. rewrite M. f_equal.
    unfold WebApi.scored in Hx. destruct m as [row|]; [|discriminate Hx].
    destruct (title row); [|discriminate Hx]. injection Hx as <-. reflexivity.
Qed.

Lemma scored_matches_total (query : text) (top_matches : list (option Data)) :
  List.Forall scorable top_matches ->
  exists l, WebApi.scored_matches ratio query top_matches = Ok l.
Proof.
  induction 1 as [|m rest Hm _ [l Hl]]; [exists []; reflexivity|].
  apply (proj2 (scored_ok query m)) in Hm as [x Hx].
  cbn [WebApi.scored_matches]. rewrite Hx, Hl. exists (x :: l). reflexivity.
Qed.

(** The candidate that makes the scoring raise is the first one that
    cannot be scored. *)
Lemma scored_matches_raise (query : text) (pre post : list (option Data))
    (m : option Data) :
  List.Forall scorable pre -> ~ scorable m ->
  WebApi.scored_matches ratio query (pre ++ m :: post)
  = Raise (match m with None => TypeError | Some _ => AttributeError end).
Proof.
  intros Hpre Hm. induction Hpre as [|p pre Hp _ IH].
  - cbn [app WebApi.scored_matches]. unfold WebApi.scored.
    destruct m as [row|]; [|reflexivity].
    destruct (title row) eqn:E; [|reflexivity].
    exfalso. apply Hm. exists row. split; [reflexivity|congruence].
  - apply (proj2 (scored_ok query p)) in Hp as [x Hx].
    cbn [app WebApi.scored_matches]. rewrite Hx, IH. reflexivity.
Qed.

End LiveApi.

(** X15.  The live API answers for every candidate or for none: it
    returns exactly when each candidate is a record with a title, and then
    with one response per candidate, each the response of one of them;
    otherwise it raises, [TypeError] when the first candidate it cannot
    score is the [None] of a page that did not parse and [AttributeError]
    when it is a record without title. *)
Theorem X15_live_api_all_or_nothing (ratio : text -> text -> Z) (query : text)
    (top_matches : list (option Data)) :
  ((exists l, WebApi.search_audiobooks ratio query top_matches = Ok l)
   <-> List.Forall scorable top_matches)
  /\ (forall l, WebApi.search_audiobooks ratio query top_matches = Ok l ->
        length l = length top_matches
        /\ forall r, In r l -> exists row, In (Some row) top_matches
                                           /\ r = WebApi.response row)
  /\ (forall pre m post,
        top_matches = pre ++ m :: post -> List.Forall scorable pre -> ~ scorable m ->
        WebApi.search_audiobooks ratio query top_matches
        = Raise (match m with None => TypeError | Some _ => AttributeError end)).
Proof.
  unfold WebApi.search_audiobooks, WebApi.sorted_matches. split; [|split].
  - split.
    + intros [l H]. apply bind_Ok in H as (s & H & _). apply bind_Ok in H as (l0 & H & _).
      exact (proj1 (scored_matches_inv ratio query top_matches l0 H)).
    + intros H. destruct (scored_matches_total ratio query top_matches H) as [l0 H0].
      rewrite H0. cbn [bind]. eexists. reflexivity.
  - intros l H. apply bind_Ok in H as (s & H & Hl). apply bind_Ok in H as (l0 & H & Hs).
    injection Hs as <-. injection Hl as <-.
    destruct (scored_matches_inv ratio query top_matches l0 H) as (_ & L & M).
    pose proof (sort_desc_perm fst l0) as P.
    split.
    + rewrite length_map, (Permutation_length P). exact L.
    + intros r Hr. apply in_map_iff in Hr as (x & <- & Hx).
      exists (snd x). split; [|reflexivity].
      rewrite <- M. apply in_map_iff. exists x. split; [reflexivity|].
      exact (Permutation_in _ P Hx).
  - intros pre m post -> Hpre Hm.
    rewrite (scored_matches_raise ratio query pre post m Hpre Hm). reflexivity.
Qed.

(** ** The live endpoint and the cache *)

Lemma same_fields_map (datas : list (option Search.hit)) (rows : list Row) :
  List.Forall2 same_fields datas rows ->
  map (fmap Search.fields) (map (fun r => Some (Search.Stored r)) rows)
  = map (fmap Search.fields) datas.
Proof.
  induction 1 as [|data r datas rows (x & -> & Hx & _) _ IH]; [reflexivity|].
  cbn [map fmap option_fmap option_map Search.fields]. rewrite IH, Hx. reflexivity.
Qed.

Lemma resolved_in (d : Database.t) (ids : list (option text))
    (datas : list (option Search.hit)) (row : Data) :
  List.Forall2 (resolved d) ids datas ->
  In (Some row) (map (fmap Search.fields) datas) ->
  exists i r, row_data r = row /\ return_data_for_url (Search.detail_url i) d = Some r.
Proof.
  induction 1 as [|id data ids datas (i & _ & Hd) _ IH]; intros Hin; [contradiction|].
  destruct Hin as [E|Hin]; [|exact (IH Hin)].
  destruct data as [[x|r]|]; cbn in E; [| |discriminate E]; injection E as <-.
  - destruct Hd as [c Hd]. exists i. eexists. split; [|exact Hd]. reflexivity.
  - exists i, r. split; [reflexivity|exact Hd].
Qed.

(** X16.  A live search that answers can be repeated from the cache: every
    response is that of a row the store now holds under a detail URL, and
    the same query on the session it leaves gives the same responses in
    the same order with the suggest request alone; the responses are made
    of the thirteen fields, so that the rows read back having [created_at]
    as well makes no difference to them. *)
Theorem X16_live_search_repeatable (ratio : text -> text -> Z)
    (BeautifulSoup : text -> option Soup) (re_compile : text -> result Regex)
    (suggest : text -> option (option Search.suggestions))
    (http_get : text -> option text) (latency : text -> Z) (pad_year : bool)
    (query : text) (ss ss' : Search.Session) (l : list WebApi.AudioBookResponse) :
  live_search ratio BeautifulSoup re_compile suggest http_get latency pad_year query ss
  = Search.Done (Ok l, ss') ->
  (forall r, In r l ->
     exists i row, r = WebApi.response (row_data row)
                   /\ return_data_for_url (Search.detail_url i) (Search.store ss') = Some row)
  /\ live_search ratio BeautifulSoup re_compile suggest http_get latency pad_year query ss'
     = Search.Done (Ok l, Search.request latency (Search.suggest_url query) ss').
Proof.
  unfold live_search.
  destruct (Search.search _ _ _ _ _ _ query ss) as [[datas ss1]|e] eqn:E; [|discriminate].
  intros [= Hl <-].
  set (top := map (fmap Search.fields) datas) in *.
  assert (Hs : List.Forall scorable top).
  { unfold WebApi.search_audiobooks, WebApi.sorted_matches in Hl.
    apply bind_Ok in Hl as (s & H & _). apply bind_Ok in H as (l0 & H & _).
    exact (proj1 (scored_matches_inv ratio query top l0 H)). }
  split.
  - intros r Hr.
    unfold WebApi.search_audiobooks, WebApi.sorted_matches in Hl.
    apply bind_Ok in Hl as (s & H & Hl). apply bind_Ok in H as (l0 & H & Hs0).
    injection Hs0 as <-. injection Hl as <-.
    destruct (scored_matches_inv ratio query top l0 H) as (_ & _ & M).
    apply in_map_iff in Hr as (x & <- & Hx).
    apply (Permutation_in _ (sort_desc_perm fst l0)) in Hx.
    pose proof (X := E). unfold Search.search in X.
    destruct (suggest (Search.suggest_url query)) as [[[|ids]|]|]; try discriminate X.
    + injection X as <- _. subst top. cbn in M. destruct l0; [contradiction|discriminate M].
    + apply resolve_all_spec in X as (ds & _ & Ed & R & _). cbn [app] in Ed. subst ds.
      destruct (resolved_in _ ids datas (snd x) R) as (i & row & Hrow & Hi).
      { fold top. rewrite <- M. apply in_map_iff. exists x. split; [reflexivity|exact Hx]. }
      exists i, row. split; [rewrite Hrow; reflexivity|exact Hi].
  - assert (Hn : List.Forall (fun data => data <> None) datas).
    { apply List.Forall_forall. intros data Hd ->.
      rewrite List.Forall_forall in Hs.
      destruct (Hs None) as (row & Hrow & _); [|discriminate Hrow].
      unfold top. apply in_map_iff. exists None. split; [reflexivity|exact Hd]. }
    destruct (search_again _ _ _ _ _ _ _ _ _ _ E Hn) as (rows & F & A).
    rewrite (A ss1 eq_refl), (same_fields_map _ _ F). fold top. rewrite Hl. reflexivity.
Qed.

Lemma X16_live_search_witness :
  exists l ss',
    live_search Sample.ratio Sample.BeautifulSoup Sample.re_compile sample_suggest
      Sample.http_get Sample.latency true (txt "The Actual Title") sample_session
    = Search.Done (Ok l, ss')
    /\ length l = 2
    /\ live_search Sample.ratio Sample.BeautifulSoup Sample.re_compile sample_suggest
         Sample.http_get Sample.latency true (txt "The Actual Title") ss'
       = Search.Done (Ok l, Search.request Sample.latency
                              (Search.suggest_url (txt "The Actual Title")) ss').
Proof.
  assert (E : exists l ss',
             live_search Sample.ratio Sample.BeautifulSoup Sample.re_compile sample_suggest
               Sample.http_get Sample.latency true (txt "The Actual Title") sample_session
             = Search.Done (Ok l, ss') /\ length l = 2)
    by (eexists; eexists; vm_compute; split; reflexivity).
  destruct E as (l & ss' & E & L). exists l, ss'.
  split; [exact E|]. split; [exact L|].
  exact (proj2 (X16_live_search_repeatable _ _ _ _ _ _ _ _ _ _ _ E)).
Defined.

(** ** The statistics after a run *)

Lemma filter_nil_inv {A} (f : A -> bool) (l : list A) :
  List.filter f l = [] -> forall x, In x l -> f x = false.
Proof.
  induction l as [|a l IH]; intros H x Hx; [contradiction|].
  cbn [List.filter] in H. destruct (f a) eqn:E; [discriminate H|].
  destruct Hx as [<-|Hx]; [exact E|exact (IH H x Hx)].
Qed.

Lemma unvisited_nil_flags (st : State) :
  Scraper.unvisited_links st = [] ->
  forall lv, In lv (all_links st) -> Scraper.is_detail (fst lv) = true -> snd lv = true.
Proof.
  unfold Scraper.unvisited_links. intros H lv Hin Hd.
  apply map_eq_nil in H. pose proof (filter_nil_inv _ _ H lv Hin) as F.
  cbv beta in F. rewrite Hd, andb_true_r in F. apply negb_false_iff in F. exact F.
Qed.

(** X11.  The numbers [get_statistics] prints after a run that ended
    normally: visited and remaining add up to the total; the total is at
    least the number of URLs known before the run; every detail page is
    among the visited; and the remaining URLs are exactly the unvisited
    URLs that are not detail pages (range and hub pages, which the loop
    never selects). *)
Theorem X11_statistics_after_run (base_url : text) (BeautifulSoup : text -> option Soup)
    (re_compile : text -> result Regex) (http_get : text -> option text)
    (latency : text -> Z) (pad_year : bool) (fuel : nat) (st st' : State)
    (total_urls visited_urls unvisited_urls : nat) :
  consistent st ->
  Scraper.run base_url BeautifulSoup re_compile http_get latency pad_year fuel st
  = Some (Ok st') ->
  get_statistics st' = (total_urls, visited_urls, unvisited_urls) ->
  visited_urls + unvisited_urls = total_urls
  /\ length (all_links st) <= total_urls
  /\ length (List.filter (fun lv => Scraper.is_detail (fst lv)) (all_links st'))
     <= visited_urls
  /\ unvisited_urls
     = length (List.filter (fun lv => negb (snd lv) && negb (Scraper.is_detail (fst lv)))
                 (all_links st')).
Proof.
  intros Hc H Hs. unfold Scraper.run in H.
  pose proof (bootstrap_grows base_url BeautifulSoup http_get latency st Hc) as G0.
  destruct (crawl_grows _ _ _ _ _ _ _ _ _ (grows_consistent _ _ G0) H) as [G1 Hnil].
  pose proof (grows_trans _ _ _ G0 G1) as G.
  unfold get_statistics in Hs. injection Hs as <- <- <-.
  pose proof (List.filter_length snd (all_links st')) as L.
  split; [lia|]. split.
  - rewrite <- (length_map fst (all_links st)), <- (length_map fst (all_links st')).
    apply List.NoDup_incl_length; [exact (proj1 Hc)|exact (grows_frontier _ _ G)].
  - split.
    + apply filter_length_le. intros lv Hin Hd. exact (unvisited_nil_flags st' Hnil lv Hin Hd).
    + replace (length (all_links st') - length (List.filter snd (all_links st')))
        with (length (List.filter (fun x => negb (snd x)) (all_links st'))) by lia.
      f_equal. apply List.filter_ext_in. intros lv Hin.
      destruct (Scraper.is_detail (fst lv)) eqn:Hd; [|rewrite andb_true_r; reflexivity].
      rewrite (unvisited_nil_flags st' Hnil lv Hin Hd). reflexivity.
Qed.

Lemma X11_statistics_witness :
  exists st',
    Scraper.run Sample.origin Sample.BeautifulSoup Sample.re_compile Sample.http_get
      Sample.latency true 4 Sample.start = Some (Ok st')
    /\ get_statistics st' = (3, 2, 1)
    /\ length (List.filter (fun lv => Scraper.is_detail (fst lv)) (all_links st')) <= 2.
Proof.
  assert (E : exists st',
             Scraper.run Sample.origin Sample.BeautifulSoup Sample.re_compile
               Sample.http_get Sample.latency true 4 Sample.start = Some (Ok st')
             /\ get_statistics st' = (3, 2, 1))
    by (eexists; vm_compute; split; reflexivity).
  destruct E as (st' & E & S). exists st'. split; [exact E|]. split; [exact S|].
  destruct (X11_statistics_after_run Sample.origin Sample.BeautifulSoup Sample.re_compile
              Sample.http_get Sample.latency true 4 Sample.start st' 3 2 1
              (init_consistent Database.empty 0) E S) as (_ & _ & H & _).
  exact H.
Defined.

(** ** Edges of the date normalizer *)

Lemma truthy_lower (s : text) :
  PyStr.truthy (Some (PyStr.lower s)) = PyStr.truthy (Some s).
Proof. destruct s; reflexivity. Qed.

Lemma cleaned_lower (s : text) : DateParser.cleaned (PyStr.lower s) = DateParser.cleaned s.
Proof. unfold DateParser.cleaned. rewrite lower_idem. reflexivity. Qed.

(** X6.  The normalizer does not tell upper case from lower case: a text
    and its lower-case form give the same result.  And a year [0000] after
    a month name gives no date: [datetime] rejects the year and the
    [ValueError] is caught. *)
Theorem X6_normalizer_edges (pad_year : bool) :
  (forall s, DateParser.parse_release_date pad_year (Some (PyStr.lower s))
             = DateParser.parse_release_date pad_year (Some s))
  /\ (forall present lead R ws M sep trail k,
        forallb PyStr.isspace lead = true ->
        PyStr.lower R = txt "released" ->
        forallb PyStr.isspace ws = true ->
        DateParser.lookup (PyStr.lower M) DateParser.MONTHS = Some k ->
        sep <> [] -> forallb PyStr.isspace sep = true ->
        DateParser.parse_release_date pad_year
          (Some (lead ++ released_token present R ws ++ M ++ sep ++ txt "0000" ++ trail))
        = None).
Proof.
  split.
  - intros s. unfold DateParser.parse_release_date.
    rewrite truthy_lower. cbn [PyStr.format]. rewrite cleaned_lower. reflexivity.
  - intros present lead R ws M sep trail k Hlead HR Hws Hk Hs0 Hs.
    destruct (month_name _ _ Hk) as (Hma & Hm0 & _ & Hk12 & _).
    assert (HM0 : M <> []) by (intros ->; apply Hm0; reflexivity).
    assert (Hnr : PyStr.lower M <> txt "released").
    { intros E. rewrite E in Hk. discriminate Hk. }
    change (txt "0000" ++ trail) with (["0"; "0"; "0"; "0"]%char ++ trail).
    rewrite parse_shape; try assumption; [|right; exact Hnr|reflexivity].
    rewrite Hk. reflexivity.
Qed.

Lemma X6_normalizer_witness :
  DateParser.parse_release_date true (Some (txt " Released  March 0000")) = None.
Proof.
  apply (proj2 (X6_normalizer_edges true) true (txt " ") (txt "Released") (txt " ")
           (txt "March") (txt " ") [] 3%Z); try reflexivity; discriminate.
Defined.

(** ** The suggest request *)

Lemma split_go_nonempty (sep s : text) (skip : nat) (cur : text) :
  PyStr.split_go sep s skip cur <> [].
Proof.
  revert skip cur. induction s as [|c s IH]; intros skip cur; [discriminate|].
  cbn [PyStr.split_go]. destruct skip; [|apply IH].
  destruct (PyStr.startswith (c :: s) sep); [discriminate|apply IH].
Qed.

Lemma join_cons (sep x : text) (l : list text) :
  l <> [] -> PyStr.join sep (x :: l) = x ++ sep ++ PyStr.join sep l.
Proof. destruct l; [congruence|reflexivity]. Qed.

Lemma replace_char_go (c d : ascii) (s cur : text) :
  PyStr.join [d] (PyStr.split_go [c] s 0 cur) = rev cur ++ map (subst_char c d) s.
Proof.
  revert cur. induction s as [|x s IH]; intros cur.
  - cbn. rewrite app_nil_r. reflexivity.
  - rewrite split_go_cons. cbn [map PyStr.startswith length Nat.sub].
    unfold subst_char at 1. rewrite Ascii.eqb_sym.
    destruct (Ascii.eqb x c).
    + replace (true && PyStr.startswith s []) with true by (destruct s; reflexivity).
      rewrite join_cons by apply split_go_nonempty.
      rewrite IH. reflexivity.
    + cbn [andb]. rewrite IH. cbn [rev]. rewrite <- app_assoc. reflexivity.
Qed.

(** [s.replace(c, d)] for single characters, character by character. *)
Lemma replace_char (c d : ascii) (s : text) :
  PyStr.replace [c] [d] s = map (subst_char c d) s.
Proof. unfold PyStr.replace, PyStr.split. apply replace_char_go. Qed.

Lemma hex_digit_in (n : nat) : In (Search.hex_digit n) (txt "00123456789ABCDEF").
Proof.
  unfold Search.hex_digit.
  destruct (Nat.lt_ge_cases n (length (txt "0123456789ABCDEF"))) as [H|H].
  - right. apply nth_In. exact H.
  - left. symmetry. apply nth_overflow. exact H.
Qed.

Lemma percent_chars (b : nat) (x : ascii) :
  In x (Search.percent b) -> In x (txt "%00123456789ABCDEF").
Proof.
  unfold Search.percent. intros [<-|[<-|[<-|[]]]].
  - left. reflexivity.
  - right. apply hex_digit_in.
  - right. apply hex_digit_in.
Qed.

Lemma quote_chars (s : text) (x : ascii) :
  In x (Search.quote s) -> Search.safe x = true \/ In x (txt "%00123456789ABCDEF").
Proof.
  unfold Search.quote. intros H. apply in_flat_map in H as (c & _ & H).
  unfold Search.quote_char in H. destruct (Search.safe c) eqn:E.
  - destruct H as [<-|[]]. left. exact E.
  - right. destruct (PyStr.code c <? 128).
    + exact (percent_chars _ _ H).
    + apply in_app_or in H as [H|H]; exact (percent_chars _ _ H).
Qed.

(** X17.  The suggest request treats a colon as a space: the query is
    sent with every colon replaced, so two queries that differ only in
    colons against spaces request the same URL; and the escaped query holds
    neither a space nor a colon, a space being sent as [%20]. *)
Theorem X17_suggest_url_colon (query : text) :
  Search.suggest_url query
  = txt "https://www.bigfinish.com/search_results/suggest/"
    ++ Search.quote (map (subst_char ":" " ") query)
  /\ Search.suggest_url (map (subst_char ":" " ") query) = Search.suggest_url query
  /\ Search.suggest_url (map (subst_char " " ":") query) = Search.suggest_url query
  /\ (forall x, In x (Search.quote (PyStr.replace (txt ":") (txt " ") query)) ->
        x <> ":"%char /\ x <> " "%char)
  /\ Search.quote (txt ": ") = txt "%3A%20".
Proof.
  unfold Search.suggest_url. change (txt ":") with [":"%char]. change (txt " ") with [" "%char].
  rewrite !replace_char, !map_map.
  split; [reflexivity|]. split.
  { do 2 f_equal. apply map_ext. intros a. unfold subst_char.
    destruct (Ascii.eqb a ":") eqn:E; [reflexivity|]. rewrite E. reflexivity. }
  split.
  { do 2 f_equal. apply map_ext. intros a. unfold subst_char.
    destruct (Ascii.eqb a " ") eqn:E.
    - apply Ascii.eqb_eq in E. subst a. reflexivity.
    - destruct (Ascii.eqb a ":"); reflexivity. }
  split; [|reflexivity].
  intros x Hx. apply quote_chars in Hx as [Hx|Hx].
  - split; intros ->; discriminate Hx.
  - split; intros ->; vm_compute in Hx; repeat (destruct Hx as [Hx|Hx]; [discriminate Hx|]);
      exact Hx.
Qed.

(** ** The first request of a run *)

(** X18.  The home page is requested only by a scraper that knows no URL.
    When that request fails or gives an empty body, the run ends at once:
    no URL is known, nothing was visited or stored, only the time of the
    request has passed.  A scraper that knows a URL starts the loop from
    what it knows, without the request. *)
Theorem X18_first_request (base_url : text) (BeautifulSoup : text -> option Soup)
    (re_compile : text -> result Regex) (http_get : text -> option text)
    (latency : text -> Z) (pad_year : bool) (fuel : nat) (st : State) :
  (all_links st = [] -> PyStr.truthy (http_get base_url) = false ->
   Scraper.run base_url BeautifulSoup re_compile http_get latency pad_year (S fuel) st
   = Some (Ok {| all_links := []; db := db st;
                 clock := (clock st + latency base_url)%Z; visits := visits st |}))
  /\ (all_links st <> [] ->
      Scraper.run base_url BeautifulSoup re_compile http_get latency pad_year fuel st
      = Scraper.crawl base_url BeautifulSoup re_compile http_get latency pad_year fuel st).
Proof.
  unfold Scraper.run, Scraper.bootstrap, Scraper.get_html. split.
  - intros Ha Hf. rewrite Ha, Hf. reflexivity.
  - intros Ha. destruct (all_links st); [congruence|reflexivity].
Qed.

Lemma X18_first_request_witness :
  Scraper.run Sample.origin Sample.BeautifulSoup Sample.re_compile (fun _ => None)
    Sample.latency true 1 Sample.start
  = Some (Ok {| all_links := []; db := Database.empty; clock := 1; visits := [] |}).
Proof.
  apply (proj1 (X18_first_request Sample.origin Sample.BeautifulSoup Sample.re_compile
                  (fun _ => None) Sample.latency true 0 Sample.start)).
  - vm_compute. reflexivity.
  - reflexivity.
Defined.
